(** * Data-ingestion pipeline of crypto_trading_ai_agents: a shallow embedding

    The development follows [src/data/data_ingestion]: the cache check and
    save of [BaseData], the per-source fetchers built on it, and the
    orchestration and merge of [DataManager].  The file loop of
    [template.py] is modelled apart, on a disk of its own.

    Conventions of the embedding.
    - A point in time is an integer number of milliseconds since the epoch
      ([Z]); [datetime.now()] is a field of the environment and does not
      move during a run.  The conversion [int(ts.timestamp() * 1000)] goes
      through binary64 floats as in Python ([float_ms]): it gives the time
      back for whole seconds and can lose a millisecond otherwise.
    - A data frame has one datetime column, named [time_name], and further
      named columns of cells; no further column is named [open_time] or
      [timestamp].  A numeric cell holds an integer (a decimal taken at a
      fixed scale), and a decimal sent as text in a payload is the number
      [JNum] of that integer; floating-point rounding is not modelled.
    - A cache file is represented by what [pd.read_csv] makes of it: the
      exception it raises or the table it returns, whose datetime values are
      text until [pd.to_datetime] is applied.  Writing a table and reading
      it back gives the same rows.  A write that fails raises [OSError] and
      leaves the file unchanged or torn, as the environment says.
    - Python code that may raise runs in a state-and-exception monad over a
      [World]: the cache files and the trace of log records, HTTP requests
      and entries of [fetch_and_store] methods.  A raise keeps the world
      reached so far.  A log record keeps the fixed text of the message and
      its string arguments.
    - What the outside world answers (HTTP responses as a function of the
      request, the clock, the indicator, sentiment, price-history and
      resampling libraries) is read from an environment [Env].
    - The [while True] loop of the OHLCV fetch takes fuel; [OutOfFuel] is
      the outcome of a run that needs more page requests than the fuel
      allows. *)

From Stdlib Require Import ZArith List Ascii String Lia Bool Sorted Permutation.
From Stdlib Require SpecFloat.
From stdpp Require Import base gmap strings list.
Import ListNotations.

Local Open Scope string_scope.
Local Open Scope Z_scope.

(** ** Values *)

Inductive exn :=
| RequestException   (* requests.exceptions.RequestException *)
| KeyError
| ValueError
| TypeError
| IndexError
| AttributeError
| ParserError        (* pandas.errors.ParserError *)
| EmptyDataError     (* pandas.errors.EmptyDataError *)
| OSError.

(** The outcome of running a piece of code: a value, an exception, or no
    outcome yet because the fuel given to an unbounded loop ran out. *)
Inductive Result (A : Type) :=
| Ok (a : A)
| Raise (e : exn)
| OutOfFuel.
Arguments Ok {A} a.
Arguments Raise {A} e.
Arguments OutOfFuel {A}.

Definition rbind {A B} (r : Result A) (k : A -> Result B) : Result B :=
  match r with
  | Ok a => k a
  | Raise e => Raise e
  | OutOfFuel => OutOfFuel
  end.

Fixpoint rmap_list {A B} (f : A -> Result B) (l : list A) : Result (list B) :=
  match l with
  | [] => Ok []
  | a :: l' => rbind (f a) (fun b => rbind (rmap_list f l') (fun bs => Ok (b :: bs)))
  end.

Inductive Cell :=
| NaN
| Num (z : Z)
| Text (s : string)
| Time (t : Z).

Definition Row : Type := Z * list Cell.

(** [parsed] tells whether the datetime values of the frame are [Timestamp]
    objects, as in a frame built from a response, or still text, as in a
    frame that [pd.read_csv] returned. *)
Record DataFrame := {
  time_name : string;
  columns : list string;
  rows : list Row;
  parsed : bool
}.

(** A [datetime] argument; [as_text] when the caller passes the text of one. *)
Record Moment := {
  when : Z;
  as_text : bool
}.

Definition lookup_last {A} (k : string) (l : list (string * A)) : option A :=
  fold_left (fun acc kv => if String.eqb (fst kv) k then Some (snd kv) else acc) l None.

(** [pd.DataFrame()] *)
Definition empty_df : DataFrame :=
  {| time_name := ""; columns := []; rows := []; parsed := true |}.

(** [df.empty] *)
Definition df_empty (df : DataFrame) : bool :=
  match rows df with [] => true | _ => false end.

(** [len(df)] *)
Definition df_len (df : DataFrame) : nat := length (rows df).

#[local] Unset Elimination Schemes.
Inductive json :=
| JNull
| JNum (z : Z)
| JStr (s : string)
| JArr (l : list json)
| JObj (l : list (string * json)).
#[local] Set Elimination Schemes.

Inductive pval :=
| PStr (s : string)
| PInt (z : Z)
| PTime (t : Z).    (* the text that [strftime] gives for [t] *)

Definition Params : Type := list (string * pval).

Inductive Response :=
| HttpError               (* the request fails or [raise_for_status] raises *)
| Body (j : json).

(** ** The world *)

Inductive level := INFO | WARNING | ERROR.

Inductive event :=
| Log (l : level) (msg : string)
| HttpGet (url : string) (params : Params)
| Call (method : string).     (* a [fetch_and_store] method is entered *)

(** What [pd.read_csv] makes of a file that exists. *)
Inductive FileData :=
| Corrupt (e : exn)
| Csv (df : DataFrame).

Record World := {
  files : gmap string FileData;
  trace : list event
}.

Record Env := {
  now : Z;                                          (* datetime.now() *)
  raw_dir : string;                                 (* config['data_paths']['raw'] *)
  http : string -> Params -> Response;              (* requests.get *)
  writable : string -> bool;                        (* whether to_csv succeeds *)
  torn : string -> DataFrame -> option FileData;    (* what a failed to_csv leaves *)
  talib : list Cell -> Result (list (list Cell));   (* the eight indicators per row *)
  vader : string -> Cell;                           (* polarity_scores(text)['compound'] *)
  yf_history : Z -> Z -> Result (list (Z * Cell));  (* ^GSPC daily Date and Close *)
  pct_change : list Cell -> list Cell;              (* Series.pct_change().fillna(0) *)
  resample_4h_ffill : DataFrame -> Result DataFrame; (* set_index/resample('4H')/ffill/reset_index *)
  pandas_frame : json -> Result DataFrame           (* the kline frame of an irregular payload *)
}.

(** ** The monad of Python statements *)

Definition M (A : Type) : Type := World -> Result A * World.

Definition ret {A} (a : A) : M A := fun w => (Ok a, w).

Definition bind {A B} (m : M A) (k : A -> M B) : M B :=
  fun w => match m w with
           | (Ok a, w') => k a w'
           | (Raise e, w') => (Raise e, w')
           | (OutOfFuel, w') => (OutOfFuel, w')
           end.

Definition raise {A} (e : exn) : M A := fun w => (Raise e, w).

(** [try: m  except Exception as e: h e] *)
Definition try_except {A} (m : M A) (h : exn -> M A) : M A :=
  fun w => match m w with
           | (Ok a, w') => (Ok a, w')
           | (Raise e, w') => h e w'
           | (OutOfFuel, w') => (OutOfFuel, w')
           end.

Definition lift {A} (r : Result A) : M A := fun w => (r, w).

Declare Scope py_scope.
Delimit Scope py_scope with py.
Notation "x <- m ;; k" := (bind m (fun x => k))
  (at level 100, m at next level, right associativity) : py_scope.
Notation "m ;;; k" := (bind m (fun _ => k))
  (at level 100, right associativity) : py_scope.
Local Open Scope py_scope.

Definition emit (ev : event) : M unit :=
  fun w => (Ok tt, {| files := files w; trace := (trace w ++ [ev])%list |}).

Definition log (l : level) (msg : string) : M unit := emit (Log l msg).

(** [logger.exception] writes an ERROR record. *)
Definition log_exception (msg : string) : M unit := emit (Log ERROR msg).

Definition enter (method : string) : M unit := emit (Call method).

(** [requests.get(url, params)] followed by [raise_for_status()] and [json()]. *)
Definition requests_get (E : Env) (url : string) (params : Params) : M json :=
  emit (HttpGet url params) ;;;
  match http E url params with
  | HttpError => raise RequestException
  | Body j => ret j
  end.

Definition path_exists (p : string) : M bool :=
  fun w => (Ok (match files w !! p with Some _ => true | None => false end), w).

Definition as_read (df : DataFrame) : DataFrame :=
  {| time_name := time_name df; columns := columns df; rows := rows df; parsed := false |}.

(** [pd.read_csv(p)] on a path that exists: datetimes come back as text. *)
Definition read_csv (p : string) : M DataFrame :=
  fun w => match files w !! p with
           | Some (Csv df) => (Ok (as_read df), w)
           | Some (Corrupt e) => (Raise e, w)
           | None => (Raise OSError, w)
           end.

(** [df.to_csv(p, index=False)].  A write that fails raises [OSError];
    it has changed nothing when the file could not be opened, and when it
    broke off after the file was opened, which empties the file, it leaves
    at [p] the file [torn E p df]. *)
Definition to_csv (E : Env) (df : DataFrame) (p : string) : M unit :=
  fun w => if writable E p
           then (Ok tt, {| files := <[p := Csv (as_read df)]> (files w); trace := trace w |})
           else (Raise OSError,
                 match torn E p df with
                 | Some fd => {| files := <[p := fd]> (files w); trace := trace w |}
                 | None => w
                 end).

(** ** Strings and paths *)

Definition upper_ascii (c : ascii) : ascii :=
  let n := nat_of_ascii c in
  if (97 <=? n)%nat && (n <=? 122)%nat then ascii_of_nat (n - 32) else c.

Definition lower_ascii (c : ascii) : ascii :=
  let n := nat_of_ascii c in
  if (65 <=? n)%nat && (n <=? 90)%nat then ascii_of_nat (n + 32) else c.

Fixpoint str_map (f : ascii -> ascii) (s : string) : string :=
  match s with
  | EmptyString => EmptyString
  | String c s' => String (f c) (str_map f s')
  end.

Definition upper := str_map upper_ascii.
Definition lower := str_map lower_ascii.

Fixpoint str_prefix (p s : string) : bool :=
  match p, s with
  | EmptyString, _ => true
  | String a p', String b s' => Ascii.eqb a b && str_prefix p' s'
  | String _ _, EmptyString => false
  end.

Fixpoint ends_with_slash (s : string) : bool :=
  match s with
  | EmptyString => false
  | String c EmptyString => Ascii.eqb c "/"
  | String _ s' => ends_with_slash s'
  end.

(** [os.path.join(a, b)] on a POSIX system *)
Definition path_join (a b : string) : string :=
  if str_prefix "/" b then b
  else if String.eqb a "" || ends_with_slash a then a +:+ b
  else a +:+ "/" +:+ b.

(** ** [BaseData] *)

Record BaseData := {
  symbol : string;
  interval : string;
  data_dir : string
}.

(** [BaseData.__init__] *)
Definition BaseData_init (E : Env) (sym itv : string) : BaseData :=
  {| symbol := upper sym; interval := itv; data_dir := raw_dir E |}.

Definition cache_path (dir sym itv data_type : string) : string :=
  path_join dir (sym +:+ "_" +:+ itv +:+ "_" +:+ data_type +:+ ".csv").

(** [timedelta(hours=4)] and [pd.Timedelta(hours=4)] *)
Definition four_hours : Z := 14400000.

(** [df[key]] for the datetime column *)
Definition time_values (key : string) (df : DataFrame) : Result (list Z) :=
  if String.eqb key (time_name df) then Ok (map fst (rows df)) else Raise KeyError.

Fixpoint maximum (l : list Z) : option Z :=
  match l with
  | [] => None
  | x :: l' => match maximum l' with
               | None => Some x
               | Some m => Some (Z.max x m)
               end
  end.

Fixpoint minimum (l : list Z) : option Z :=
  match l with
  | [] => None
  | x :: l' => match minimum l' with
               | None => Some x
               | Some m => Some (Z.min x m)
               end
  end.

Definition time_key (data_type : string) : string :=
  if String.eqb data_type "ohlcv" then "open_time" else "timestamp".

(** [BaseData._check_local_data] *)
Definition check_local_data (E : Env) (self : BaseData) (data_type : string)
  : M (bool * DataFrame) :=
  let file_path := cache_path (data_dir self) (symbol self) (interval self) data_type in
  present <- path_exists file_path ;;
  if negb present then
    log INFO ("No local data found for " +:+ data_type +:+ " at " +:+ file_path) ;;;
    ret (false, empty_df)
  else
    df <- read_csv file_path ;;
    if df_empty df then
      log INFO ("Empty local data for " +:+ data_type +:+ " at " +:+ file_path) ;;;
      ret (false, empty_df)
    else
      ts <- lift (time_values (time_key data_type) df) ;;
      match maximum ts with
      | None => raise ValueError
      | Some latest_timestamp =>
          if now E - latest_timestamp <? four_hours then
            log INFO ("Local " +:+ data_type +:+ " data is up-to-date at " +:+ file_path) ;;;
            ret (true, df)
          else
            log INFO ("Local " +:+ data_type +:+ " data is outdated at " +:+ file_path) ;;;
            ret (false, df)
      end.

(** [BaseData._save_data] *)
Definition save_data (E : Env) (self : BaseData) (df : DataFrame) (data_type : string)
  : M unit :=
  if negb (df_empty df) then
    let file_path := cache_path (data_dir self) (symbol self) (interval self) data_type in
    to_csv E df file_path ;;;
    log INFO ("Saved " +:+ data_type +:+ " data to " +:+ file_path)
  else
    log WARNING ("No " +:+ data_type +:+ " data to save for " +:+ symbol self).

(** ** JSON payloads *)

(** [j[key]] on a decoded payload; in a decoded object the last of several
    equal keys is the one kept. *)
Definition json_get (key : string) (j : json) : Result json :=
  match j with
  | JObj l => match lookup_last key l with
              | Some v => Ok v
              | None => Raise KeyError
              end
  | _ => Raise TypeError
  end.

(** Python truth value of a decoded payload *)
Definition json_truthy (j : json) : bool :=
  match j with
  | JNull => false
  | JNum z => negb (z =? 0)
  | JStr s => negb (String.eqb s "")
  | JArr l => match l with [] => false | _ => true end
  | JObj l => match l with [] => false | _ => true end
  end.

(** [j == s] for a string [s] *)
Definition json_eq_str (j : json) (s : string) : bool :=
  match j with
  | JStr s' => String.eqb s' s
  | _ => false
  end.

(** ** Columns of a frame *)

Fixpoint index_of (name : string) (l : list string) : option nat :=
  match l with
  | [] => None
  | c :: l' => if String.eqb c name then Some O
               else match index_of name l' with
                    | Some i => Some (S i)
                    | None => None
                    end
  end.

(** [df[name]] for a column other than the datetime column *)
Definition column (name : string) (df : DataFrame) : Result (list Cell) :=
  match index_of name (columns df) with
  | None => Raise KeyError
  | Some i => Ok (map (fun r : Row => nth i (snd r) NaN) (rows df))
  end.

(** [s.iloc[0]] and [s.iloc[-1]] *)
Definition iloc_first {A} (l : list A) : Result A :=
  match l with
  | [] => Raise IndexError
  | a :: _ => Ok a
  end.

Definition iloc_last {A} (l : list A) : Result A :=
  match rev l with
  | [] => Raise IndexError
  | a :: _ => Ok a
  end.

(** The binary64 number nearest to an integer, and [int(x)] of a binary64
    number: the fraction is dropped.  (The product below is finite for
    every time that a [Timestamp] can hold.) *)
Definition binary64 (z : Z) : SpecFloat.spec_float :=
  SpecFloat.binary_normalize 53 1024 z 0 false.

Definition int_of_float (x : SpecFloat.spec_float) : Z :=
  match x with
  | SpecFloat.S754_finite s m e =>
      let a := if 0 <=? e then Zpos m * 2 ^ e else Zpos m / 2 ^ (- e) in
      if s then - a else a
  | _ => 0
  end.

(** [int(ts.timestamp() * 1000)] for the [Timestamp] [ts] of [t]
    milliseconds.  [ts.timestamp()] is a float, the binary64 number nearest
    to [t / 1000] seconds; its product with 1000 is rounded to binary64
    again, and [int] drops the fraction.  The result is [t] for whole
    seconds, and can be one millisecond off otherwise: for 1001 ms the
    product is 1000.9999999999999 and the result 1000. *)
Definition float_ms (t : Z) : Z :=
  int_of_float
    (SpecFloat.SFmul 53 1024
       (SpecFloat.SFdiv 53 1024 (binary64 t) (binary64 1000))
       (binary64 1000)).

(** [int(x.timestamp() * 1000)]: text has no [timestamp] method. *)
Definition timestamp_ms (is_parsed : bool) (t : Z) : Result Z :=
  if is_parsed then Ok (float_ms t) else Raise AttributeError.

(** [x.strftime(fmt)]: text has no [strftime] method; the rendering of a
    moment stands for the moment. *)
Definition strftime (is_datetime : bool) (t : Z) : Result Z :=
  if is_datetime then Ok t else Raise AttributeError.

Definition cell_timestamp_ms (is_parsed : bool) (c : Cell) : Result Z :=
  match c with
  | Time t => timestamp_ms is_parsed t
  | _ => Raise AttributeError
  end.

(** [pd.concat(dfs, ignore_index=True)] for frames with the same columns *)
Definition concat (dfs : list DataFrame) : DataFrame :=
  match dfs with
  | [] => empty_df
  | df :: _ => {| time_name := time_name df;
                  columns := columns df;
                  rows := flat_map rows dfs;
                  parsed := parsed df |}
  end.

(** ** [OHLCVData] *)

Module OHLCVData.

Record t := {
  base : BaseData;
  base_url : string
}.

Definition init (E : Env) (sym itv url : string) : t :=
  {| base := BaseData_init E sym itv; base_url := url |}.

(** The request parameters built by [fetch_historical_ohlcv]:
    [startTime] is added under [if start_time:]. *)
Definition kline_params (self : t) (limit : Z) (start_time : option Z) : Params :=
  ([("symbol", PStr (symbol (base self)));
    ("interval", PStr (interval (base self)));
    ("limit", PInt limit)]
   ++ match start_time with
      | Some st => if st =? 0 then [] else [("startTime", PInt st)]
      | None => []
      end)%list.

(** One row of [pd.DataFrame(data, columns=[...12 names...])] after the
    conversions and the selection of the seven kept columns, for a candle
    sent as a list of twelve values with numbers for the two times and the
    five prices; [None] for a value of another shape. *)
Definition kline_row (j : json) : option Row :=
  match j with
  | JArr [JNum ot; JNum o; JNum h; JNum l; JNum c; JNum v; JNum ct; _; _; _; _; _] =>
      Some (ot, [Num o; Num h; Num l; Num c; Num v; Time ct])
  | _ => None
  end.

Fixpoint kline_rows (l : list json) : option (list Row) :=
  match l with
  | [] => Some []
  | j :: l' => match kline_row j, kline_rows l' with
               | Some r, Some rs => Some (r :: rs)
               | _, _ => None
               end
  end.

(** The twelve column names given to [pd.DataFrame], and the names kept
    beside [open_time] *)
Definition kline_names : list string :=
  ["open_time"; "open"; "high"; "low"; "close"; "volume"; "close_time";
   "quote_asset_volume"; "num_trades"; "taker_buy_base_asset_volume";
   "taker_buy_quote_asset_volume"; "ignore"].

Definition ohlcv_columns : list string :=
  ["open"; "high"; "low"; "close"; "volume"; "close_time"].

(** [pd.DataFrame(data, columns=[...])] with the conversions and the
    selection, on a payload that is not empty.  A list of candles gives
    their rows.  An object none of whose keys is a column name, as the
    error objects of the exchange are, gives a frame with the columns and
    no row.  A number or a text is refused by the constructor.  What
    pandas makes of a payload of another shape (a list with an element
    that is no regular candle, an object with a column name among its
    keys) is left to the environment. *)
Definition klines_frame (E : Env) (data : json) : Result DataFrame :=
  match data with
  | JArr l =>
      match kline_rows l with
      | Some rs => Ok {| time_name := "open_time"; columns := ohlcv_columns; rows := rs;
                         parsed := true |}
      | None => pandas_frame E data
      end
  | JObj l =>
      if existsb (fun kv : string * json => existsb (String.eqb (fst kv)) kline_names) l
      then pandas_frame E data
      else Ok {| time_name := "open_time"; columns := ohlcv_columns; rows := [];
                 parsed := true |}
  | _ => Raise ValueError
  end.

(** [OHLCVData.fetch_historical_ohlcv] *)
Definition fetch_historical_ohlcv (E : Env) (self : t) (limit : Z) (start_time : option Z)
  : M DataFrame :=
  let endpoint := base_url self +:+ "/api/v3/klines" in
  let params := kline_params self limit start_time in
  try_except
    (log INFO ("Requesting OHLCV data | Symbol: " +:+ symbol (base self)) ;;;
     data <- requests_get E endpoint params ;;
     if negb (json_truthy data) then
       log WARNING ("No OHLCV data returned for " +:+ symbol (base self)) ;;;
       ret empty_df
     else
       df <- lift (klines_frame E data) ;;
       log INFO ("Fetched OHLCV records for " +:+ symbol (base self)) ;;;
       ret df)
    (fun e => match e with
              | RequestException =>
                  log ERROR "HTTP error during OHLCV fetch" ;;; raise e
              | _ =>
                  log_exception "Unexpected error while fetching OHLCV data" ;;; raise e
              end).

(** The [for symbol_info in data['symbols']] loop of [_get_symbol_listing_date] *)
Fixpoint listing_loop (E : Env) (self : t) (symbols : list json) : M Z :=
  match symbols with
  | [] =>
      log ERROR ("Symbol " +:+ symbol (base self) +:+ " not found in exchange info") ;;;
      raise ValueError
  | symbol_info :: rest =>
      s <- lift (json_get "symbol" symbol_info) ;;
      if json_eq_str s (symbol (base self)) then
        klines <- fetch_historical_ohlcv E self 1 (Some 0) ;;
        if df_empty klines then
          log ERROR ("No historical data available for " +:+ symbol (base self)) ;;;
          raise ValueError
        else
          lift (rbind (time_values "open_time" klines) (fun ts =>
                rbind (iloc_first ts) (timestamp_ms (parsed klines))))
      else listing_loop E self rest
  end.

(** [OHLCVData._get_symbol_listing_date] *)
Definition get_symbol_listing_date (E : Env) (self : t) : M Z :=
  try_except
    (data <- requests_get E (base_url self +:+ "/api/v3/exchangeInfo") [] ;;
     symbols <- lift (json_get "symbols" data) ;;
     match symbols with
     | JArr l => listing_loop E self l
     | _ => raise TypeError
     end)
    (fun e =>
       log_exception ("Error fetching listing date for " +:+ symbol (base self)) ;;;
       raise e).

(** [df_ohlcv['close_time'].iloc[-1]] as milliseconds *)
Definition last_close_time (df : DataFrame) : Result Z :=
  rbind (column "close_time" df) (fun cs =>
  rbind (iloc_last cs) (cell_timestamp_ms (parsed df))).

(** The [while True] loop of [fetch_and_store]; [fuel] bounds the number
    of page requests. *)
Fixpoint pagination (E : Env) (self : t) (fuel : nat)
    (current_time : Z) (all_ohlcv : list DataFrame) : M (list DataFrame) :=
  match fuel with
  | O => lift OutOfFuel
  | S fuel' =>
      df_ohlcv <- fetch_historical_ohlcv E self 1000 (Some current_time) ;;
      if df_empty df_ohlcv then ret all_ohlcv
      else
        let all_ohlcv' := (all_ohlcv ++ [df_ohlcv])%list in
        ct <- lift (last_close_time df_ohlcv) ;;
        let current_time' := ct + 1 in
        if (df_len df_ohlcv <? 1000)%nat then ret all_ohlcv'
        else pagination E self fuel' current_time' all_ohlcv'
  end.

(** [OHLCVData.fetch_and_store] *)
Definition fetch_and_store (E : Env) (self : t) (fuel : nat) : M DataFrame :=
  enter "OHLCVData.fetch_and_store" ;;;
  chk <- check_local_data E (base self) "ohlcv" ;;
  let '(is_up_to_date, df) := chk in
  if is_up_to_date : bool then
    log INFO "Using local OHLCV data" ;;; ret df
  else
    try_except
      (start_time <- get_symbol_listing_date E self ;;
       all_ohlcv <- pagination E self fuel start_time [] ;;
       match all_ohlcv with
       | _ :: _ =>
           let full_ohlcv := concat all_ohlcv in
           save_data E (base self) full_ohlcv "ohlcv" ;;;
           ret full_ohlcv
       | [] => ret empty_df
       end)
      (fun e =>
         log_exception "Error fetching and storing OHLCV data" ;;;
         raise e).

End OHLCVData.

(** ** Helpers shared by the auxiliary fetchers *)

(** [pd.date_range(start=a, end=b, freq='4H')] *)
Definition date_range (a b : Z) : list Z :=
  map (fun i : nat => a + Z.of_nat i * four_hours)
      (seq 0 (Z.to_nat ((b - a) / four_hours + 1))).

(** [old in s] *)
Fixpoint str_contains (old s : string) : bool :=
  str_prefix old s ||
  match s with
  | EmptyString => false
  | String _ s' => str_contains old s'
  end.

(** [s.replace(old, new)] for a non-empty [old]; [skip] characters of a
    match that has just been replaced are passed over. *)
Fixpoint str_replace_from (skip : nat) (old new s : string) : string :=
  match s with
  | EmptyString => EmptyString
  | String c s' =>
      match skip with
      | S k => str_replace_from k old new s'
      | O => if str_prefix old s
             then new +:+ str_replace_from (String.length old - 1) old new s'
             else String c (str_replace_from O old new s')
      end
  end.

Definition str_replace (old new s : string) : string := str_replace_from O old new s.

(** [df[(df['timestamp'] >= a) & (df['timestamp'] <= b)]] *)
Definition clip (a b : Z) (df : DataFrame) : DataFrame :=
  {| time_name := time_name df;
     columns := columns df;
     rows := List.filter (fun r : Row => (a <=? fst r) && (fst r <=? b)) (rows df);
     parsed := parsed df |}.

(** A value of a payload put into a frame as it is *)
Definition json_cell (j : json) : Cell :=
  match j with
  | JNum z => Num z
  | JStr s => Text s
  | _ => NaN
  end.

(** [d[i]] for an element [d] of a payload list *)
Definition json_item (i : nat) (d : json) : Result json :=
  match d with
  | JArr l => match nth_error l i with
              | Some v => Ok v
              | None => Raise IndexError
              end
  | _ => Raise TypeError
  end.

Definition json_list (j : json) : Result (list json) :=
  match j with
  | JArr l => Ok l
  | _ => Raise TypeError
  end.

(** [pd.to_datetime(x, unit='ms')] of a payload value *)
Definition json_ms (j : json) : Result Z :=
  match j with
  | JNum z => Ok z
  | _ => Raise ValueError
  end.

(** ** [OrderBookData] *)

Module OrderBookData.

Record t := {
  base : BaseData;
  base_url : string
}.

Definition init (E : Env) (sym itv url : string) : t :=
  {| base := BaseData_init E sym itv; base_url := url |}.

(** [pd.DataFrame(levels, columns=[price, quantity], dtype=float)] *)
Definition level (j : json) : Result (Z * Z) :=
  match j with
  | JArr [JNum p; JNum q] => Ok (p, q)
  | _ => Raise ValueError
  end.

Definition levels (j : json) : Result (list (Z * Z)) :=
  rbind (json_list j) (rmap_list level).

Definition top_price (l : list (Z * Z)) : Cell :=
  match l with [] => NaN | (p, _) :: _ => Num p end.

Definition top_quantity (l : list (Z * Z)) : Cell :=
  match l with [] => NaN | (_, q) :: _ => Num q end.

Definition spread (bids asks : list (Z * Z)) : Cell :=
  match bids, asks with
  | (bp, _) :: _, (ap, _) :: _ => Num (ap - bp)
  | _, _ => NaN
  end.

Definition total_volume (l : list (Z * Z)) : Cell :=
  Num (fold_right Z.add 0 (map snd l)).

Definition orderbook_columns : list string :=
  ["bid_price_top"; "bid_quantity_top"; "ask_price_top"; "ask_quantity_top";
   "bid_ask_spread"; "total_bid_volume"; "total_ask_volume"; "symbol"].

(** [OrderBookData.fetch_order_book_snapshot] *)
Definition fetch_order_book_snapshot (E : Env) (self : t) (limit : Z) (timestamp : option Z)
  : M DataFrame :=
  let endpoint := base_url self +:+ "/api/v3/depth" in
  let params := [("symbol", PStr (symbol (base self))); ("limit", PInt limit)] in
  try_except
    (log INFO ("Requesting order book snapshot | Symbol: " +:+ symbol (base self)) ;;;
     data <- requests_get E endpoint params ;;
     bids <- lift (rbind (json_get "bids" data) levels) ;;
     asks <- lift (rbind (json_get "asks" data) levels) ;;
     ts <- match timestamp with
           | Some z => if z =? 0
                       then lift (rbind (json_get "lastUpdateId" data) json_ms)
                       else ret z
           | None => lift (rbind (json_get "lastUpdateId" data) json_ms)
           end ;;
     let order_book :=
       {| time_name := "timestamp";
          columns := orderbook_columns;
          rows := [(ts, [top_price bids; top_quantity bids;
                         top_price asks; top_quantity asks;
                         spread bids asks;
                         total_volume bids; total_volume asks;
                         Text (symbol (base self))])];
          parsed := true |} in
     log INFO ("Fetched order book snapshot for " +:+ symbol (base self)) ;;;
     ret order_book)
    (fun e => match e with
              | RequestException =>
                  log ERROR "HTTP error during order book fetch" ;;; raise e
              | _ =>
                  log_exception "Unexpected error while fetching order book data" ;;;
                  raise e
              end).

(** The [for timestamp in ohlcv_data['open_time']] loop of [fetch_and_store] *)
Fixpoint snapshots (E : Env) (self : t) (is_parsed : bool) (timestamps : list Z)
    (all_order_books : list DataFrame) : M (list DataFrame) :=
  match timestamps with
  | [] => ret all_order_books
  | timestamp :: rest =>
      ms <- lift (timestamp_ms is_parsed timestamp) ;;
      order_book <- fetch_order_book_snapshot E self 100 (Some ms) ;;
      snapshots E self is_parsed rest (all_order_books ++ [order_book])%list
  end.

(** [OrderBookData.fetch_and_store] *)
Definition fetch_and_store (E : Env) (self : t) (ohlcv_data : DataFrame) : M DataFrame :=
  enter "OrderBookData.fetch_and_store" ;;;
  chk <- check_local_data E (base self) "orderbook" ;;
  let '(is_up_to_date, df) := chk in
  if is_up_to_date : bool then
    log INFO "Using local order book data" ;;; ret df
  else if df_empty ohlcv_data then
    log WARNING "No OHLCV data provided for order book alignment" ;;;
    ret empty_df
  else
    try_except
      (timestamps <- lift (time_values "open_time" ohlcv_data) ;;
       all_order_books <- snapshots E self (parsed ohlcv_data) timestamps [] ;;
       match all_order_books with
       | _ :: _ =>
           let full_order_book := concat all_order_books in
           save_data E (base self) full_order_book "orderbook" ;;;
           ret full_order_book
       | [] => ret empty_df
       end)
      (fun e =>
         log_exception "Error fetching and storing order book data" ;;;
         raise e).

End OrderBookData.

(** ** [TechnicalData] *)

Module TechnicalData.

Record t := { base : BaseData }.

Definition init (E : Env) (sym itv : string) : t :=
  {| base := BaseData_init E sym itv |}.

Definition technical_columns : list string :=
  ["sma50"; "sma200"; "rsi"; "macd"; "macd_signal";
   "upper_band"; "middle_band"; "lower_band"].

(** [TechnicalData.compute_technical_indicators]; the indicator library
    gives one list of eight values for every close. *)
Definition compute_technical_indicators (E : Env) (self : t) (ohlcv_data : DataFrame)
  : M DataFrame :=
  try_except
    (if df_empty ohlcv_data then
       log WARNING "No OHLCV data provided for technical indicators" ;;;
       ret empty_df
     else
       timestamps <- lift (time_values "open_time" ohlcv_data) ;;
       closes <- lift (column "close" ohlcv_data) ;;
       indicators <- lift (talib E closes) ;;
       let df := {| time_name := "timestamp";
                    columns := technical_columns;
                    rows := combine timestamps indicators;
                    parsed := parsed ohlcv_data |} in
       log INFO "Computed technical indicators" ;;;
       ret df)
    (fun e =>
       log_exception "Error computing technical indicators" ;;;
       ret empty_df).

(** [TechnicalData.fetch_and_store] *)
Definition fetch_and_store (E : Env) (self : t) (ohlcv_data : DataFrame) : M DataFrame :=
  enter "TechnicalData.fetch_and_store" ;;;
  chk <- check_local_data E (base self) "technical" ;;
  let '(is_up_to_date, df) := chk in
  if is_up_to_date : bool then
    log INFO "Using local technical data" ;;; ret df
  else
    try_except
      (technical_data <- compute_technical_indicators E self ohlcv_data ;;
       (if negb (df_empty technical_data)
        then save_data E (base self) technical_data "technical"
        else ret tt) ;;;
       ret technical_data)
      (fun e =>
         log_exception "Error computing and storing technical data" ;;;
         raise e).

End TechnicalData.

(** ** [SentimentData] *)

Module SentimentData.

Record t := { base : BaseData }.

Definition init (E : Env) (sym itv : string) : t :=
  {| base := BaseData_init E sym itv |}.

(** [SentimentData.fetch_social_sentiment] *)
Definition fetch_social_sentiment (E : Env) (self : t) (coin : string)
    (start_date end_date : Moment) : M DataFrame :=
  try_except
    (log INFO ("Simulating sentiment analysis for " +:+ coin) ;;;
     let dates := date_range (when start_date) (when end_date) in
     let sentiment_scores := map (fun _ => vader E (coin +:+ " price is stable")) dates in
     let df := {| time_name := "timestamp";
                  columns := ["social_sentiment"];
                  rows := combine dates (map (fun s => [s]) sentiment_scores);
                  parsed := true |} in
     log INFO ("Simulated sentiment scores for " +:+ coin) ;;;
     ret df)
    (fun e =>
       log_exception "Error fetching social sentiment" ;;;
       ret empty_df).

(** [SentimentData.fetch_and_store] *)
Definition fetch_and_store (E : Env) (self : t) (start_date end_date : Moment)
  : M DataFrame :=
  enter "SentimentData.fetch_and_store" ;;;
  chk <- check_local_data E (base self) "sentiment" ;;
  let '(is_up_to_date, df) := chk in
  if is_up_to_date : bool then
    log INFO "Using local sentiment data" ;;; ret df
  else
    try_except
      (let coin_name := lower (str_replace "USDT" "" (symbol (base self))) in
       sentiment_data <- fetch_social_sentiment E self coin_name start_date end_date ;;
       (if negb (df_empty sentiment_data)
        then save_data E (base self) sentiment_data "sentiment"
        else ret tt) ;;;
       ret sentiment_data)
      (fun e =>
         log_exception "Error fetching and storing sentiment data" ;;;
         raise e).

End SentimentData.

(** ** [FearGreedData] *)

Module FearGreedData.

Record t := { base : BaseData }.

Definition init (E : Env) (sym itv : string) : t :=
  {| base := BaseData_init E sym itv |}.

Definition endpoint : string := "https://api.alternative.me/v2/ticker/Bitcoin/".

(** [FearGreedData.fetch_fear_and_greed_index] *)
Definition fetch_fear_and_greed_index (E : Env) (self : t)
    (start_date end_date : Moment) : M DataFrame :=
  try_except
    (log INFO "Requesting Fear and Greed Index" ;;;
     data <- requests_get E endpoint [] ;;
     let dates := date_range (when start_date) (when end_date) in
     fear_greed <- lift (rbind (json_get "data" data) (fun d =>
                         rbind (json_get "1" d) (json_get "fear_greed"))) ;;
     let df := {| time_name := "timestamp";
                  columns := ["fear_greed_index"];
                  rows := combine dates (repeat [json_cell fear_greed] (length dates));
                  parsed := true |} in
     log INFO "Fetched Fear and Greed Index (simulated)" ;;;
     ret df)
    (fun e => match e with
              | RequestException =>
                  log ERROR "HTTP error during Fear and Greed fetch" ;;; ret empty_df
              | _ =>
                  log_exception "Unexpected error while fetching Fear and Greed Index" ;;;
                  ret empty_df
              end).

(** [FearGreedData.fetch_and_store] *)
Definition fetch_and_store (E : Env) (self : t) (start_date end_date : Moment)
  : M DataFrame :=
  enter "FearGreedData.fetch_and_store" ;;;
  chk <- check_local_data E (base self) "fear_greed" ;;
  let '(is_up_to_date, df) := chk in
  if is_up_to_date : bool then
    log INFO "Using local Fear and Greed data" ;;; ret df
  else
    try_except
      (fear_greed <- fetch_fear_and_greed_index E self start_date end_date ;;
       (if negb (df_empty fear_greed)
        then save_data E (base self) fear_greed "fear_greed"
        else ret tt) ;;;
       ret fear_greed)
      (fun e =>
         log_exception "Error fetching and storing Fear and Greed data" ;;;
         raise e).

End FearGreedData.

(** ** [FundamentalData] *)

Module FundamentalData.

Record t := { base : BaseData }.

Definition init (E : Env) (sym itv : string) : t :=
  {| base := BaseData_init E sym itv |}.

(** [timedelta(...).days] *)
Definition one_day : Z := 86400000.

(** [pd.DataFrame({'timestamp': ..., 'market_cap': ..., 'total_volume': ...})] *)
Definition market_chart_frame (data : json) : Result DataFrame :=
  rbind (json_get "prices" data) (fun prices =>
  rbind (json_list prices) (fun ps =>
  rbind (rmap_list (fun d => rbind (json_item 0 d) json_ms) ps) (fun timestamps =>
  rbind (json_get "market_caps" data) (fun market_caps =>
  rbind (json_list market_caps) (fun ms =>
  rbind (rmap_list (json_item 1) ms) (fun caps =>
  rbind (json_get "total_volumes" data) (fun total_volumes =>
  rbind (json_list total_volumes) (fun vs =>
  rbind (rmap_list (json_item 1) vs) (fun vols =>
  if (length caps =? length timestamps)%nat && (length vols =? length timestamps)%nat
  then Ok {| time_name := "timestamp";
             columns := ["market_cap"; "total_volume"];
             rows := combine timestamps
                       (map (fun cv : json * json => [json_cell (fst cv); json_cell (snd cv)])
                            (combine caps vols));
             parsed := true |}
  else Raise ValueError))))))))).

(** [FundamentalData.fetch_fundamental_data] *)
Definition fetch_fundamental_data (E : Env) (self : t) (coin : string)
    (start_date end_date : Moment) : M DataFrame :=
  try_except
    (let endpoint := "https://api.coingecko.com/api/v3/coins/" +:+ coin +:+ "/market_chart" in
     days <- (if as_text start_date || as_text end_date then raise TypeError
              else ret ((when end_date - when start_date) / one_day + 1)) ;;
     let params := [("vs_currency", PStr "usd"); ("days", PInt days);
                    ("interval", PStr "daily")] in
     log INFO ("Requesting fundamental data for " +:+ coin) ;;;
     data <- requests_get E endpoint params ;;
     df <- lift (market_chart_frame data) ;;
     df <- lift (resample_4h_ffill E df) ;;
     let df := clip (when start_date) (when end_date) df in
     log INFO ("Fetched fundamental records for " +:+ coin) ;;;
     ret df)
    (fun e => match e with
              | RequestException =>
                  log ERROR "HTTP error during fundamental data fetch" ;;; ret empty_df
              | _ =>
                  log_exception "Unexpected error while fetching fundamental data" ;;;
                  ret empty_df
              end).

(** [FundamentalData.fetch_and_store] *)
Definition fetch_and_store (E : Env) (self : t) (start_date end_date : Moment)
  : M DataFrame :=
  enter "FundamentalData.fetch_and_store" ;;;
  chk <- check_local_data E (base self) "fundamentals" ;;
  let '(is_up_to_date, df) := chk in
  if is_up_to_date : bool then
    log INFO "Using local fundamental data" ;;; ret df
  else
    try_except
      (let coin_name := lower (str_replace "USDT" "" (symbol (base self))) in
       fundamental_data <- fetch_fundamental_data E self coin_name start_date end_date ;;
       (if negb (df_empty fundamental_data)
        then save_data E (base self) fundamental_data "fundamentals"
        else ret tt) ;;;
       ret fundamental_data)
      (fun e =>
         log_exception "Error fetching and storing fundamental data" ;;;
         raise e).

End FundamentalData.

(** ** [MacroData] *)

Module MacroData.

Record t := { base : BaseData }.

Definition init (E : Env) (sym itv : string) : t :=
  {| base := BaseData_init E sym itv |}.

(** [MacroData.fetch_macro_data]; the price-history provider is the
    environment's [yf_history], and whatever it raises is an [Exception]. *)
Definition fetch_macro_data (E : Env) (self : t) (start_date end_date : Moment)
  : M DataFrame :=
  try_except
    (log INFO "Requesting macro data (S&P 500)" ;;;
     stop <- (if as_text end_date then raise TypeError
              else ret (when end_date + FundamentalData.one_day)) ;;
     history <- lift (yf_history E (when start_date) stop) ;;
     let df := {| time_name := "timestamp";
                  columns := ["sp500_returns"];
                  rows := combine (map fst history)
                            (map (fun c => [c]) (pct_change E (map snd history)));
                  parsed := true |} in
     df <- lift (resample_4h_ffill E df) ;;
     let df := clip (when start_date) (when end_date) df in
     log INFO "Fetched macro records" ;;;
     ret df)
    (fun e =>
       log_exception "Error fetching macro data" ;;;
       ret empty_df).

(** [MacroData.fetch_and_store] *)
Definition fetch_and_store (E : Env) (self : t) (start_date end_date : Moment)
  : M DataFrame :=
  enter "MacroData.fetch_and_store" ;;;
  chk <- check_local_data E (base self) "macro" ;;
  let '(is_up_to_date, df) := chk in
  if is_up_to_date : bool then
    log INFO "Using local macro data" ;;; ret df
  else
    try_except
      (macro_data <- fetch_macro_data E self start_date end_date ;;
       (if negb (df_empty macro_data)
        then save_data E (base self) macro_data "macro"
        else ret tt) ;;;
       ret macro_data)
      (fun e =>
         log_exception "Error fetching and storing macro data" ;;;
         raise e).

End MacroData.

(** ** [OnChainData] *)

Module OnChainData.

Record t := {
  base : BaseData;
  base_url : string;
  coin : string
}.

Definition init (E : Env) (sym itv url : string) : t :=
  {| base := BaseData_init E sym itv;
     base_url := url;
     coin := if str_contains "BTC" (upper sym) then "btc"
             else lower (str_replace "USDT" "" sym) |}.

Definition has_key (k : string) (d : json) : bool :=
  match d with
  | JObj l => match lookup_last k l with Some _ => true | None => false end
  | _ => false
  end.

Definition field (k : string) (d : json) : json :=
  match d with
  | JObj l => match lookup_last k l with Some v => v | None => JNull end
  | _ => JNull
  end.

(** One record of the payload after [to_datetime], the renaming, [dropna]
    and [astype(float)]: [None] for a dropped row. *)
Definition metric_row (d : json) : Result (option Row) :=
  match field "time" d, field "TxCnt" d, field "AdrActCnt" d with
  | JNull, _, _ => Ok None
  | JNum ts, JNull, _ => Ok None
  | JNum ts, _, JNull => Ok None
  | JNum ts, JNum tx, JNum adr => Ok (Some (ts, [Num tx; Num adr]))
  | _, _, _ => Raise ValueError
  end.

Fixpoint keep_some {A} (l : list (option A)) : list A :=
  match l with
  | [] => []
  | Some a :: l' => a :: keep_some l'
  | None :: l' => keep_some l'
  end.

Definition metrics_frame (data : json) : Result DataFrame :=
  rbind (json_list data) (fun ds =>
  if existsb (has_key "time") ds && existsb (has_key "TxCnt") ds
     && existsb (has_key "AdrActCnt") ds
  then rbind (rmap_list metric_row ds) (fun rs =>
       Ok {| time_name := "timestamp";
             columns := ["tx_volume"; "active_addresses"];
             rows := keep_some rs;
             parsed := true |})
  else Raise KeyError).

(** [OnChainData.fetch_onchain_data] *)
Definition fetch_onchain_data (E : Env) (self : t) (start_date end_date : Moment)
  : M DataFrame :=
  try_except
    (let endpoint := base_url self +:+ "/timeseries/asset-metrics" in
     st <- lift (strftime (negb (as_text start_date)) (when start_date)) ;;
     en <- lift (strftime (negb (as_text end_date)) (when end_date)) ;;
     let params := [("assets", PStr (coin self)); ("metrics", PStr "TxCnt,AdrActCnt");
                    ("start_time", PTime st); ("end_time", PTime en);
                    ("frequency", PStr "4h")] in
     log INFO ("Requesting on-chain data for " +:+ coin self) ;;;
     response <- requests_get E endpoint params ;;
     data <- lift (json_get "data" response) ;;
     df <- lift (metrics_frame data) ;;
     let df := clip (when start_date) (when end_date) df in
     df <- lift (resample_4h_ffill E df) ;;
     log INFO ("Fetched on-chain records for " +:+ coin self) ;;;
     ret df)
    (fun e => match e with
              | RequestException =>
                  log ERROR "HTTP error during on-chain data fetch" ;;; ret empty_df
              | _ =>
                  log_exception "Unexpected error while fetching on-chain data" ;;;
                  ret empty_df
              end).

(** [OnChainData.fetch_and_store] *)
Definition fetch_and_store (E : Env) (self : t) (start_date end_date : Moment)
  : M DataFrame :=
  enter "OnChainData.fetch_and_store" ;;;
  chk <- check_local_data E (base self) "onchain" ;;
  let '(is_up_to_date, df) := chk in
  if is_up_to_date : bool then
    log INFO "Using local on-chain data" ;;; ret df
  else
    try_except
      (onchain_data <- fetch_onchain_data E self start_date end_date ;;
       (if negb (df_empty onchain_data)
        then save_data E (base self) onchain_data "onchain"
        else ret tt) ;;;
       ret onchain_data)
      (fun e =>
         log_exception "Error fetching and storing on-chain data" ;;;
         raise e).

End OnChainData.

(** ** The nearest join

    [pd.merge_asof(left.sort_values(lk), right.sort_values(rk), left_on=lk,
    right_on=rk, direction='nearest', tolerance=tol)].  For every left row
    the backward candidate is the last right row whose key is not after the
    left key, the forward candidate the first right row whose key is not
    before it; each is discarded when farther than [tol]; of two candidates
    the nearer is taken, the backward one on a tie. *)

Fixpoint insert_row (r : Row) (l : list Row) : list Row :=
  match l with
  | [] => [r]
  | x :: l' => if fst r <=? fst x then r :: l else x :: insert_row r l'
  end.

(** [df.sort_values(key)] on the datetime column; rows with equal keys
    stay in the order they had ([insert_row] puts a row before the rows of
    the same key, and the rows are inserted from the last to the first). *)
Definition sort_values (l : list Row) : list Row :=
  fold_right insert_row [] l.

Fixpoint count_while (p : Z -> bool) (l : list Z) : nat :=
  match l with
  | [] => O
  | x :: l' => if p x then S (count_while p l') else O
  end.

Definition backward_pos (tol t : Z) (keys : list Z) : option nat :=
  match count_while (fun k => k <=? t) keys with
  | O => None
  | S i => if t - nth i keys 0 >? tol then None else Some i
  end.

Definition forward_pos (tol t : Z) (keys : list Z) : option nat :=
  let i := count_while (fun k => k <? t) keys in
  if (i <? length keys)%nat
  then if nth i keys 0 - t >? tol then None else Some i
  else None.

Definition nearest_pos (tol t : Z) (keys : list Z) : option nat :=
  match backward_pos tol t keys, forward_pos tol t keys with
  | Some b, Some f =>
      if t - nth b keys 0 <=? nth f keys 0 - t then Some b else Some f
  | Some b, None => Some b
  | None, f => f
  end.

(** Overlapping column names get the suffixes [_x] and [_y]. *)
Definition suffixed (sfx : string) (others mine : list string) : list string :=
  map (fun c => if existsb (String.eqb c) others then c +:+ sfx else c) mine.

Definition merge_asof_nearest (tol : Z) (left right : DataFrame) : DataFrame :=
  let l := sort_values (rows left) in
  let r := sort_values (rows right) in
  let keys := map fst r in
  let right_names := time_name right :: columns right in
  {| time_name := time_name left;
     columns := (suffixed "_x" right_names (columns left)
                 ++ suffixed "_y" (columns left) right_names)%list;
     rows := map (fun lr : Row =>
                    (fst lr,
                     (snd lr ++
                      match nearest_pos tol (fst lr) keys with
                      | Some j => let rr := nth j r (0, []) in Time (fst rr) :: snd rr
                      | None => repeat NaN (length right_names)
                      end)%list)) l;
     parsed := true |}.

Fixpoint remove_nth {A} (i : nat) (l : list A) : list A :=
  match i, l with
  | _, [] => []
  | O, _ :: l' => l'
  | S i', x :: l' => x :: remove_nth i' l'
  end.

(** [df.drop(columns=[name])] *)
Definition drop_column (name : string) (df : DataFrame) : Result DataFrame :=
  match index_of name (columns df) with
  | None => Raise KeyError
  | Some i => Ok {| time_name := time_name df;
                    columns := remove_nth i (columns df);
                    rows := map (fun r : Row => (fst r, remove_nth i (snd r))) (rows df);
                    parsed := parsed df |}
  end.

Definition with_datetimes (df : DataFrame) : DataFrame :=
  {| time_name := time_name df; columns := columns df; rows := rows df; parsed := true |}.

(** [df[key] = pd.to_datetime(df[key])] *)
Definition to_datetime_column (key : string) (df : DataFrame) : Result DataFrame :=
  rbind (time_values key df) (fun _ => Ok (with_datetimes df)).

(** [df.rename(columns={key: 'open_time'})] *)
Definition rename_time (df : DataFrame) : DataFrame :=
  {| time_name := "open_time"; columns := columns df; rows := rows df;
     parsed := parsed df |}.

(** ** [DataManager] *)

Module DataManager.

Record t := {
  symbol : string;
  interval : string;
  data_dir : string;
  ohlcv_fetcher : OHLCVData.t;
  orderbook_fetcher : OrderBookData.t;
  technical_fetcher : TechnicalData.t;
  sentiment_fetcher : SentimentData.t;
  fear_greed_fetcher : FearGreedData.t;
  fundamental_fetcher : FundamentalData.t
}.

Definition binance : string := "https://api.binance.com".

(** [DataManager.__init__] *)
Definition init (E : Env) (sym itv : string) : t :=
  {| symbol := upper sym;
     interval := itv;
     data_dir := raw_dir E;
     ohlcv_fetcher := OHLCVData.init E sym itv binance;
     orderbook_fetcher := OrderBookData.init E sym itv binance;
     technical_fetcher := TechnicalData.init E sym itv;
     sentiment_fetcher := SentimentData.init E sym itv;
     fear_greed_fetcher := FearGreedData.init E sym itv;
     fundamental_fetcher := FundamentalData.init E sym itv |}.

(** The [try] block of [fetch_and_store_all] *)
Definition fetch_all_try (E : Env) (self : t) (fuel : nat) : M unit :=
  ohlcv_data <- OHLCVData.fetch_and_store E (ohlcv_fetcher self) fuel ;;
  if df_empty ohlcv_data then
    log WARNING "No OHLCV data available, skipping other data types"
  else
    opens <- lift (time_values "open_time" ohlcv_data) ;;
    start <- match minimum opens with
             | Some m => ret m
             | None => raise ValueError
             end ;;
    let start_date := {| when := start; as_text := negb (parsed ohlcv_data) |} in
    let end_date := {| when := now E; as_text := false |} in
    _ <- OrderBookData.fetch_and_store E (orderbook_fetcher self) ohlcv_data ;;
    _ <- TechnicalData.fetch_and_store E (technical_fetcher self) ohlcv_data ;;
    _ <- SentimentData.fetch_and_store E (sentiment_fetcher self) start_date end_date ;;
    _ <- FearGreedData.fetch_and_store E (fear_greed_fetcher self) start_date end_date ;;
    _ <- FundamentalData.fetch_and_store E (fundamental_fetcher self) start_date end_date ;;
    log INFO ("Completed fetching and storing all data for " +:+ symbol self).

(** [DataManager.fetch_and_store_all] *)
Definition fetch_and_store_all (E : Env) (self : t) (fuel : nat) : M unit :=
  try_except
    (fetch_all_try E self fuel)
    (fun e =>
       log_exception "Error in fetch_and_store_all" ;;;
       raise e).

Definition data_types : list string :=
  ["ohlcv"; "orderbook"; "technical"; "sentiment"; "fear_greed"; "fundamentals"].

(** The [for data_type in data_types] loop of [merge_data_for_training] *)
Fixpoint merge_loop (self : t) (types : list string) (combined_data : option DataFrame)
  : M (option DataFrame) :=
  match types with
  | [] => ret combined_data
  | data_type :: rest =>
      let file_path := cache_path (data_dir self) (symbol self) (interval self) data_type in
      present <- path_exists file_path ;;
      if negb present then
        log WARNING ("No " +:+ data_type +:+ " data found at " +:+ file_path) ;;;
        merge_loop self rest combined_data
      else
        df <- read_csv file_path ;;
        let key := time_key data_type in
        df <- lift (to_datetime_column key df) ;;
        match combined_data with
        | None => merge_loop self rest (Some (rename_time df))
        | Some combined =>
            merged <- lift (drop_column key (merge_asof_nearest four_hours combined df)) ;;
            merge_loop self rest (Some merged)
        end
  end.

(** The [try] block of [merge_data_for_training] *)
Definition merge_try (E : Env) (self : t) : M DataFrame :=
  combined_data <- merge_loop self data_types None ;;
  match combined_data with
  | Some combined =>
      let combined_path :=
        path_join (data_dir self)
          (symbol self +:+ "_" +:+ interval self +:+ "_combined.csv") in
      to_csv E combined combined_path ;;;
      log INFO ("Saved combined data to " +:+ combined_path) ;;;
      ret combined
  | None =>
      log WARNING ("No data available to merge for " +:+ symbol self) ;;;
      ret empty_df
  end.

(** [DataManager.merge_data_for_training] *)
Definition merge_data_for_training (E : Env) (self : t) : M DataFrame :=
  try_except
    (merge_try E self)
    (fun e =>
       log_exception "Error merging data" ;;;
       ret empty_df).

End DataManager.

(** ** Observations on worlds *)

(** The world after one more event *)
Definition after (ev : event) (w : World) : World :=
  {| files := files w; trace := (trace w ++ [ev])%list |}.

(** The world with the file at [p] replaced *)
Definition put_file (p : string) (fd : FileData) (w : World) : World :=
  {| files := <[p := fd]> (files w); trace := trace w |}.

Definition is_request (ev : event) : bool :=
  match ev with HttpGet _ _ => true | _ => false end.

Definition is_call (method : string) (ev : event) : bool :=
  match ev with Call m => String.eqb m method | _ => false end.

(** The requests, and the entries of one method, recorded in a trace *)
Definition requests (w : World) : list event := List.filter is_request (trace w).

Definition invoked (method : string) (w : World) : bool :=
  existsb (is_call method) (trace w).

Definition level_eqb (a b : level) : bool :=
  match a, b with
  | INFO, INFO | WARNING, WARNING | ERROR, ERROR => true
  | _, _ => false
  end.

Definition is_log (l : level) (msg : string) (ev : event) : bool :=
  match ev with Log l' m => level_eqb l' l && String.eqb m msg | _ => false end.

Definition logged (l : level) (msg : string) (w : World) : bool :=
  existsb (is_log l msg) (trace w).

(** A computation that has an outcome in every world, and a result that
    is one *)
Definition finishes {A} (m : M A) : Prop := forall w, fst (m w) <> OutOfFuel.

Definition decided {A} (r : Result A) : Prop := r <> OutOfFuel.

(** Two worlds with the same trace and the same files on the paths in [P] *)
Definition agree (P : string -> Prop) (w w' : World) : Prop :=
  trace w = trace w' /\ forall q, P q -> files w !! q = files w' !! q.

(** [m] reads and writes files on paths in [P] only. *)
Definition confined {A} (P : string -> Prop) (m : M A) : Prop :=
  forall w w', agree P w w' ->
    fst (m w) = fst (m w') /\ agree P (snd (m w)) (snd (m w')).

(** ** A kline endpoint seen as a function from cursors to pages *)

Module Klines.

Record Kline := {
  k_open_time : Z;
  k_open : Z;
  k_high : Z;
  k_low : Z;
  k_close : Z;
  k_volume : Z;
  k_close_time : Z
}.

(** The twelve-element array that the endpoint sends for a candle; the
    code ignores the last five elements. *)
Definition kline_json (k : Kline) : json :=
  JArr [JNum (k_open_time k); JNum (k_open k); JNum (k_high k); JNum (k_low k);
        JNum (k_close k); JNum (k_volume k); JNum (k_close_time k);
        JNum 0; JNum 0; JNum 0; JNum 0; JNum 0].

(** The row of the OHLCV frame that the candle becomes *)
Definition row_of (k : Kline) : Row :=
  (k_open_time k,
   [Num (k_open k); Num (k_high k); Num (k_low k); Num (k_close k); Num (k_volume k);
    Time (k_close_time k)]).

(** The frame that [fetch_historical_ohlcv] returns for a page *)
Definition frame_of (p : list Kline) : DataFrame :=
  match p with
  | [] => empty_df
  | _ :: _ => {| time_name := "open_time"; columns := OHLCVData.ohlcv_columns;
                 rows := map row_of p; parsed := true |}
  end.

(** The cursor that a request carries *)
Definition requested_cursor (ps : Params) : option Z :=
  match lookup_last "startTime" ps with
  | Some (PInt z) => Some z
  | _ => None
  end.

(** The limit that a request carries *)
Definition requested_limit (ps : Params) : option Z :=
  match lookup_last "limit" ps with
  | Some (PInt z) => Some z
  | _ => None
  end.

(** The kline endpoint of [E] answers every request for up to 1000
    candles, as the pagination loop sends them, with the candles [page c],
    where [c] is the cursor of the request.  Requests with another limit
    are not constrained. *)
Definition serves (E : Env) (self : OHLCVData.t) (page : option Z -> list Kline) : Prop :=
  forall ps,
    requested_limit ps = Some 1000 ->
    http E (OHLCVData.base_url self +:+ "/api/v3/klines") ps
    = Body (JArr (map kline_json (page (requested_cursor ps)))).

(** Every page holds at most 1000 rows, in increasing order of
    [open_time], none of them before the requested cursor. *)
Definition paged (page : option Z -> list Kline) : Prop :=
  forall c,
    (length (page c) <= 1000)%nat /\
    StronglySorted Z.lt (map k_open_time (page c)) /\
    (forall z, c = Some z -> Forall (fun k => z <= k_open_time k) (page c)).

(** Every candle opens at a non-negative time, and not after its close time
    as the loop converts it, [int(close_time.timestamp() * 1000)], which
    can be one millisecond less than the close time. *)
Definition well_formed (page : option Z -> list Kline) : Prop :=
  forall c, Forall (fun k => 0 <= k_open_time k <= float_ms (k_close_time k)) (page c).

Definition zero : Kline :=
  {| k_open_time := 0; k_open := 0; k_high := 0; k_low := 0; k_close := 0;
     k_volume := 0; k_close_time := 0 |}.

(** The cursor that the loop's [current_time] puts into the request *)
Definition cursor_of (current_time : Z) : option Z :=
  if current_time =? 0 then None else Some current_time.

(** [current_time] after a non-empty page *)
Definition next_cursor (p : list Kline) : Z :=
  float_ms (k_close_time (List.last p zero)) + 1.

(** The cursor of the [n]-th request of the loop started at [start], when
    all pages before it were non-empty, and the page it is answered with *)
Fixpoint nth_cursor (page : option Z -> list Kline) (start : Z) (n : nat) : Z :=
  match n with
  | O => start
  | S n' => next_cursor (page (cursor_of (nth_cursor page start n')))
  end.

Definition nth_page (page : option Z -> list Kline) (start : Z) (n : nat) : list Kline :=
  page (cursor_of (nth_cursor page start n)).

(** Page [n] is the first that is empty or holds fewer than 1000 rows. *)
Definition first_short (page : option Z -> list Kline) (start : Z) (n : nat) : Prop :=
  (length (nth_page page start n) < 1000)%nat /\
  forall i, (i < n)%nat -> (1000 <= length (nth_page page start i))%nat.

(** The rows of the pages up to the [n]-th from [start] on *)
Definition pages_rows (page : option Z -> list Kline) (start : Z) (n : nat) : list Row :=
  flat_map (fun i => map row_of (nth_page page start i)) (seq 0 (S n)).

(** A server whose kline endpoint serves [page] *)
Definition server (page : option Z -> list Kline) : string -> Params -> Response :=
  fun url ps =>
    if String.eqb url "https://api.binance.com/api/v3/klines"
    then Body (JArr (map kline_json (page (requested_cursor ps))))
    else HttpError.

Definition candle (ot ct : Z) : Kline :=
  {| k_open_time := ot; k_open := 100; k_high := 102; k_low := 99; k_close := 101;
     k_volume := 5; k_close_time := ct |}.

(** A full page of candles opening at 1000, 1001, ..., 1999 that all
    report the close time 10, then a page holding the candle that opens at
    1500 *)
Definition full_page : list Kline :=
  map (fun i : nat => candle (1000 + Z.of_nat i) 10) (seq 0 1000).

Definition early_close (c : option Z) : list Kline :=
  match c with
  | Some z => if z <=? 10 then full_page
              else if z <=? 1500 then [candle 1500 1600]
              else []
  | None => []
  end.

(** Candles before the epoch: a full page opening at -2000, ..., -1001,
    all closing at -1, and without a cursor the candle opening at -1500 *)
Definition old_page : list Kline :=
  map (fun i : nat => candle (-2000 + Z.of_nat i) (-1)) (seq 0 1000).

Definition pre_epoch (c : option Z) : list Kline :=
  match c with
  | Some z => if z <=? -2000 then old_page else []
  | None => [candle (-1500) (-1)]
  end.

(** A thousand candles of one millisecond, opening at 2, ..., 1001 and each
    closing as it opens, served from the cursor on *)
Definition tight_page : list Kline :=
  map (fun i : nat => candle (2 + Z.of_nat i) (2 + Z.of_nat i)) (seq 0 1000).

Definition tight (c : option Z) : list Kline :=
  match c with
  | Some z => List.filter (fun k => z <=? k_open_time k) tight_page
  | None => []
  end.

End Klines.

(** ** Concrete environments and worlds used in the examples *)

Module Fixtures.

Definition no_answer : string -> Params -> Response := fun _ _ => HttpError.

(** An environment at time [t] whose network answers [h]. *)
Definition env (t : Z) (h : string -> Params -> Response) : Env :=
  {| now := t;
     raw_dir := "data/raw";
     http := h;
     writable := fun _ => true;
     torn := fun _ _ => None;
     talib := fun closes => Ok (map (fun _ => repeat NaN 8) closes);
     vader := fun _ => Num 0;
     yf_history := fun _ _ => Ok [];
     pct_change := fun l => map (fun _ => Num 0) l;
     resample_4h_ffill := fun df => Ok df;
     pandas_frame := fun _ => Raise ValueError |}.

Definition btc (E : Env) : BaseData := BaseData_init E "btcusdt" "4h".

Definition world (fs : list (string * FileData)) : World :=
  {| files := list_to_map fs; trace := [] |}.

(** A fear/greed cache with three rows, the last at [8h]. *)
Definition fg_table : DataFrame :=
  {| time_name := "timestamp";
     columns := ["fear_greed_index"];
     rows := [(0, [Num 40]); (four_hours, [Num 40]); (2 * four_hours, [Num 40])];
     parsed := false |}.

Definition fg_path : string := "data/raw/BTCUSDT_4h_fear_greed.csv".

Definition hour : Z := 3600000.

(** An OHLCV cache of three candles at 0h, 4h and 8h (closes 100, 102, 101) *)
Definition ohlcv_table : DataFrame :=
  {| time_name := "open_time";
     columns := OHLCVData.ohlcv_columns;
     rows := [(0, [Num 100; Num 101; Num 99; Num 100; Num 5; Time (4 * hour - 1)]);
              (4 * hour, [Num 100; Num 103; Num 99; Num 102; Num 6; Time (8 * hour - 1)]);
              (8 * hour, [Num 102; Num 103; Num 100; Num 101; Num 7; Time (12 * hour - 1)])];
     parsed := false |}.

(** A sentiment cache with a row at 1h and a row at 20h *)
Definition sentiment_table : DataFrame :=
  {| time_name := "timestamp";
     columns := ["social_sentiment"];
     rows := [(20 * hour, [Num 9]); (1 * hour, [Num 3])];
     parsed := false |}.

(** A macro cache *)
Definition macro_table : DataFrame :=
  {| time_name := "timestamp";
     columns := ["sp500_returns"];
     rows := [(0, [Num 1]); (4 * hour, [Num 2]); (8 * hour, [Num 3])];
     parsed := false |}.

Definition ohlcv_path : string := "data/raw/BTCUSDT_4h_ohlcv.csv".
Definition sentiment_path : string := "data/raw/BTCUSDT_4h_sentiment.csv".
Definition macro_path : string := "data/raw/BTCUSDT_4h_macro.csv".

End Fixtures.

(** ** A mock of the exchange *)

Module Exchange.

(** A candle opening at [ot] and closing one millisecond before the next *)
Definition candle (ot : Z) : json :=
  JArr [JNum ot; JNum 100; JNum 102; JNum 99; JNum 101; JNum 5;
        JNum (ot + four_hours - 1); JNum 0; JNum 0; JNum 0; JNum 0; JNum 0].

Definition param_int (k : string) (ps : Params) : option Z :=
  match lookup_last k ps with
  | Some (PInt z) => Some z
  | _ => None
  end.

(** The kline endpoint over a history of opening times: with [startTime]
    the first [limit] candles opening at or after it, without it the most
    recent [limit] candles. *)
Definition klines (history : list Z) (ps : Params) : json :=
  let limit := match param_int "limit" ps with
               | Some n => Z.to_nat n
               | None => 500%nat
               end in
  match param_int "startTime" ps with
  | Some st => JArr (map candle (firstn limit (List.filter (fun ot => st <=? ot) history)))
  | None => JArr (map candle (skipn (length history - limit) history))
  end.

Definition exchange_info : json :=
  JObj [("symbols", JArr [JObj [("symbol", JStr "ETHUSDT")];
                          JObj [("symbol", JStr "BTCUSDT")]])].

(** An exchange with the given history whose depth endpoint answers [depth]. *)
Definition serve (history : list Z) (depth : Response) : string -> Params -> Response :=
  fun url ps =>
    if String.eqb url "https://api.binance.com/api/v3/exchangeInfo" then Body exchange_info
    else if String.eqb url "https://api.binance.com/api/v3/klines"
         then Body (klines history ps)
    else if String.eqb url "https://api.binance.com/api/v3/depth" then depth
    else HttpError.

(** Three candles, four hours apart *)
Definition t0 : Z := 1500000000000.
Definition history3 : list Z := [t0; t0 + four_hours; t0 + 2 * four_hours].

(** A history of 1002 candles *)
Definition history1002 : list Z :=
  map (fun i : nat => t0 + Z.of_nat i * four_hours) (seq 0 1002).

(** What the kline endpoint of [serve history] answers to a request for up
    to 1000 candles, as candles *)
Definition pages (history : list Z) (c : option Z) : list Klines.Kline :=
  map (fun ot => Klines.candle ot (ot + four_hours - 1))
    (match c with
     | Some st => firstn 1000 (List.filter (fun ot => st <=? ot) history)
     | None => skipn (length history - 1000) history
     end).

Definition ohlcv (E : Env) : OHLCVData.t :=
  OHLCVData.init E "btcusdt" "4h" DataManager.binance.

Definition orderbook (E : Env) : OrderBookData.t :=
  OrderBookData.init E "btcusdt" "4h" DataManager.binance.

(** The frame of the latest candle of [history3] *)
Definition latest_candle : DataFrame :=
  {| time_name := "open_time";
     columns := OHLCVData.ohlcv_columns;
     rows := [(t0 + 2 * four_hours,
               [Num 100; Num 102; Num 99; Num 101; Num 5;
                Time (t0 + 2 * four_hours + four_hours - 1)])];
     parsed := true |}.

(** The frame that a page holding the candle at [t0] is turned into *)
Definition one_candle : DataFrame :=
  {| time_name := "open_time";
     columns := OHLCVData.ohlcv_columns;
     rows := [(t0, [Num 100; Num 102; Num 99; Num 101; Num 5; Time (t0 + four_hours - 1)])];
     parsed := true |}.

End Exchange.

(** ** Further observations on runs *)

(** The cache file of a data type for the symbol and interval of [b] *)
Definition key_path (b : BaseData) (data_type : string) : string :=
  cache_path (data_dir b) (symbol b) (interval b) data_type.

(** [m] writes no file and sends no request, whatever its outcome. *)
Definition quiet {A} (m : M A) : Prop :=
  forall w, files (snd (m w)) = files w /\ requests (snd (m w)) = requests w.

(** [m] writes no file. *)
Definition readonly {A} (m : M A) : Prop :=
  forall w, files (snd (m w)) = files w.

(** Every value that [m] returns satisfies [P]. *)
Definition returns {A} (P : A -> Prop) (m : M A) : Prop :=
  forall w a w', m w = (Ok a, w') -> P a.

(** The cache of [data_type] holds the table [df] and it is fresh at the
    time of [E]. *)
Definition fresh_cache (E : Env) (b : BaseData) (data_type : string) (df : DataFrame)
    (w : World) : Prop :=
  files w !! key_path b data_type = Some (Csv df) /\
  time_name df = time_key data_type /\
  exists m, maximum (map fst (rows df)) = Some m /\ now E - m < four_hours.

(** The run [r] started in [w] returned the cached table [df] as read,
    wrote no file and sent no request. *)
Definition from_cache (df : DataFrame) (w : World) (r : Result DataFrame * World) : Prop :=
  fst r = Ok (as_read df) /\ files (snd r) = files w /\ requests (snd r) = requests w.

(** The cache of [data_type] is absent, without rows, or its newest
    timestamp is four hours old or older. *)
Definition stale_cache (E : Env) (b : BaseData) (data_type : string) (w : World) : Prop :=
  files w !! key_path b data_type = None \/
  exists df, files w !! key_path b data_type = Some (Csv df) /\
    (rows df = [] \/
     (time_name df = time_key data_type /\
      exists m, maximum (map fst (rows df)) = Some m /\ four_hours <= now E - m)).

(** Two worlds with the same files on the paths in [P], whatever their
    logs *)
Definition same_on (P : string -> Prop) (w w' : World) : Prop :=
  forall q, P q -> files w !! q = files w' !! q.

(** The result of [m] depends on the files on the paths in [P] only. *)
Definition reads_only {A} (P : string -> Prop) (m : M A) : Prop :=
  forall w w', same_on P w w' ->
    fst (m w) = fst (m w') /\ same_on P (snd (m w)) (snd (m w')).

(** [m] returns a value in every world: it neither raises nor runs out of
    fuel. *)
Definition never_raises {A} (m : M A) : Prop := forall w, exists a, fst (m w) = Ok a.

(** The outcome [r] of a fetch-and-store run from [w] around the fetch
    function [fetch]: the fetch has run, in a world [w1] with the files and
    the requests of [w], and returned a table [df]; the run has sent the
    requests of the fetch and no other.  An empty [df] is returned and not
    written; another [df] is written under the key and returned, or the
    write fails, [OSError] comes out and the file of the key is as the
    failed write left it. *)
Definition store_outcome (E : Env) (b : BaseData) (data_type : string)
    (fetch : M DataFrame) (w : World) (r : Result DataFrame * World) : Prop :=
  exists w1 df,
    files w1 = files w /\ requests w1 = requests w /\
    fst (fetch w1) = Ok df /\
    requests (snd r) = requests (snd (fetch w1)) /\
    if df_empty df then fst r = Ok df /\ files (snd r) = files w
    else if writable E (key_path b data_type)
         then fst r = Ok df /\
              files (snd r) = <[key_path b data_type := Csv (as_read df)]> (files w)
         else fst r = Raise OSError /\
              files (snd r)
              = match torn E (key_path b data_type) df with
                | Some fd => <[key_path b data_type := fd]> (files w)
                | None => files w
                end.

(** No library of the environment runs out of fuel. *)
Definition libraries_answer (E : Env) : Prop :=
  (forall closes, decided (talib E closes)) /\
  (forall a b, decided (yf_history E a b)) /\
  (forall df, decided (resample_4h_ffill E df)).

(** ** The project template

    [template.py] ends with the loop
    [for filepath, content in files_to_create.items():
       if not os.path.exists(filepath): write content to filepath].
    [files_to_create] is the list of the items of the dictionary, in its
    order.  The disk is the map from the paths of the files that exist to
    their contents; the directories have been made by the loop before, and
    the writes are taken to succeed. *)

Module Template.

Fixpoint create_files (files_to_create : list (string * string)) (disk : gmap string string)
  : gmap string string :=
  match files_to_create with
  | [] => disk
  | (filepath, content) :: rest =>
      create_files rest
        (match disk !! filepath with
         | Some _ => disk
         | None => <[filepath := content]> disk
         end)
  end.

End Template.

(** * Properties *)

(** ** The monad *)

Lemma bind_ok {A B} (m : M A) (k : A -> M B) w a w' :
  m w = (Ok a, w') -> bind m k w = k a w'.
Proof. intros H. unfold bind. now rewrite H. Qed.

Lemma bind_raise {A B} (m : M A) (k : A -> M B) w e w' :
  m w = (Raise e, w') -> bind m k w = (Raise e, w').
Proof. intros H. unfold bind. now rewrite H. Qed.

Lemma try_except_ok {A} (m : M A) h w a w' :
  m w = (Ok a, w') -> try_except m h w = (Ok a, w').
Proof. intros H. unfold try_except. now rewrite H. Qed.

Lemma try_except_raise {A} (m : M A) h w e w' :
  m w = (Raise e, w') -> try_except m h w = h e w'.
Proof. intros H. unfold try_except. now rewrite H. Qed.

(** ** The cache check *)

Section CacheCheck.

Variables (E : Env) (self : BaseData) (data_type : string).

Let file_path := cache_path (data_dir self) (symbol self) (interval self) data_type.

Lemma check_absent w :
  files w !! file_path = None ->
  fst (check_local_data E self data_type w) = Ok (false, empty_df).
Proof.
  intros H. unfold check_local_data, bind, path_exists. fold file_path.
  now rewrite H.
Qed.

Lemma check_corrupt w e :
  files w !! file_path = Some (Corrupt e) ->
  check_local_data E self data_type w = (Raise e, w).
Proof.
  intros H. unfold check_local_data, bind, path_exists, read_csv. fold file_path.
  rewrite H. cbn. now rewrite H.
Qed.

Lemma check_no_rows w df :
  files w !! file_path = Some (Csv df) -> rows df = [] ->
  fst (check_local_data E self data_type w) = Ok (false, empty_df).
Proof.
  intros H Hr. unfold check_local_data, bind, path_exists, read_csv. fold file_path.
  rewrite H. cbn. rewrite H. cbn. unfold df_empty. cbn. now rewrite Hr.
Qed.

Lemma check_rows w df m :
  files w !! file_path = Some (Csv df) ->
  time_name df = time_key data_type ->
  maximum (map fst (rows df)) = Some m ->
  fst (check_local_data E self data_type w)
  = Ok (now E - m <? four_hours, as_read df).
Proof.
  intros H Hk Hm. unfold check_local_data, bind, path_exists, read_csv. fold file_path.
  rewrite H. cbn. rewrite H. cbn. unfold df_empty. cbn.
  destruct (rows df) as [|r rs] eqn:Hr; [discriminate|].
  unfold lift, time_values. cbn. rewrite Hk, String.eqb_refl, Hr, Hm.
  now destruct (now E - m <? four_hours).
Qed.

End CacheCheck.

(** C1 (as amended).  For every cache key, [_check_local_data] returns
    [(False, empty table)] when the file is absent or holds no rows; when
    the file holds rows under its primary timestamp column with maximum
    [m], it returns [(True, the cached table)] if [now - m] is less than
    four hours and [(False, the cached table)] (the table, not an empty
    one) if [now - m] is four hours or more. *)
Theorem check_local_data_cases (E : Env) (self : BaseData) (data_type : string) (w : World) :
  let file_path := cache_path (data_dir self) (symbol self) (interval self) data_type in
  let answer := fst (check_local_data E self data_type w) in
  (files w !! file_path = None -> answer = Ok (false, empty_df)) /\
  (forall df, files w !! file_path = Some (Csv df) -> rows df = [] ->
              answer = Ok (false, empty_df)) /\
  (forall df m, files w !! file_path = Some (Csv df) ->
                time_name df = time_key data_type ->
                maximum (map fst (rows df)) = Some m ->
                (now E - m < four_hours -> answer = Ok (true, as_read df)) /\
                (four_hours <= now E - m -> answer = Ok (false, as_read df))).
Proof.
  cbv zeta. split; [apply check_absent|]. split; [apply check_no_rows|].
  intros df m H Hk Hm. rewrite (check_rows E self data_type w df m H Hk Hm).
  split; intros Hlt.
  - now apply Z.ltb_lt in Hlt as ->.
  - now apply Z.ltb_ge in Hlt as ->.
Qed.

(** The three non-raising cases at a concrete cache: a fresh table at
    [now = 9h], read back as it is. *)
Lemma check_local_data_cases_witness :
  let E := Fixtures.env (9 * 3600000) Fixtures.no_answer in
  let w := Fixtures.world [(Fixtures.fg_path, Csv Fixtures.fg_table)] in
  fst (check_local_data E (Fixtures.btc E) "fear_greed" w)
  = Ok (true, as_read Fixtures.fg_table).
Proof.
  intros E w.
  destruct (check_local_data_cases E (Fixtures.btc E) "fear_greed" w) as (_ & _ & H).
  apply (H Fixtures.fg_table (2 * four_hours)); reflexivity.
Defined.

(** C1 (as stated) fails on a stale cache: with the newest row twelve
    hours old the check answers [False] together with the cached table,
    not with an empty one. *)
Lemma check_local_data_stale_keeps_table :
  let E := Fixtures.env (20 * 3600000) Fixtures.no_answer in
  let w := Fixtures.world [(Fixtures.fg_path, Csv Fixtures.fg_table)] in
  maximum (map fst (rows Fixtures.fg_table)) = Some (8 * 3600000) /\
  fst (check_local_data E (Fixtures.btc E) "fear_greed" w) = Ok (false, Fixtures.fg_table) /\
  fst (check_local_data E (Fixtures.btc E) "fear_greed" w) <> Ok (false, empty_df).
Proof.
  cbv zeta. split; [reflexivity|].
  assert (H : fst (check_local_data (Fixtures.env (20 * 3600000) Fixtures.no_answer)
                     (Fixtures.btc (Fixtures.env (20 * 3600000) Fixtures.no_answer))
                     "fear_greed"
                     (Fixtures.world [(Fixtures.fg_path, Csv Fixtures.fg_table)]))
              = Ok (false, Fixtures.fg_table)) by (vm_compute; reflexivity).
  split; [exact H|]. rewrite H. discriminate.
Qed.

(** ** A cache file that cannot be parsed *)

Lemma emit_run ev w : emit ev w = (Ok tt, after ev w).
Proof. reflexivity. Qed.

Ltac corrupt_cache H :=
  unfold enter;
  rewrite (bind_ok _ _ _ _ _ (emit_run _ _));
  apply bind_raise, check_corrupt; exact H.

(** C6 (as amended).  For every cache key whose file exists but cannot be
    parsed, the parser's exception is not caught: [_check_local_data]
    raises it and leaves the world as it is, and [fetch_and_store] of every
    fetcher, which calls the check outside its [try] block, raises it as
    well right after being entered, with no request and no write. *)
Theorem corrupt_cache_raises (E : Env) (w : World) (e : exn) :
  (forall self data_type,
     files w !! cache_path (data_dir self) (symbol self) (interval self) data_type
       = Some (Corrupt e) ->
     check_local_data E self data_type w = (Raise e, w)) /\
  (forall self fuel,
     files w !! cache_path (data_dir (OHLCVData.base self)) (symbol (OHLCVData.base self))
                  (interval (OHLCVData.base self)) "ohlcv" = Some (Corrupt e) ->
     OHLCVData.fetch_and_store E self fuel w
     = (Raise e, after (Call "OHLCVData.fetch_and_store") w)) /\
  (forall self ohlcv_data,
     files w !! cache_path (data_dir (OrderBookData.base self))
                  (symbol (OrderBookData.base self))
                  (interval (OrderBookData.base self)) "orderbook" = Some (Corrupt e) ->
     OrderBookData.fetch_and_store E self ohlcv_data w
     = (Raise e, after (Call "OrderBookData.fetch_and_store") w)) /\
  (forall self ohlcv_data,
     files w !! cache_path (data_dir (TechnicalData.base self))
                  (symbol (TechnicalData.base self))
                  (interval (TechnicalData.base self)) "technical" = Some (Corrupt e) ->
     TechnicalData.fetch_and_store E self ohlcv_data w
     = (Raise e, after (Call "TechnicalData.fetch_and_store") w)) /\
  (forall self a b,
     files w !! cache_path (data_dir (SentimentData.base self))
                  (symbol (SentimentData.base self))
                  (interval (SentimentData.base self)) "sentiment" = Some (Corrupt e) ->
     SentimentData.fetch_and_store E self a b w
     = (Raise e, after (Call "SentimentData.fetch_and_store") w)) /\
  (forall self a b,
     files w !! cache_path (data_dir (FearGreedData.base self))
                  (symbol (FearGreedData.base self))
                  (interval (FearGreedData.base self)) "fear_greed" = Some (Corrupt e) ->
     FearGreedData.fetch_and_store E self a b w
     = (Raise e, after (Call "FearGreedData.fetch_and_store") w)) /\
  (forall self a b,
     files w !! cache_path (data_dir (FundamentalData.base self))
                  (symbol (FundamentalData.base self))
                  (interval (FundamentalData.base self)) "fundamentals" = Some (Corrupt e) ->
     FundamentalData.fetch_and_store E self a b w
     = (Raise e, after (Call "FundamentalData.fetch_and_store") w)) /\
  (forall self a b,
     files w !! cache_path (data_dir (MacroData.base self))
                  (symbol (MacroData.base self))
                  (interval (MacroData.base self)) "macro" = Some (Corrupt e) ->
     MacroData.fetch_and_store E self a b w
     = (Raise e, after (Call "MacroData.fetch_and_store") w)) /\
  (forall self a b,
     files w !! cache_path (data_dir (OnChainData.base self))
                  (symbol (OnChainData.base self))
                  (interval (OnChainData.base self)) "onchain" = Some (Corrupt e) ->
     OnChainData.fetch_and_store E self a b w
     = (Raise e, after (Call "OnChainData.fetch_and_store") w)).
Proof.
  split; [intros; now apply check_corrupt|].
  repeat split; intros.
  - unfold OHLCVData.fetch_and_store. corrupt_cache H.
  - unfold OrderBookData.fetch_and_store. corrupt_cache H.
  - unfold TechnicalData.fetch_and_store. corrupt_cache H.
  - unfold SentimentData.fetch_and_store. corrupt_cache H.
  - unfold FearGreedData.fetch_and_store. corrupt_cache H.
  - unfold FundamentalData.fetch_and_store. corrupt_cache H.
  - unfold MacroData.fetch_and_store. corrupt_cache H.
  - unfold OnChainData.fetch_and_store. corrupt_cache H.
Qed.

(** The check on a cache file cut down to zero bytes *)
Lemma corrupt_cache_raises_witness :
  let E := Fixtures.env (9 * 3600000) Fixtures.no_answer in
  let w := Fixtures.world [(Fixtures.fg_path, Corrupt EmptyDataError)] in
  check_local_data E (Fixtures.btc E) "fear_greed" w = (Raise EmptyDataError, w).
Proof.
  intros E w.
  apply (proj1 (corrupt_cache_raises E w EmptyDataError)).
  vm_compute. reflexivity.
Defined.

(** C6 (as stated) fails: on a cache file that the parser rejects the
    check raises instead of answering [(False, empty table)]. *)
Lemma check_local_data_corrupt_not_absent :
  let E := Fixtures.env (9 * 3600000) Fixtures.no_answer in
  let w := Fixtures.world [(Fixtures.fg_path, Corrupt ParserError)] in
  fst (check_local_data E (Fixtures.btc E) "fear_greed" w) = Raise ParserError /\
  fst (check_local_data E (Fixtures.btc E) "fear_greed" w) <> Ok (false, empty_df).
Proof.
  cbv zeta.
  assert (H : fst (check_local_data (Fixtures.env (9 * 3600000) Fixtures.no_answer)
                     (Fixtures.btc (Fixtures.env (9 * 3600000) Fixtures.no_answer))
                     "fear_greed"
                     (Fixtures.world [(Fixtures.fg_path, Corrupt ParserError)]))
              = Raise ParserError) by (vm_compute; reflexivity).
  split; [exact H|]. rewrite H. discriminate.
Qed.

(** ** The probe for the earliest candle *)

(** C2.  The probe [fetch_historical_ohlcv(limit=1, start_time=0)] does not
    carry [startTime = 0]: under [if start_time:] the value [0] counts as
    absent, so the request is the one built for no start time at all and
    the whole call behaves as [fetch_historical_ohlcv(limit=1)]. *)
Theorem probe_request_omits_start_time (E : Env) (self : OHLCVData.t) (w : World) :
  lookup_last "startTime" (OHLCVData.kline_params self 1 (Some 0)) = None /\
  OHLCVData.kline_params self 1 (Some 0) = OHLCVData.kline_params self 1 None /\
  OHLCVData.fetch_historical_ohlcv E self 1 (Some 0) w
  = OHLCVData.fetch_historical_ohlcv E self 1 None w.
Proof. repeat split. Qed.

(** Against an exchange holding three candles, and no cache, the listing
    date is the opening time of the latest candle, and the fetch stores
    that single candle. *)
Example listing_date_is_latest_candle :
  let E := Fixtures.env (Exchange.t0 + 9 * 3600000) (Exchange.serve Exchange.history3 HttpError) in
  let w := Fixtures.world [] in
  fst (OHLCVData.get_symbol_listing_date E (Exchange.ohlcv E) w)
  = Ok (Exchange.t0 + 2 * four_hours) /\
  (exists df, fst (OHLCVData.fetch_and_store E (Exchange.ohlcv E) 5 w) = Ok df /\
              map fst (rows df) = [Exchange.t0 + 2 * four_hours]) /\
  hd_error (requests (snd (OHLCVData.get_symbol_listing_date E (Exchange.ohlcv E) w)))
  = Some (HttpGet "https://api.binance.com/api/v3/exchangeInfo" []) /\
  nth_error (requests (snd (OHLCVData.get_symbol_listing_date E (Exchange.ohlcv E) w))) 1
  = Some (HttpGet "https://api.binance.com/api/v3/klines"
            [("symbol", PStr "BTCUSDT"); ("interval", PStr "4h"); ("limit", PInt 1)]).
Proof.
  cbv zeta. split; [vm_compute; reflexivity|]. split.
  - eexists. split; vm_compute; reflexivity.
  - split; vm_compute; reflexivity.
Qed.

(** ** The fear and greed index *)

Lemma date_range_three a b :
  2 * four_hours <= b - a < 3 * four_hours ->
  date_range a b = [a; a + four_hours; a + 2 * four_hours].
Proof.
  intros H. unfold date_range.
  replace ((b - a) / four_hours) with 2.
  - change (Z.to_nat (2 + 1)) with 3%nat. cbn [seq map].
    repeat (f_equal; try lia).
  - apply Z.div_unique with (r := b - a - 2 * four_hours).
    + left. unfold four_hours in *. lia.
    + lia.
Qed.

(** C9.  Over a date range that holds exactly three four-hour buckets
    (its length is at least 8 and less than 12 hours), a fear/greed fetch
    whose upstream response carries the index value [v] returns a table of
    exactly three rows, at [start], [start + 4h] and [start + 8h], with [v]
    in the [fear_greed_index] column of every row. *)
Theorem fear_greed_three_buckets (E : Env) (self : FearGreedData.t)
    (start_date end_date : Moment) (w : World) (data v : json) :
  2 * four_hours <= when end_date - when start_date < 3 * four_hours ->
  http E FearGreedData.endpoint [] = Body data ->
  rbind (json_get "data" data) (fun d => rbind (json_get "1" d) (json_get "fear_greed")) = Ok v ->
  exists df,
    fst (FearGreedData.fetch_fear_and_greed_index E self start_date end_date w) = Ok df /\
    df_len df = 3%nat /\
    map fst (rows df) = [when start_date; when start_date + four_hours;
                         when start_date + 2 * four_hours] /\
    column "fear_greed_index" df = Ok [json_cell v; json_cell v; json_cell v].
Proof.
  intros Hrange Hhttp Hv.
  unfold FearGreedData.fetch_fear_and_greed_index, try_except, bind, log, emit,
    requests_get, lift, ret.
  cbn. rewrite Hhttp, Hv. cbn.
  rewrite (date_range_three _ _ Hrange). cbn.
  eexists. split; [reflexivity|]. repeat split.
Qed.

(** The same at a concrete response: index value 40 over eight hours. *)
Lemma fear_greed_three_buckets_witness :
  let fg := JObj [("data", JObj [("1", JObj [("fear_greed", JNum 40)])])] in
  let E := Fixtures.env 0 (fun _ _ => Body fg) in
  exists df,
    fst (FearGreedData.fetch_fear_and_greed_index E (FearGreedData.init E "btcusdt" "4h")
           {| when := 0; as_text := false |}
           {| when := 2 * four_hours; as_text := false |} (Fixtures.world [])) = Ok df /\
    df_len df = 3%nat /\
    map fst (rows df) = [0; 0 + four_hours; 0 + 2 * four_hours] /\
    column "fear_greed_index" df = Ok [Num 40; Num 40; Num 40].
Proof.
  intros fg E.
  apply (fear_greed_three_buckets E (FearGreedData.init E "btcusdt" "4h")
           {| when := 0; as_text := false |} {| when := 2 * four_hours; as_text := false |}
           (Fixtures.world []) fg (JNum 40)).
  - cbn. unfold four_hours. lia.
  - reflexivity.
  - reflexivity.
Defined.

(** ** Code without unbounded loops has an outcome *)

Create HintDb finishes.

Lemma finishes_ret {A} (a : A) : finishes (ret a).
Proof. intros w. discriminate. Qed.

Lemma finishes_raise {A} e : finishes (@raise A e).
Proof. intros w. discriminate. Qed.

Lemma finishes_emit ev : finishes (emit ev).
Proof. intros w. discriminate. Qed.

Lemma finishes_log l msg : finishes (log l msg).
Proof. apply finishes_emit. Qed.

Lemma finishes_lift {A} (r : Result A) : decided r -> finishes (lift r).
Proof. intros H w. exact H. Qed.

Lemma finishes_bind {A B} (m : M A) (k : A -> M B) :
  finishes m -> (forall a, finishes (k a)) -> finishes (bind m k).
Proof.
  intros Hm Hk w. unfold bind. specialize (Hm w).
  destruct (m w) as [[a| e |] w']; cbn in *; [apply Hk | congruence | congruence].
Qed.

Lemma finishes_try {A} (m : M A) h :
  finishes m -> (forall e, finishes (h e)) -> finishes (try_except m h).
Proof.
  intros Hm Hh w. unfold try_except. specialize (Hm w).
  destruct (m w) as [[a| e |] w']; cbn in *; [congruence | apply Hh | congruence].
Qed.

Lemma finishes_path_exists p : finishes (path_exists p).
Proof. intros w. discriminate. Qed.

Lemma finishes_read_csv p : finishes (read_csv p).
Proof. intros w. unfold read_csv. now destruct (files w !! p) as [[|]|]. Qed.

Lemma finishes_to_csv E df p : finishes (to_csv E df p).
Proof. intros w. unfold to_csv. now destruct (writable E p). Qed.

Lemma decided_rbind {A B} (r : Result A) (k : A -> Result B) :
  decided r -> (forall a, decided (k a)) -> decided (rbind r k).
Proof. intros Hr Hk. destruct r; cbn; [apply Hk | discriminate | now destruct Hr]. Qed.

Lemma decided_ok {A} (a : A) : decided (Ok a).
Proof. discriminate. Qed.

Lemma decided_raise {A} e : decided (@Raise A e).
Proof. discriminate. Qed.

Lemma decided_time_values key df : decided (time_values key df).
Proof. unfold time_values. now destruct (String.eqb key (time_name df)). Qed.

Lemma decided_drop_column name df : decided (drop_column name df).
Proof. unfold drop_column. now destruct (index_of name (columns df)). Qed.

#[local] Hint Resolve finishes_ret finishes_raise finishes_emit finishes_log
  finishes_lift finishes_path_exists finishes_read_csv finishes_to_csv
  decided_ok decided_raise decided_time_values decided_drop_column : finishes.

Ltac finishes :=
  repeat first
    [ progress auto with finishes
    | apply finishes_bind; [|intros ?]
    | apply finishes_try; [|intros ?]
    | apply finishes_lift
    | apply decided_rbind; [|intros ?]
    | match goal with
      | |- finishes (if ?b then _ else _) => destruct b
      | |- finishes (match ?x with _ => _ end) => destruct x
      | |- decided (if ?b then _ else _) => destruct b
      | |- decided (match ?x with _ => _ end) => destruct x
      end ].

(** ** The merge never raises *)

Lemma merge_loop_finishes self types combined :
  finishes (DataManager.merge_loop self types combined).
Proof.
  revert combined. induction types as [|data_type rest IH]; intros combined; cbn.
  - finishes.
  - apply finishes_bind; [finishes|]. intros present.
    destruct (negb present).
    + apply finishes_bind; [finishes|]. intros _. apply IH.
    + apply finishes_bind; [finishes|]. intros df.
      apply finishes_bind; [unfold to_datetime_column; finishes|]. intros df'.
      destruct combined as [c|]; [|apply IH].
      apply finishes_bind; [finishes|]. intros merged. apply IH.
Qed.

Lemma merge_try_finishes E self : finishes (DataManager.merge_try E self).
Proof.
  unfold DataManager.merge_try.
  apply finishes_bind; [apply merge_loop_finishes|]. intros c. finishes.
Qed.

(** C10.  [merge_data_for_training] never propagates an exception: it
    always returns a table, and whenever its [try] block raises (on a read,
    a join or the write of the combined file) the exception is logged and
    the table returned is the empty one. *)
Theorem merge_never_raises (E : Env) (self : DataManager.t) (w : World) :
  exists df w',
    DataManager.merge_data_for_training E self w = (Ok df, w') /\
    (forall e w1, DataManager.merge_try E self w = (Raise e, w1) ->
                  df = empty_df /\ w' = after (Log ERROR "Error merging data") w1).
Proof.
  unfold DataManager.merge_data_for_training, try_except.
  pose proof (merge_try_finishes E self w) as Hfin.
  destruct (DataManager.merge_try E self w) as [[df|e|] w1]; cbn in Hfin.
  - exists df, w1. split; [reflexivity|]. intros e w2 H. discriminate.
  - exists empty_df, (after (Log ERROR "Error merging data") w1).
    split; [reflexivity|]. intros e' w2 H. now inversion H.
  - congruence.
Qed.

(** An unparseable OHLCV cache: the [try] block raises and the empty table
    comes back. *)
Lemma merge_never_raises_witness :
  let E := Fixtures.env 0 Fixtures.no_answer in
  let w := Fixtures.world [("data/raw/BTCUSDT_4h_ohlcv.csv", Corrupt ParserError)] in
  fst (DataManager.merge_data_for_training E (DataManager.init E "btcusdt" "4h") w)
  = Ok empty_df.
Proof.
  intros E w.
  destruct (merge_never_raises E (DataManager.init E "btcusdt" "4h") w)
    as (df & w' & Hrun & Hraise).
  rewrite Hrun. cbn.
  destruct (Hraise ParserError w) as [-> _]; [vm_compute; reflexivity | reflexivity].
Defined.

(** The [try] block of the merge does raise: on a cache without the
    expected timestamp column and on a combined file that cannot be
    written. *)
Example merge_try_raises :
  let E := Fixtures.env 0 Fixtures.no_answer in
  let E' := {| now := 0; raw_dir := "data/raw"; http := Fixtures.no_answer;
               writable := fun _ => false; torn := fun _ _ => None;
               talib := talib E; vader := vader E;
               yf_history := yf_history E; pct_change := pct_change E;
               resample_4h_ffill := resample_4h_ffill E;
               pandas_frame := pandas_frame E |} in
  let w := Fixtures.world [("data/raw/BTCUSDT_4h_ohlcv.csv", Csv Fixtures.fg_table)] in
  let w' := Fixtures.world [(Fixtures.fg_path, Csv Fixtures.fg_table)] in
  fst (DataManager.merge_try E (DataManager.init E "btcusdt" "4h") w) = Raise KeyError /\
  fst (DataManager.merge_try E' (DataManager.init E' "btcusdt" "4h") w') = Raise OSError /\
  fst (DataManager.merge_data_for_training E' (DataManager.init E' "btcusdt" "4h") w')
  = Ok empty_df.
Proof. cbv zeta. repeat split; vm_compute; reflexivity. Qed.

(** ** Network errors in the fetchers *)

Section NetworkErrors.

Variable E : Env.

Lemma fear_greed_http_error self a b w :
  http E FearGreedData.endpoint [] = HttpError ->
  FearGreedData.fetch_fear_and_greed_index E self a b w
  = (Ok empty_df,
     after (Log ERROR "HTTP error during Fear and Greed fetch")
       (after (HttpGet FearGreedData.endpoint [])
          (after (Log INFO "Requesting Fear and Greed Index") w))).
Proof.
  intros H.
  unfold FearGreedData.fetch_fear_and_greed_index, try_except, bind, log, emit,
    requests_get, raise, ret.
  cbn. rewrite H. reflexivity.
Qed.

Lemma fundamental_http_error self coin a b w :
  as_text a = false -> as_text b = false ->
  let url := "https://api.coingecko.com/api/v3/coins/" +:+ coin +:+ "/market_chart" in
  let params := [("vs_currency", PStr "usd");
                 ("days", PInt ((when b - when a) / FundamentalData.one_day + 1));
                 ("interval", PStr "daily")] in
  http E url params = HttpError ->
  FundamentalData.fetch_fundamental_data E self coin a b w
  = (Ok empty_df,
     after (Log ERROR "HTTP error during fundamental data fetch")
       (after (HttpGet url params)
          (after (Log INFO ("Requesting fundamental data for " +:+ coin)) w))).
Proof.
  intros Ha Hb url params H.
  unfold FundamentalData.fetch_fundamental_data, try_except, bind, log, emit,
    requests_get, raise, ret.
  subst url params. rewrite Ha, Hb. cbn in *. rewrite H. reflexivity.
Qed.

Lemma onchain_http_error self a b w :
  as_text a = false -> as_text b = false ->
  let url := OnChainData.base_url self +:+ "/timeseries/asset-metrics" in
  let params := [("assets", PStr (OnChainData.coin self));
                 ("metrics", PStr "TxCnt,AdrActCnt");
                 ("start_time", PTime (when a)); ("end_time", PTime (when b));
                 ("frequency", PStr "4h")] in
  http E url params = HttpError ->
  OnChainData.fetch_onchain_data E self a b w
  = (Ok empty_df,
     after (Log ERROR "HTTP error during on-chain data fetch")
       (after (HttpGet url params)
          (after (Log INFO ("Requesting on-chain data for " +:+ OnChainData.coin self)) w))).
Proof.
  intros Ha Hb url params H.
  unfold OnChainData.fetch_onchain_data, try_except, bind, log, emit,
    requests_get, raise, ret, lift, timestamp_ms.
  subst url params. rewrite Ha, Hb. cbn in *. rewrite H. reflexivity.
Qed.

Lemma macro_provider_error self a b w e :
  as_text b = false ->
  yf_history E (when a) (when b + FundamentalData.one_day) = Raise e ->
  MacroData.fetch_macro_data E self a b w
  = (Ok empty_df,
     after (Log ERROR "Error fetching macro data")
       (after (Log INFO "Requesting macro data (S&P 500)") w)).
Proof.
  intros Hb H.
  unfold MacroData.fetch_macro_data, try_except, bind, log, log_exception, emit,
    raise, ret, lift.
  rewrite Hb. cbn. rewrite H. reflexivity.
Qed.

Lemma snapshot_http_error self limit timestamp w :
  let url := OrderBookData.base_url self +:+ "/api/v3/depth" in
  let params := [("symbol", PStr (symbol (OrderBookData.base self))); ("limit", PInt limit)] in
  http E url params = HttpError ->
  OrderBookData.fetch_order_book_snapshot E self limit timestamp w
  = (Raise RequestException,
     after (Log ERROR "HTTP error during order book fetch")
       (after (HttpGet url params)
          (after (Log INFO ("Requesting order book snapshot | Symbol: "
                            +:+ symbol (OrderBookData.base self))) w))).
Proof.
  intros url params H.
  unfold OrderBookData.fetch_order_book_snapshot, try_except, bind, log, emit,
    requests_get, raise, ret.
  subst url params. cbn in *. rewrite H. reflexivity.
Qed.

Lemma ohlcv_http_error self limit start_time w :
  let url := OHLCVData.base_url self +:+ "/api/v3/klines" in
  let params := OHLCVData.kline_params self limit start_time in
  http E url params = HttpError ->
  OHLCVData.fetch_historical_ohlcv E self limit start_time w
  = (Raise RequestException,
     after (Log ERROR "HTTP error during OHLCV fetch")
       (after (HttpGet url params)
          (after (Log INFO ("Requesting OHLCV data | Symbol: "
                            +:+ symbol (OHLCVData.base self))) w))).
Proof.
  intros url params H.
  unfold OHLCVData.fetch_historical_ohlcv, try_except, bind, log, emit,
    requests_get, raise, ret.
  subst url params. cbn in *. rewrite H. reflexivity.
Qed.

End NetworkErrors.

Lemma time_values_ok key df :
  time_name df = key -> time_values key df = Ok (map fst (rows df)).
Proof. intros <-. unfold time_values. now rewrite String.eqb_refl. Qed.

Section NetworkErrorsAtTheCaller.

Variable E : Env.

Lemma orderbook_fetch_and_store_http_error self ohlcv_data w w1 cached :
  check_local_data E (OrderBookData.base self) "orderbook"
    (after (Call "OrderBookData.fetch_and_store") w) = (Ok (false, cached), w1) ->
  time_name ohlcv_data = "open_time" ->
  parsed ohlcv_data = true ->
  rows ohlcv_data <> [] ->
  let url := OrderBookData.base_url self +:+ "/api/v3/depth" in
  let params := [("symbol", PStr (symbol (OrderBookData.base self))); ("limit", PInt 100)] in
  http E url params = HttpError ->
  OrderBookData.fetch_and_store E self ohlcv_data w
  = (Raise RequestException,
     after (Log ERROR "Error fetching and storing order book data")
       (after (Log ERROR "HTTP error during order book fetch")
          (after (HttpGet url params)
             (after (Log INFO ("Requesting order book snapshot | Symbol: "
                               +:+ symbol (OrderBookData.base self))) w1)))).
Proof.
  intros Hcheck Hname Hparsed Hrows url params Hhttp.
  unfold OrderBookData.fetch_and_store, enter.
  rewrite (bind_ok _ _ _ _ _ (emit_run _ _)).
  rewrite (bind_ok _ _ _ _ _ Hcheck).
  unfold df_empty. destruct (rows ohlcv_data) as [|[t cells] rest] eqn:Hr; [congruence|].
  erewrite try_except_raise; [reflexivity|].
  rewrite (time_values_ok _ _ Hname), Hr, Hparsed. cbn [map fst].
  erewrite bind_ok by reflexivity.
  apply bind_raise. cbn [OrderBookData.snapshots timestamp_ms lift].
  erewrite bind_ok by reflexivity.
  apply bind_raise. now apply snapshot_http_error.
Qed.

Lemma ohlcv_fetch_and_store_http_error self fuel w w1 cached :
  check_local_data E (OHLCVData.base self) "ohlcv"
    (after (Call "OHLCVData.fetch_and_store") w) = (Ok (false, cached), w1) ->
  let url := OHLCVData.base_url self +:+ "/api/v3/exchangeInfo" in
  http E url [] = HttpError ->
  OHLCVData.fetch_and_store E self fuel w
  = (Raise RequestException,
     after (Log ERROR "Error fetching and storing OHLCV data")
       (after (Log ERROR ("Error fetching listing date for " +:+ symbol (OHLCVData.base self)))
          (after (HttpGet url []) w1))).
Proof.
  intros Hcheck url Hhttp.
  unfold OHLCVData.fetch_and_store, enter.
  rewrite (bind_ok _ _ _ _ _ (emit_run _ _)).
  rewrite (bind_ok _ _ _ _ _ Hcheck).
  erewrite try_except_raise; [reflexivity|].
  apply bind_raise.
  unfold OHLCVData.get_symbol_listing_date.
  erewrite try_except_raise; [reflexivity|].
  apply bind_raise. unfold requests_get.
  erewrite bind_ok by apply emit_run. subst url. cbn in Hhttp. now rewrite Hhttp.
Qed.

End NetworkErrorsAtTheCaller.

(** ** Fetchers that talk to no server *)

Lemma requests_after_log l msg w : requests (after (Log l msg) w) = requests w.
Proof.
  unfold requests, after. cbn. rewrite List.filter_app. cbn. apply app_nil_r.
Qed.

Lemma technical_no_request E self ohlcv_data w :
  requests (snd (TechnicalData.compute_technical_indicators E self ohlcv_data w))
  = requests w.
Proof.
  unfold TechnicalData.compute_technical_indicators, try_except, bind, lift,
    log, log_exception, emit, ret.
  destruct (df_empty ohlcv_data); cbn.
  - apply (requests_after_log WARNING).
  - destruct (time_values "open_time" ohlcv_data); cbn;
      [|apply (requests_after_log ERROR)|reflexivity].
    destruct (column "close" ohlcv_data); cbn;
      [|apply (requests_after_log ERROR)|reflexivity].
    destruct (talib E a0); cbn;
      [apply (requests_after_log INFO)|apply (requests_after_log ERROR)|reflexivity].
Qed.

Lemma sentiment_no_request E self coin a b w :
  requests (snd (SentimentData.fetch_social_sentiment E self coin a b w)) = requests w.
Proof.
  unfold SentimentData.fetch_social_sentiment, try_except, bind, log, emit, ret,
    requests.
  cbn. rewrite !List.filter_app. cbn. now rewrite !app_nil_r.
Qed.

(** C5 (as amended).  A network/HTTP error during the external fetch is
    logged and swallowed into an empty table by the fear/greed,
    fundamentals, macro and on-chain fetchers.  The order-book fetcher, like
    the OHLCV fetcher, logs the error and re-raises it: out of the snapshot
    (resp. page) request and out of [fetch_and_store] to the caller.  The
    technical and sentiment computations issue no request at all. *)
Theorem network_error_policy (E : Env) (w : World) :
  (forall self a b,
     http E FearGreedData.endpoint [] = HttpError ->
     fst (FearGreedData.fetch_fear_and_greed_index E self a b w) = Ok empty_df /\
     In (Log ERROR "HTTP error during Fear and Greed fetch")
        (trace (snd (FearGreedData.fetch_fear_and_greed_index E self a b w)))) /\
  (forall self coin a b,
     as_text a = false -> as_text b = false ->
     http E ("https://api.coingecko.com/api/v3/coins/" +:+ coin +:+ "/market_chart")
       [("vs_currency", PStr "usd");
        ("days", PInt ((when b - when a) / FundamentalData.one_day + 1));
        ("interval", PStr "daily")] = HttpError ->
     fst (FundamentalData.fetch_fundamental_data E self coin a b w) = Ok empty_df /\
     In (Log ERROR "HTTP error during fundamental data fetch")
        (trace (snd (FundamentalData.fetch_fundamental_data E self coin a b w)))) /\
  (forall self a b e,
     as_text b = false ->
     yf_history E (when a) (when b + FundamentalData.one_day) = Raise e ->
     fst (MacroData.fetch_macro_data E self a b w) = Ok empty_df /\
     In (Log ERROR "Error fetching macro data")
        (trace (snd (MacroData.fetch_macro_data E self a b w)))) /\
  (forall self a b,
     as_text a = false -> as_text b = false ->
     http E (OnChainData.base_url self +:+ "/timeseries/asset-metrics")
       [("assets", PStr (OnChainData.coin self)); ("metrics", PStr "TxCnt,AdrActCnt");
        ("start_time", PTime (when a)); ("end_time", PTime (when b));
        ("frequency", PStr "4h")] = HttpError ->
     fst (OnChainData.fetch_onchain_data E self a b w) = Ok empty_df /\
     In (Log ERROR "HTTP error during on-chain data fetch")
        (trace (snd (OnChainData.fetch_onchain_data E self a b w)))) /\
  (forall self limit timestamp,
     http E (OrderBookData.base_url self +:+ "/api/v3/depth")
       [("symbol", PStr (symbol (OrderBookData.base self))); ("limit", PInt limit)]
       = HttpError ->
     fst (OrderBookData.fetch_order_book_snapshot E self limit timestamp w)
     = Raise RequestException /\
     In (Log ERROR "HTTP error during order book fetch")
        (trace (snd (OrderBookData.fetch_order_book_snapshot E self limit timestamp w)))) /\
  (forall self ohlcv_data w1 cached,
     check_local_data E (OrderBookData.base self) "orderbook"
       (after (Call "OrderBookData.fetch_and_store") w) = (Ok (false, cached), w1) ->
     time_name ohlcv_data = "open_time" -> parsed ohlcv_data = true ->
     rows ohlcv_data <> [] ->
     http E (OrderBookData.base_url self +:+ "/api/v3/depth")
       [("symbol", PStr (symbol (OrderBookData.base self))); ("limit", PInt 100)]
       = HttpError ->
     fst (OrderBookData.fetch_and_store E self ohlcv_data w) = Raise RequestException) /\
  (forall self limit start_time,
     http E (OHLCVData.base_url self +:+ "/api/v3/klines")
       (OHLCVData.kline_params self limit start_time) = HttpError ->
     fst (OHLCVData.fetch_historical_ohlcv E self limit start_time w)
     = Raise RequestException /\
     In (Log ERROR "HTTP error during OHLCV fetch")
        (trace (snd (OHLCVData.fetch_historical_ohlcv E self limit start_time w)))) /\
  (forall self fuel w1 cached,
     check_local_data E (OHLCVData.base self) "ohlcv"
       (after (Call "OHLCVData.fetch_and_store") w) = (Ok (false, cached), w1) ->
     http E (OHLCVData.base_url self +:+ "/api/v3/exchangeInfo") [] = HttpError ->
     fst (OHLCVData.fetch_and_store E self fuel w) = Raise RequestException) /\
  (forall self ohlcv_data,
     requests (snd (TechnicalData.compute_technical_indicators E self ohlcv_data w))
     = requests w) /\
  (forall self coin a b,
     requests (snd (SentimentData.fetch_social_sentiment E self coin a b w)) = requests w).
Proof.
  repeat apply conj; intros.
  - rewrite fear_greed_http_error by assumption. cbn.
    split; [reflexivity|]. apply in_or_app. right. now left.
  - rewrite fundamental_http_error by assumption. cbn.
    split; [reflexivity|]. apply in_or_app. right. now left.
  - erewrite macro_provider_error by eassumption. cbn.
    split; [reflexivity|]. apply in_or_app. right. now left.
  - rewrite onchain_http_error by assumption. cbn.
    split; [reflexivity|]. apply in_or_app. right. now left.
  - rewrite snapshot_http_error by assumption. cbn.
    split; [reflexivity|]. apply in_or_app. right. now left.
  - erewrite orderbook_fetch_and_store_http_error by eassumption. reflexivity.
  - rewrite ohlcv_http_error by assumption. cbn.
    split; [reflexivity|]. apply in_or_app. right. now left.
  - erewrite ohlcv_fetch_and_store_http_error by eassumption. reflexivity.
  - apply technical_no_request.
  - apply sentiment_no_request.
Qed.

(** With every server unreachable and no cache: the fear/greed fetch
    degrades to the empty table, the order-book fetch raises. *)
Lemma network_error_policy_witness :
  let E := Fixtures.env 0 Fixtures.no_answer in
  let w := Fixtures.world [] in
  fst (FearGreedData.fetch_fear_and_greed_index E (FearGreedData.init E "btcusdt" "4h")
         {| when := 0; as_text := false |} {| when := four_hours; as_text := false |} w)
  = Ok empty_df /\
  fst (OrderBookData.fetch_and_store E (Exchange.orderbook E) Exchange.one_candle w)
  = Raise RequestException.
Proof.
  intros E w.
  pose proof (network_error_policy E w) as (Hfg & _ & _ & _ & _ & Hob & _).
  split.
  - apply Hfg. reflexivity.
  - apply (Hob (Exchange.orderbook E) Exchange.one_candle
             (after (Log INFO "No local data found for orderbook at data/raw/BTCUSDT_4h_orderbook.csv")
                (after (Call "OrderBookData.fetch_and_store") w))
             empty_df).
    + vm_compute. reflexivity.
    + reflexivity.
    + reflexivity.
    + discriminate.
    + reflexivity.
Defined.

(** C5 (as stated) fails for the order book: with the depth endpoint
    unreachable its fetch raises [RequestException] to the caller instead
    of returning an empty table. *)
Lemma orderbook_error_is_raised :
  let E := Fixtures.env 0 (Exchange.serve Exchange.history3 HttpError) in
  let w := Fixtures.world [] in
  fst (OrderBookData.fetch_order_book_snapshot E (Exchange.orderbook E) 100
         (Some Exchange.t0) w) = Raise RequestException /\
  fst (OrderBookData.fetch_and_store E (Exchange.orderbook E) Exchange.one_candle w)
  = Raise RequestException /\
  fst (OrderBookData.fetch_and_store E (Exchange.orderbook E) Exchange.one_candle w)
  <> Ok empty_df.
Proof.
  cbv zeta. split; [vm_compute; reflexivity|].
  assert (H : fst (OrderBookData.fetch_and_store
                     (Fixtures.env 0 (Exchange.serve Exchange.history3 HttpError))
                     (Exchange.orderbook
                        (Fixtures.env 0 (Exchange.serve Exchange.history3 HttpError)))
                     Exchange.one_candle (Fixtures.world []))
              = Raise RequestException) by (vm_compute; reflexivity).
  split; [exact H|]. rewrite H. discriminate.
Qed.

(** ** The auxiliary fetchers in [fetch_and_store_all] *)

Section AuxiliaryFetchers.

Variables (E : Env) (self : DataManager.t) (fuel : nat).
Variables (w0 w1 : World) (ohlcv_data : DataFrame) (start : Z).

Hypothesis ohlcv_fetched :
  OHLCVData.fetch_and_store E (DataManager.ohlcv_fetcher self) fuel w0 = (Ok ohlcv_data, w1).
Hypothesis ohlcv_keyed : time_name ohlcv_data = "open_time".
Hypothesis ohlcv_starts : minimum (map fst (rows ohlcv_data)) = Some start.

Let start_date := {| when := start; as_text := negb (parsed ohlcv_data) |}.
Let end_date := {| when := now E; as_text := false |}.

(** What remains of the [try] block once the date range is known *)
Let auxiliary : M unit :=
  (_ <- OrderBookData.fetch_and_store E (DataManager.orderbook_fetcher self) ohlcv_data ;;
   _ <- TechnicalData.fetch_and_store E (DataManager.technical_fetcher self) ohlcv_data ;;
   _ <- SentimentData.fetch_and_store E (DataManager.sentiment_fetcher self) start_date end_date ;;
   _ <- FearGreedData.fetch_and_store E (DataManager.fear_greed_fetcher self) start_date end_date ;;
   _ <- FundamentalData.fetch_and_store E (DataManager.fundamental_fetcher self)
          start_date end_date ;;
   log INFO ("Completed fetching and storing all data for " +:+ DataManager.symbol self)).

Lemma fetch_all_try_auxiliary : DataManager.fetch_all_try E self fuel w0 = auxiliary w1.
Proof.
  unfold DataManager.fetch_all_try.
  rewrite (bind_ok _ _ _ _ _ ohlcv_fetched).
  unfold df_empty. destruct (rows ohlcv_data) as [|r rs] eqn:Hr; [discriminate|].
  rewrite (time_values_ok _ _ ohlcv_keyed).
  erewrite bind_ok by reflexivity. rewrite Hr, ohlcv_starts.
  erewrite bind_ok by reflexivity. reflexivity.
Qed.

Lemma fetch_all_raise e w :
  auxiliary w1 = (Raise e, w) ->
  DataManager.fetch_and_store_all E self fuel w0
  = (Raise e, after (Log ERROR "Error in fetch_and_store_all") w).
Proof.
  intros H. unfold DataManager.fetch_and_store_all.
  erewrite try_except_raise by (rewrite fetch_all_try_auxiliary; exact H).
  reflexivity.
Qed.

Lemma fetch_all_ok w :
  auxiliary w1 = (Ok tt, w) ->
  DataManager.fetch_and_store_all E self fuel w0 = (Ok tt, w).
Proof.
  intros H. unfold DataManager.fetch_and_store_all.
  erewrite try_except_ok by (rewrite fetch_all_try_auxiliary; exact H).
  reflexivity.
Qed.

(** C4 (as amended).  In [fetch_and_store_all], after a non-empty OHLCV
    fetch, the five auxiliary fetchers are called one after the other inside
    the single [try] block of the method: the first of them that raises ends
    the run, the exception is logged and re-raised to the caller, and the
    fetchers after it are not called (the final world is the one in which
    the failing fetcher raised, plus the error record).  A fetcher that
    returns, be it an empty table after an error it swallowed, lets the next
    one run; when all five return, the run completes. *)
Theorem first_failure_ends_run :
  let run := DataManager.fetch_and_store_all E self fuel w0 in
  let failed e w := (@Raise unit e, after (Log ERROR "Error in fetch_and_store_all") w) in
  (forall e w2,
     OrderBookData.fetch_and_store E (DataManager.orderbook_fetcher self) ohlcv_data w1
       = (Raise e, w2) -> run = failed e w2) /\
  (forall d1 w2,
     OrderBookData.fetch_and_store E (DataManager.orderbook_fetcher self) ohlcv_data w1
       = (Ok d1, w2) ->
   (forall e w3,
      TechnicalData.fetch_and_store E (DataManager.technical_fetcher self) ohlcv_data w2
        = (Raise e, w3) -> run = failed e w3) /\
   (forall d2 w3,
      TechnicalData.fetch_and_store E (DataManager.technical_fetcher self) ohlcv_data w2
        = (Ok d2, w3) ->
    (forall e w4,
       SentimentData.fetch_and_store E (DataManager.sentiment_fetcher self)
         start_date end_date w3 = (Raise e, w4) -> run = failed e w4) /\
    (forall d3 w4,
       SentimentData.fetch_and_store E (DataManager.sentiment_fetcher self)
         start_date end_date w3 = (Ok d3, w4) ->
     (forall e w5,
        FearGreedData.fetch_and_store E (DataManager.fear_greed_fetcher self)
          start_date end_date w4 = (Raise e, w5) -> run = failed e w5) /\
     (forall d4 w5,
        FearGreedData.fetch_and_store E (DataManager.fear_greed_fetcher self)
          start_date end_date w4 = (Ok d4, w5) ->
      (forall e w6,
         FundamentalData.fetch_and_store E (DataManager.fundamental_fetcher self)
           start_date end_date w5 = (Raise e, w6) -> run = failed e w6) /\
      (forall d5 w6,
         FundamentalData.fetch_and_store E (DataManager.fundamental_fetcher self)
           start_date end_date w5 = (Ok d5, w6) ->
         run = (Ok tt,
                after (Log INFO ("Completed fetching and storing all data for "
                                 +:+ DataManager.symbol self)) w6)))))).
Proof.
  cbv zeta.
  split; [intros e w2 H1; apply fetch_all_raise; now apply bind_raise|].
  intros d1 w2 H1.
  split; [intros e w3 H2; apply fetch_all_raise; unfold auxiliary;
          rewrite (bind_ok _ _ _ _ _ H1); now apply bind_raise|].
  intros d2 w3 H2.
  split; [intros e w4 H3; apply fetch_all_raise; unfold auxiliary;
          rewrite (bind_ok _ _ _ _ _ H1), (bind_ok _ _ _ _ _ H2); now apply bind_raise|].
  intros d3 w4 H3.
  split; [intros e w5 H4; apply fetch_all_raise; unfold auxiliary;
          rewrite (bind_ok _ _ _ _ _ H1), (bind_ok _ _ _ _ _ H2), (bind_ok _ _ _ _ _ H3);
          now apply bind_raise|].
  intros d4 w5 H4.
  split; [intros e w6 H5; apply fetch_all_raise; unfold auxiliary;
          rewrite (bind_ok _ _ _ _ _ H1), (bind_ok _ _ _ _ _ H2), (bind_ok _ _ _ _ _ H3),
            (bind_ok _ _ _ _ _ H4); now apply bind_raise|].
  intros d5 w6 H5. apply fetch_all_ok. unfold auxiliary.
  rewrite (bind_ok _ _ _ _ _ H1), (bind_ok _ _ _ _ _ H2), (bind_ok _ _ _ _ _ H3),
    (bind_ok _ _ _ _ _ H4), (bind_ok _ _ _ _ _ H5).
  reflexivity.
Qed.

End AuxiliaryFetchers.

(** A run against an exchange whose depth endpoint is down: the OHLCV
    fetch succeeds, the order-book fetch raises, the run fails. *)
Lemma first_failure_ends_run_witness :
  let E := Fixtures.env (Exchange.t0 + 9 * 3600000)
             (Exchange.serve Exchange.history3 HttpError) in
  let self := DataManager.init E "btcusdt" "4h" in
  fst (DataManager.fetch_and_store_all E self 5 (Fixtures.world [])) = Raise RequestException.
Proof.
  intros E self.
  pose (w1 := snd (OHLCVData.fetch_and_store E (DataManager.ohlcv_fetcher self) 5
                     (Fixtures.world []))).
  pose (w2 := snd (OrderBookData.fetch_and_store E (DataManager.orderbook_fetcher self)
                     Exchange.latest_candle w1)).
  destruct (first_failure_ends_run E self 5 (Fixtures.world []) w1 Exchange.latest_candle
              (Exchange.t0 + 2 * four_hours)) as [H _].
  - vm_compute. reflexivity.
  - reflexivity.
  - reflexivity.
  - rewrite (H RequestException w2); [reflexivity|]. vm_compute. reflexivity.
Defined.

(** C4 (as stated) fails: when the order-book fetcher raises, none of the
    four fetchers after it is entered. *)
Lemma orderbook_failure_blocks_later_fetchers :
  let E := Fixtures.env (Exchange.t0 + 9 * 3600000)
             (Exchange.serve Exchange.history3 HttpError) in
  let self := DataManager.init E "btcusdt" "4h" in
  let run := DataManager.fetch_and_store_all E self 5 (Fixtures.world []) in
  fst run = Raise RequestException /\
  invoked "OHLCVData.fetch_and_store" (snd run) = true /\
  invoked "OrderBookData.fetch_and_store" (snd run) = true /\
  invoked "TechnicalData.fetch_and_store" (snd run) = false /\
  invoked "SentimentData.fetch_and_store" (snd run) = false /\
  invoked "FearGreedData.fetch_and_store" (snd run) = false /\
  invoked "FundamentalData.fetch_and_store" (snd run) = false.
Proof. cbv zeta. repeat split; vm_compute; reflexivity. Qed.

(** A run in which the depth endpoint answers and every other auxiliary
    server is down: the errors are swallowed and all five fetchers run. *)
Example swallowed_errors_do_not_block :
  let depth := JObj [("lastUpdateId", JNum 7);
                     ("bids", JArr [JArr [JNum 100; JNum 2]]);
                     ("asks", JArr [JArr [JNum 101; JNum 3]])] in
  let E := Fixtures.env (Exchange.t0 + 9 * 3600000)
             (Exchange.serve Exchange.history3 (Body depth)) in
  let self := DataManager.init E "btcusdt" "4h" in
  let run := DataManager.fetch_and_store_all E self 5 (Fixtures.world []) in
  fst run = Ok tt /\
  invoked "OrderBookData.fetch_and_store" (snd run) = true /\
  invoked "TechnicalData.fetch_and_store" (snd run) = true /\
  invoked "SentimentData.fetch_and_store" (snd run) = true /\
  invoked "FearGreedData.fetch_and_store" (snd run) = true /\
  invoked "FundamentalData.fetch_and_store" (snd run) = true /\
  logged ERROR "HTTP error during Fear and Greed fetch" (snd run) = true.
Proof. cbv zeta. repeat split; vm_compute; reflexivity. Qed.

(** ** The nearest join stays within its tolerance *)

Lemma count_while_true p l i :
  count_while p l = S i -> p (nth i l 0) = true.
Proof.
  revert i. induction l as [|x l IH]; intros i; cbn; [discriminate|].
  destruct (p x) eqn:Hp; [|discriminate].
  intros [= Hc]. destruct i as [|i]; [exact Hp|]. now apply IH.
Qed.

Lemma count_while_bound p l : (count_while p l <= length l)%nat.
Proof. induction l as [|x l IH]; cbn; [lia|]. destruct (p x); lia. Qed.

Lemma count_while_false p l :
  (count_while p l < length l)%nat -> p (nth (count_while p l) l 0) = false.
Proof.
  induction l as [|x l IH]; cbn; [lia|].
  destruct (p x) eqn:Hp; [|intros _; exact Hp].
  intros H. apply IH. lia.
Qed.

Lemma backward_pos_spec tol t keys i :
  backward_pos tol t keys = Some i ->
  (i < length keys)%nat /\ nth i keys 0 <= t /\ t - nth i keys 0 <= tol.
Proof.
  unfold backward_pos.
  destruct (count_while (fun k => k <=? t) keys) as [|n] eqn:Hc; [discriminate|].
  destruct (t - nth n keys 0 >? tol) eqn:Htol; [discriminate|].
  intros [= <-].
  pose proof (count_while_bound (fun k => k <=? t) keys).
  pose proof (count_while_true _ _ _ Hc) as Hle. cbn in Hle.
  repeat split; lia.
Qed.

Lemma forward_pos_spec tol t keys i :
  forward_pos tol t keys = Some i ->
  (i < length keys)%nat /\ t <= nth i keys 0 /\ nth i keys 0 - t <= tol.
Proof.
  unfold forward_pos.
  destruct (Nat.ltb (count_while (fun k => k <? t) keys) (length keys)) eqn:Hlt;
    [|discriminate].
  destruct (nth (count_while (fun k => k <? t) keys) keys 0 - t >? tol) eqn:Htol;
    [discriminate|].
  intros [= <-]. apply Nat.ltb_lt in Hlt.
  pose proof (count_while_false _ _ Hlt) as Hge. cbn in Hge.
  repeat split; lia.
Qed.

Lemma nearest_pos_within tol t keys i :
  nearest_pos tol t keys = Some i ->
  (i < length keys)%nat /\ Z.abs (t - nth i keys 0) <= tol.
Proof.
  unfold nearest_pos.
  destruct (backward_pos tol t keys) as [b|] eqn:Hb;
    destruct (forward_pos tol t keys) as [f|] eqn:Hf;
    try (apply backward_pos_spec in Hb); try (apply forward_pos_spec in Hf).
  - destruct (t - nth b keys 0 <=? nth f keys 0 - t); intros [= <-]; split; lia.
  - intros [= <-]. split; lia.
  - intros [= <-]. split; lia.
  - discriminate.
Qed.

Lemma insert_row_in r x l : In x (insert_row r l) <-> x = r \/ In x l.
Proof.
  induction l as [|y l IH]; cbn; [intuition|].
  destruct (fst r <=? fst y); cbn; [intuition|]. rewrite IH. intuition.
Qed.

Lemma sort_values_in x l : In x (sort_values l) <-> In x l.
Proof.
  induction l as [|y l IH]; cbn; [reflexivity|].
  rewrite insert_row_in, IH. intuition.
Qed.

(** A right row farther than the tolerance from every left row is joined
    to none. *)
Lemma nearest_join_far (left right : DataFrame) (j : nat) :
  let r := sort_values (rows right) in
  let merged := merge_asof_nearest four_hours left right in
  (forall l, In l (rows left) -> four_hours < Z.abs (fst l - fst (nth j r (0, [])))) ->
  (forall l, In l (rows left) -> nearest_pos four_hours (fst l) (map fst r) <> Some j) /\
  (forall row, In row (rows merged) ->
     exists l, In l (rows left) /\ fst row = fst l /\
       (snd row = (snd l ++ repeat NaN (S (length (columns right))))%list \/
        exists k, k <> j /\ (k < length r)%nat /\
          Z.abs (fst l - fst (nth k r (0, []))) <= four_hours /\
          snd row = (snd l ++ Time (fst (nth k r (0, []))) :: snd (nth k r (0, [])))%list)) /\
  map fst (rows merged) = map fst (sort_values (rows left)).
Proof.
  intros r merged Hfar.
  assert (Hkey : forall k, nth k (map fst r) 0 = fst (nth k r (0, []))).
  { intros k. exact (map_nth fst r (0, []) k). }
  assert (Hno : forall l, In l (rows left) ->
                          nearest_pos four_hours (fst l) (map fst r) <> Some j).
  { intros l Hl Hj. apply nearest_pos_within in Hj as [_ Hj].
    rewrite Hkey in Hj. specialize (Hfar l Hl). lia. }
  split; [exact Hno|]. split.
  - intros row Hrow. unfold merged, merge_asof_nearest in Hrow. cbn in Hrow.
    apply in_map_iff in Hrow as (l & <- & Hl).
    apply (proj1 (sort_values_in _ _)) in Hl.
    exists l. split; [exact Hl|]. split; [reflexivity|]. cbn.
    fold r.
    destruct (nearest_pos four_hours (fst l) (map fst r)) as [k|] eqn:Hk.
    + right. exists k. pose proof (Hno l Hl) as Hne. rewrite Hk in Hne.
      apply nearest_pos_within in Hk as [Hlen Hk]. rewrite Hkey in Hk.
      rewrite length_map in Hlen.
      repeat split; [congruence | exact Hlen | exact Hk].
    + left. reflexivity.
  - unfold merged, merge_asof_nearest. cbn. rewrite map_map. cbn. reflexivity.
Qed.

Example nearest_join_rows :
  map (fun row : Row => (fst row, nth 6 (snd row) NaN, nth 7 (snd row) NaN))
      (rows (merge_asof_nearest four_hours Fixtures.ohlcv_table Fixtures.sentiment_table))
  = [(0, Time (1 * Fixtures.hour), Num 3);
     (4 * Fixtures.hour, Time (1 * Fixtures.hour), Num 3);
     (8 * Fixtures.hour, NaN, NaN)].
Proof. vm_compute. reflexivity. Qed.

(** ** The merge loop *)

Lemma insert_row_perm r l : Permutation (insert_row r l) (r :: l).
Proof.
  induction l as [|x l IH]; cbn; [reflexivity|].
  destruct (fst r <=? fst x); [reflexivity|].
  rewrite IH. apply perm_swap.
Qed.

Lemma sort_values_perm l : Permutation (sort_values l) l.
Proof.
  induction l as [|x l IH]; cbn; [reflexivity|].
  rewrite insert_row_perm. now apply perm_skip.
Qed.

Lemma merge_keys tol left right :
  map fst (rows (merge_asof_nearest tol left right)) = map fst (sort_values (rows left)).
Proof. unfold merge_asof_nearest. cbn. rewrite map_map. reflexivity. Qed.

Lemma drop_column_keys name df df' :
  drop_column name df = Ok df' ->
  time_name df' = time_name df /\ map fst (rows df') = map fst (rows df).
Proof.
  unfold drop_column. destruct (index_of name (columns df)); [|discriminate].
  intros [= <-]. cbn. split; [reflexivity|]. now rewrite map_map.
Qed.

Section MergeLoop.

Variable self : DataManager.t.

Let path (data_type : string) : string :=
  cache_path (DataManager.data_dir self) (DataManager.symbol self)
    (DataManager.interval self) data_type.

Lemma merge_loop_absent data_type rest combined w :
  files w !! path data_type = None ->
  DataManager.merge_loop self (data_type :: rest) combined w
  = DataManager.merge_loop self rest combined
      (after (Log WARNING ("No " +:+ data_type +:+ " data found at " +:+ path data_type)) w).
Proof.
  intros H. cbn [DataManager.merge_loop]. fold (path data_type).
  unfold bind at 1. unfold path_exists. rewrite H. cbn [negb].
  unfold bind at 1. reflexivity.
Qed.

Lemma merge_loop_present data_type rest combined w df :
  files w !! path data_type = Some (Csv df) ->
  time_name df = time_key data_type ->
  DataManager.merge_loop self (data_type :: rest) combined w
  = match combined with
    | None => DataManager.merge_loop self rest (Some (rename_time (with_datetimes df))) w
    | Some running =>
        (merged <- lift (drop_column (time_key data_type)
                           (merge_asof_nearest four_hours running (with_datetimes df))) ;;
         DataManager.merge_loop self rest (Some merged)) w
    end.
Proof.
  intros H Hkey. cbn [DataManager.merge_loop]. fold (path data_type).
  unfold bind at 1. unfold path_exists. rewrite H. cbn [negb].
  unfold bind at 1. unfold read_csv. rewrite H.
  unfold bind at 1. unfold lift at 1, to_datetime_column.
  rewrite (time_values_ok (time_key data_type) (as_read df)) by exact Hkey.
  cbn [rbind]. destruct combined; reflexivity.
Qed.

Lemma merge_loop_keys types : forall running w r w',
  DataManager.merge_loop self types (Some running) w = (Ok r, w') ->
  exists combined, r = Some combined /\ time_name combined = time_name running /\
                   Permutation (map fst (rows combined)) (map fst (rows running)).
Proof.
  induction types as [|data_type rest IH]; intros running w r w' Hrun.
  - cbn in Hrun. injection Hrun as <- <-. now exists running.
  - destruct (files w !! path data_type) as [[e|df]|] eqn:Hfile.
    + cbn [DataManager.merge_loop] in Hrun. fold (path data_type) in Hrun.
      unfold bind at 1 in Hrun. unfold path_exists in Hrun. rewrite Hfile in Hrun.
      cbn [negb] in Hrun. unfold bind at 1 in Hrun. unfold read_csv in Hrun.
      rewrite Hfile in Hrun. discriminate.
    + destruct (String.eqb (time_key data_type) (time_name df)) eqn:Hkey.
      * apply String.eqb_eq in Hkey. symmetry in Hkey.
        rewrite (merge_loop_present _ _ _ _ _ Hfile Hkey) in Hrun.
        unfold bind, lift in Hrun.
        destruct (drop_column (time_key data_type)
                    (merge_asof_nearest four_hours running (with_datetimes df)))
          as [merged| |] eqn:Hdrop; try discriminate.
        apply IH in Hrun as (combined & -> & Hname & Hperm).
        apply drop_column_keys in Hdrop as [Hn Hk].
        exists combined. split; [reflexivity|]. split; [now rewrite Hname, Hn|].
        rewrite Hperm, Hk, merge_keys. apply Permutation_map, sort_values_perm.
      * cbn [DataManager.merge_loop] in Hrun. fold (path data_type) in Hrun.
        unfold bind at 1 in Hrun. unfold path_exists in Hrun. rewrite Hfile in Hrun.
        cbn [negb] in Hrun. unfold bind at 1 in Hrun. unfold read_csv in Hrun.
        rewrite Hfile in Hrun. unfold bind at 1 in Hrun.
        unfold lift at 1, to_datetime_column, time_values in Hrun.
        cbn [time_name as_read] in Hrun. rewrite Hkey in Hrun. discriminate.
    + rewrite (merge_loop_absent _ _ _ _ Hfile) in Hrun. now apply IH in Hrun.
Qed.

End MergeLoop.

(** C8.  In the merge step of [merge_data_for_training], the nearest join
    of the running table with a cached series under a tolerance of four
    hours, a row of the series (the row at position [j] of its sorted
    table) whose timestamp is more than four hours away from every
    [open_time] of the running table is matched by no row: the position
    chosen for a row of the running table is never [j], and every joined
    row carries, after the cells of its left row, either missing values
    only or the cells of a row of the series other than [j] that lies
    within four hours of it.  The joined rows, and the rows of the table
    that the loop goes on with once the series' timestamp column is
    dropped, are the rows of the running table in the order of their
    [open_time]; the table that the loop returns in the end has the
    [open_time] values of the running table. *)
Theorem far_rows_stay_unmatched (self : DataManager.t) (data_type : string)
    (rest : list string) (left right : DataFrame) (w : World) (j : nat) :
  let path := cache_path (DataManager.data_dir self) (DataManager.symbol self)
                (DataManager.interval self) in
  let r := sort_values (rows right) in
  let joined := merge_asof_nearest four_hours left (with_datetimes right) in
  files w !! path data_type = Some (Csv right) ->
  time_name right = time_key data_type ->
  (forall l, In l (rows left) -> four_hours < Z.abs (fst l - fst (nth j r (0, [])))) ->
  DataManager.merge_loop self (data_type :: rest) (Some left) w
  = (merged <- lift (drop_column (time_key data_type) joined) ;;
     DataManager.merge_loop self rest (Some merged)) w /\
  (forall l, In l (rows left) -> nearest_pos four_hours (fst l) (map fst r) <> Some j) /\
  (forall row, In row (rows joined) ->
     exists l, In l (rows left) /\ fst row = fst l /\
       (snd row = (snd l ++ repeat NaN (S (length (columns right))))%list \/
        exists k, k <> j /\ (k < length r)%nat /\
          Z.abs (fst l - fst (nth k r (0, []))) <= four_hours /\
          snd row = (snd l ++ Time (fst (nth k r (0, []))) :: snd (nth k r (0, [])))%list)) /\
  map fst (rows joined) = map fst (sort_values (rows left)) /\
  (forall merged,
     drop_column (time_key data_type) joined = Ok merged ->
     map fst (rows merged) = map fst (sort_values (rows left))) /\
  (forall result w',
     DataManager.merge_loop self (data_type :: rest) (Some left) w = (Ok result, w') ->
     exists combined,
       result = Some combined /\
       Permutation (map fst (rows combined)) (map fst (rows left))).
Proof.
  intros path r joined Hfile Hkey Hfar.
  split; [exact (merge_loop_present self data_type rest (Some left) w right Hfile Hkey)|].
  destruct (nearest_join_far left (with_datetimes right) j Hfar) as (Hno & Hrows & Hkeys).
  split; [exact Hno|]. split; [exact Hrows|]. split; [exact Hkeys|]. split.
  - intros merged Hdrop. apply drop_column_keys in Hdrop as [_ ->]. exact Hkeys.
  - intros result w' Hrun.
    destruct (merge_loop_keys self _ _ _ _ _ Hrun) as (combined & -> & _ & Hperm).
    now exists combined.
Qed.

(** Three candles at 0h, 4h, 8h as the running table and a sentiment cache
    with rows at 1h and 20h: the row at 20h (position 1 once sorted) is
    twelve hours from the nearest candle and is matched by none; the table
    that the loop returns holds the sentiment of the row at 1h for the
    candles at 0h and 4h, and none for the candle at 8h. *)
Lemma far_rows_stay_unmatched_witness :
  let E := Fixtures.env 0 Fixtures.no_answer in
  let self := DataManager.init E "btcusdt" "4h" in
  let w := Fixtures.world [(Fixtures.sentiment_path, Csv Fixtures.sentiment_table)] in
  nearest_pos four_hours (8 * Fixtures.hour)
    (map fst (sort_values (rows Fixtures.sentiment_table))) <> Some 1%nat /\
  exists merged,
    fst (DataManager.merge_loop self ["sentiment"] (Some Fixtures.ohlcv_table) w)
    = Ok (Some merged) /\
    map (fun row : Row => (fst row, nth 6 (snd row) NaN)) (rows merged)
    = [(0, Num 3); (4 * Fixtures.hour, Num 3); (8 * Fixtures.hour, NaN)].
Proof.
  intros E self w.
  destruct (far_rows_stay_unmatched self "sentiment" [] Fixtures.ohlcv_table
              Fixtures.sentiment_table w 1)
    as (Hloop & Hno & _).
  - reflexivity.
  - reflexivity.
  - intros l [<-|[<-|[<-|[]]]]; vm_compute; reflexivity.
  - split.
    + apply (Hno (8 * Fixtures.hour,
                  [Num 102; Num 103; Num 100; Num 101; Num 7; Time (12 * Fixtures.hour - 1)])).
      right. right. left. reflexivity.
    + rewrite Hloop. eexists. split; vm_compute; reflexivity.
Defined.

(** ** Files that a computation does not depend on *)

Lemma confined_ret {A} P (a : A) : confined P (ret a).
Proof. intros w w' H. now split. Qed.

Lemma confined_lift {A} P (r : Result A) : confined P (lift r).
Proof. intros w w' H. now split. Qed.

Lemma confined_emit P ev : confined P (emit ev).
Proof.
  intros w w' [Ht Hf]. split; [reflexivity|]. split; cbn; [now rewrite Ht | exact Hf].
Qed.

Lemma confined_bind {A B} P (m : M A) (k : A -> M B) :
  confined P m -> (forall a, confined P (k a)) -> confined P (bind m k).
Proof.
  intros Hm Hk w w' H. unfold bind. destruct (Hm w w' H) as [Hr Hw].
  destruct (m w) as [r w1], (m w') as [r' w1']. cbn in Hr, Hw. subst r'.
  destruct r as [a|e|]; [now apply Hk | now split | now split].
Qed.

Lemma confined_try {A} P (m : M A) h :
  confined P m -> (forall e, confined P (h e)) -> confined P (try_except m h).
Proof.
  intros Hm Hh w w' H. unfold try_except. destruct (Hm w w' H) as [Hr Hw].
  destruct (m w) as [r w1], (m w') as [r' w1']. cbn in Hr, Hw. subst r'.
  destruct r as [a|e|]; [now split | now apply Hh | now split].
Qed.

Lemma confined_path_exists (P : string -> Prop) p : P p -> confined P (path_exists p).
Proof.
  intros Hp w w' [Ht Hf]. unfold path_exists. cbn. rewrite (Hf p Hp). now split.
Qed.

Lemma confined_read_csv (P : string -> Prop) p : P p -> confined P (read_csv p).
Proof.
  intros Hp w w' [Ht Hf]. unfold read_csv. rewrite (Hf p Hp).
  destruct (files w' !! p) as [[e|df]|]; now split.
Qed.

Lemma confined_to_csv (P : string -> Prop) E df p : confined P (to_csv E df p).
Proof.
  assert (Hput : forall fd w w', agree P w w' ->
            agree P {| files := <[p := fd]> (files w); trace := trace w |}
                    {| files := <[p := fd]> (files w'); trace := trace w' |}).
  { intros fd w w' [Ht Hf]. split; [exact Ht|]. cbn. intros q Hq.
    destruct (decide (p = q)) as [->|Hne].
    - now rewrite !lookup_insert_eq.
    - rewrite !lookup_insert_ne by exact Hne. now apply Hf. }
  intros w w' H. unfold to_csv. destruct (writable E p).
  - split; [reflexivity|]. now apply Hput.
  - split; [reflexivity|]. cbn [snd]. destruct (torn E p df); [now apply Hput | exact H].
Qed.

Lemma confined_merge_loop (P : string -> Prop) self types :
  (forall data_type, In data_type types ->
     P (cache_path (DataManager.data_dir self) (DataManager.symbol self)
          (DataManager.interval self) data_type)) ->
  forall combined, confined P (DataManager.merge_loop self types combined).
Proof.
  induction types as [|data_type rest IH]; intros HP combined; cbn [DataManager.merge_loop].
  - apply confined_ret.
  - assert (Hp := HP data_type (or_introl eq_refl)).
    assert (IH' := IH (fun d Hd => HP d (or_intror Hd))).
    apply confined_bind; [now apply confined_path_exists|]. intros present.
    destruct (negb present).
    + apply confined_bind; [apply confined_emit|]. intros _. apply IH'.
    + apply confined_bind; [now apply confined_read_csv|]. intros df.
      apply confined_bind; [apply confined_lift|]. intros df'.
      destruct combined as [running|]; [|apply IH'].
      apply confined_bind; [apply confined_lift|]. intros merged. apply IH'.
Qed.

Lemma confined_merge (P : string -> Prop) E self :
  (forall data_type, In data_type DataManager.data_types ->
     P (cache_path (DataManager.data_dir self) (DataManager.symbol self)
          (DataManager.interval self) data_type)) ->
  confined P (DataManager.merge_data_for_training E self).
Proof.
  intros HP. unfold DataManager.merge_data_for_training, DataManager.merge_try.
  apply confined_try.
  - apply confined_bind; [now apply confined_merge_loop|]. intros [combined|].
    + apply confined_bind; [apply confined_to_csv|]. intros _.
      apply confined_bind; [apply confined_emit|]. intros _. apply confined_ret.
    + apply confined_bind; [apply confined_emit|]. intros _. apply confined_ret.
  - intros e. apply confined_bind; [apply confined_emit|]. intros _. apply confined_ret.
Qed.

(** ** Cache paths of different data types differ *)

Lemma append_cancel p x y : p +:+ x = p +:+ y -> x = y.
Proof. induction p as [|c p IH]; cbn; [auto|]. intros [= H]. auto. Qed.

Lemma slash_prefix_of_stem sym x y :
  str_prefix "/" (sym +:+ "_" +:+ x) = str_prefix "/" (sym +:+ "_" +:+ y).
Proof. destruct sym; reflexivity. Qed.

Lemma cache_tail_inj dir sym itv x y :
  path_join dir (sym +:+ "_" +:+ itv +:+ "_" +:+ x)
  = path_join dir (sym +:+ "_" +:+ itv +:+ "_" +:+ y) ->
  x = y.
Proof.
  unfold path_join.
  rewrite (slash_prefix_of_stem sym (itv +:+ "_" +:+ x) (itv +:+ "_" +:+ y)).
  destruct (str_prefix "/" (sym +:+ "_" +:+ itv +:+ "_" +:+ y)).
  - intros H. now do 4 apply append_cancel in H.
  - destruct (String.eqb dir "" || ends_with_slash dir); intros H.
    + now do 5 apply append_cancel in H.
    + now do 6 apply append_cancel in H.
Qed.

(** ** What the merge reads *)

Lemma merge_base_keys E self w ohlcv result w' :
  files w !! cache_path (DataManager.data_dir self) (DataManager.symbol self)
               (DataManager.interval self) "ohlcv" = Some (Csv ohlcv) ->
  DataManager.merge_try E self w = (Ok result, w') ->
  time_name result = "open_time" /\
  Permutation (map fst (rows result)) (map fst (rows ohlcv)).
Proof.
  intros Hfile Hrun. unfold DataManager.merge_try, DataManager.data_types in Hrun.
  unfold bind at 1 in Hrun.
  destruct (String.eqb (time_key "ohlcv") (time_name ohlcv)) eqn:Hkey.
  - apply String.eqb_eq in Hkey. symmetry in Hkey.
    rewrite (merge_loop_present self _ _ None _ _ Hfile Hkey) in Hrun.
    destruct (DataManager.merge_loop self _ _ w) as [[r|e|] w1] eqn:Hloop;
      try discriminate.
    apply merge_loop_keys in Hloop as (combined & -> & Hname & Hperm).
    unfold bind, to_csv, log, emit, ret in Hrun.
    destruct (writable E _); [|discriminate].
    injection Hrun as <- _. split; [exact Hname|exact Hperm].
  - cbn [DataManager.merge_loop] in Hrun.
    unfold bind at 1 in Hrun. unfold path_exists in Hrun. rewrite Hfile in Hrun.
    cbn [negb] in Hrun. unfold bind at 1 in Hrun. unfold read_csv in Hrun.
    rewrite Hfile in Hrun. unfold bind at 1 in Hrun.
    unfold lift at 1, to_datetime_column, time_values in Hrun.
    cbn [time_name as_read] in Hrun. rewrite Hkey in Hrun. discriminate.
Qed.




(** The merge of the OHLCV cache with the sentiment cache *)
Example merge_ohlcv_with_sentiment :
  let E := Fixtures.env 0 Fixtures.no_answer in
  let self := DataManager.init E "btcusdt" "4h" in
  let w := Fixtures.world [(Fixtures.ohlcv_path, Csv Fixtures.ohlcv_table);
                           (Fixtures.sentiment_path, Csv Fixtures.sentiment_table)] in
  exists result,
    fst (DataManager.merge_data_for_training E self w) = Ok result /\
    time_name result = "open_time" /\
    columns result = ["open"; "high"; "low"; "close"; "volume"; "close_time";
                      "social_sentiment"] /\
    map (fun row : Row => (fst row, nth 6 (snd row) NaN)) (rows result)
    = [(0, Num 3); (4 * Fixtures.hour, Num 3); (8 * Fixtures.hour, NaN)] /\
    logged WARNING "No orderbook data found at data/raw/BTCUSDT_4h_orderbook.csv"
      (snd (DataManager.merge_data_for_training E self w)) = true.
Proof. cbv zeta. eexists. repeat split; vm_compute; reflexivity. Qed.

(** ** The pagination loop *)

Section Pagination.

Import Klines.

Variables (E : Env) (self : OHLCVData.t) (page : option Z -> list Kline).

Hypothesis served : serves E self page.

Lemma rows_of_page p :
  OHLCVData.kline_rows (map kline_json p) = Some (map row_of p).
Proof.
  induction p as [|k p IH]; [reflexivity|].
  cbn [map OHLCVData.kline_rows]. rewrite IH. reflexivity.
Qed.

Lemma cursor_of_params limit current_time :
  requested_cursor (OHLCVData.kline_params self limit (Some current_time))
  = cursor_of current_time.
Proof.
  unfold requested_cursor, OHLCVData.kline_params, cursor_of.
  now destruct (current_time =? 0).
Qed.

Lemma requests_after ev w :
  requests (after ev w) = (requests w ++ if is_request ev then [ev] else [])%list.
Proof.
  unfold requests, after. cbn. rewrite List.filter_app. cbn.
  now destruct (is_request ev).
Qed.

Lemma limit_of_params limit start_time :
  requested_limit (OHLCVData.kline_params self limit start_time) = Some limit.
Proof.
  unfold requested_limit, OHLCVData.kline_params.
  destruct start_time as [st|]; [destruct (st =? 0)|]; reflexivity.
Qed.

(** A request that is answered with the candles [p] *)
Lemma fetch_answer limit start_time p w :
  http E (OHLCVData.base_url self +:+ "/api/v3/klines")
    (OHLCVData.kline_params self limit start_time) = Body (JArr (map kline_json p)) ->
  exists w',
    OHLCVData.fetch_historical_ohlcv E self limit start_time w = (Ok (frame_of p), w') /\
    length (requests w') = S (length (requests w)).
Proof.
  intros Hhttp.
  unfold OHLCVData.fetch_historical_ohlcv, try_except, bind, log, emit, requests_get,
    raise, ret, lift.
  rewrite Hhttp.
  destruct p as [|k p].
  - cbn -[OHLCVData.kline_params]. eexists. split; [reflexivity|].
    unfold requests. cbn [trace]. rewrite !List.filter_app, !length_app. cbn. lia.
  - unfold OHLCVData.klines_frame, bind, emit.
    cbn -[OHLCVData.kline_params OHLCVData.kline_rows map].
    rewrite rows_of_page.
    cbn -[OHLCVData.kline_params map]. eexists. split; [reflexivity|].
    unfold requests. cbn [trace]. rewrite !List.filter_app, !length_app. cbn. lia.
Qed.

(** One page request of the loop *)
Lemma fetch_page current_time w :
  exists w',
    OHLCVData.fetch_historical_ohlcv E self 1000 (Some current_time) w
    = (Ok (frame_of (page (cursor_of current_time))), w') /\
    length (requests w') = S (length (requests w)).
Proof.
  apply fetch_answer. rewrite (served _ (limit_of_params _ _)).
  now rewrite cursor_of_params.
Qed.

Lemma iloc_last_map {A B} (f : A -> B) (l : list A) (d : A) :
  l <> [] -> iloc_last (map f l) = Ok (f (List.last l d)).
Proof.
  intros Hl. destruct (exists_last Hl) as (l' & a & ->).
  unfold iloc_last. rewrite map_app, rev_app_distr. cbn. now rewrite last_last.
Qed.

Lemma last_close_time_of_page k p :
  OHLCVData.last_close_time (frame_of (k :: p)) = Ok (next_cursor (k :: p) - 1).
Proof.
  unfold OHLCVData.last_close_time, column, next_cursor.
  cbn [frame_of columns OHLCVData.ohlcv_columns rows parsed].
  change (index_of "close_time" OHLCVData.ohlcv_columns) with (Some 5%nat).
  cbn [rbind]. rewrite map_map.
  rewrite (iloc_last_map _ (k :: p) zero) by discriminate.
  cbn [rbind row_of snd nth cell_timestamp_ms timestamp_ms]. f_equal. lia.
Qed.

Lemma nth_cursor_shift start i :
  nth_cursor page start (S i)
  = nth_cursor page (next_cursor (page (cursor_of start))) i.
Proof.
  induction i as [|i IH]; [reflexivity|].
  change (nth_cursor page start (S (S i)))
    with (next_cursor (page (cursor_of (nth_cursor page start (S i))))).
  now rewrite IH.
Qed.

Lemma nth_page_shift start i :
  nth_page page start (S i) = nth_page page (next_cursor (page (cursor_of start))) i.
Proof. unfold nth_page. now rewrite nth_cursor_shift. Qed.

Lemma first_short_shift start n :
  first_short page start (S n) ->
  (1000 <= length (page (cursor_of start)))%nat /\
  first_short page (next_cursor (page (cursor_of start))) n.
Proof.
  intros [Hshort Hfull]. split; [apply (Hfull 0%nat); lia|]. split.
  - now rewrite <- nth_page_shift.
  - intros i Hi. rewrite <- nth_page_shift. apply Hfull. lia.
Qed.

Lemma flat_map_shift {A} (f : nat -> list A) s n :
  flat_map f (seq (S s) n) = flat_map (fun i => f (S i)) (seq s n).
Proof.
  revert s. induction n as [|n IH]; intros s; [reflexivity|].
  cbn [seq flat_map]. now rewrite IH.
Qed.

Lemma pages_rows_shift start n :
  pages_rows page start (S n)
  = (map row_of (page (cursor_of start))
     ++ pages_rows page (next_cursor (page (cursor_of start))) n)%list.
Proof.
  unfold pages_rows. change (seq 0 (S (S n))) with (0%nat :: seq 1 (S n)).
  cbn [flat_map]. f_equal. rewrite flat_map_shift.
  apply flat_map_ext. intros i. now rewrite nth_page_shift.
Qed.

Lemma pagination_run n : forall start acc fuel w,
  first_short page start n -> (n < fuel)%nat ->
  exists dfs w',
    OHLCVData.pagination E self fuel start acc w = (Ok (acc ++ dfs)%list, w') /\
    length (requests w') = (length (requests w) + S n)%nat /\
    flat_map rows dfs = pages_rows page start n.
Proof.
  induction n as [|n IH]; intros start acc fuel w Hshort Hfuel;
    (destruct fuel as [|fuel]; [lia|]); cbn [OHLCVData.pagination];
    destruct (fetch_page start w) as (w1 & Hfetch & Hreq);
    rewrite (bind_ok _ _ _ _ _ Hfetch).
  - destruct Hshort as [Hlen _]. unfold nth_page in Hlen. cbn [nth_cursor] in Hlen.
    unfold pages_rows, nth_page. cbn [seq flat_map nth_cursor].
    destruct (page (cursor_of start)) as [|k p] eqn:Hp.
    + exists [], w1. rewrite app_nil_r. split; [reflexivity|]. split; [lia|reflexivity].
    + change (df_empty (frame_of (k :: p))) with false. cbv iota.
      erewrite bind_ok by (unfold lift; rewrite last_close_time_of_page; reflexivity).
      unfold df_len. change (rows (frame_of (k :: p))) with (map row_of (k :: p)).
    rewrite length_map.
      apply Nat.ltb_lt in Hlen. rewrite Hlen.
      exists [frame_of (k :: p)], w1. split; [reflexivity|]. split; [lia|].
      cbn. now rewrite app_nil_r.
  - apply first_short_shift in Hshort as [Hfull Hrest].
    rewrite pages_rows_shift.
    destruct (page (cursor_of start)) as [|k p] eqn:Hp; [cbn in Hfull; lia|].
    change (df_empty (frame_of (k :: p))) with false. cbv iota.
    erewrite bind_ok by (unfold lift; rewrite last_close_time_of_page; reflexivity).
    unfold df_len. change (rows (frame_of (k :: p))) with (map row_of (k :: p)).
    rewrite length_map.
    apply Nat.ltb_ge in Hfull. rewrite Hfull.
    replace (next_cursor (k :: p) - 1 + 1) with (next_cursor (k :: p)) by lia.
    destruct (IH (next_cursor (k :: p)) (acc ++ [frame_of (k :: p)])%list fuel w1 Hrest)
      as (dfs & w' & Hrun & Hreq' & Hrows); [lia|].
    exists (frame_of (k :: p) :: dfs), w'. rewrite Hrun, <- app_assoc. cbn [app].
    split; [reflexivity|]. split; [lia|].
    cbn [flat_map frame_of rows]. now rewrite Hrows.
Qed.

Hypothesis pages : paged page.
Hypothesis candles : well_formed page.

Lemma sorted_app (a b : list Z) :
  StronglySorted Z.lt a -> StronglySorted Z.lt b ->
  (forall x y, In x a -> In y b -> x < y) ->
  StronglySorted Z.lt (a ++ b).
Proof.
  intros Ha Hb Hab. induction Ha as [|x a Ha IH Hx]; [exact Hb|].
  cbn. constructor.
  - apply IH. intros u v Hu Hv. apply Hab; [now right | exact Hv].
  - apply Forall_app. split; [exact Hx|].
    apply List.Forall_forall. intros y Hy. apply Hab; [now left | exact Hy].
Qed.

Lemma sorted_le_last (l : list Kline) :
  StronglySorted Z.lt (map k_open_time l) ->
  forall k, In k l -> k_open_time k <= k_open_time (List.last l zero).
Proof.
  induction l as [|a l IH]; intros Hs k Hk; [destruct Hk|].
  cbn [map] in Hs. apply StronglySorted_inv in Hs as [Hs Ha].
  destruct l as [|b l].
  - destruct Hk as [<-|[]]. cbn. lia.
  - change (List.last (a :: b :: l) zero) with (List.last (b :: l) zero).
    destruct Hk as [<-|Hk]; [|now apply IH].
    assert (Hb : k_open_time a < k_open_time (List.last (b :: l) zero)).
    { rewrite List.Forall_forall in Ha. apply Ha, in_map.
      destruct (exists_last (l := b :: l)) as (l' & c & ->); [discriminate|].
      rewrite last_last. apply in_or_app. right. now left. }
    lia.
Qed.

Lemma sorted_nodup (l : list Z) : StronglySorted Z.lt l -> List.NoDup l.
Proof.
  induction 1 as [|x l Hs IH Hx]; constructor; [|exact IH].
  intros Hin. rewrite List.Forall_forall in Hx. specialize (Hx x Hin). lia.
Qed.

Lemma pages_sorted n : forall start,
  (forall i, (i < n)%nat -> nth_page page start i <> []) ->
  StronglySorted Z.lt (map fst (pages_rows page start n)) /\
  (start <> 0 -> Forall (fun t => start <= t) (map fst (pages_rows page start n))).
Proof.
  induction n as [|n IH]; intros start Hfull.
  - unfold pages_rows, nth_page. cbn [seq flat_map nth_cursor].
    rewrite app_nil_r, map_map. cbn [row_of fst].
    destruct (pages (cursor_of start)) as (_ & Hsorted & Hfrom).
    split; [exact Hsorted|]. intros Hstart.
    apply Forall_map. apply Hfrom. unfold cursor_of.
    now destruct (Z.eqb_spec start 0).
  - rewrite pages_rows_shift, map_app, map_map. cbn [row_of fst].
    set (p0 := page (cursor_of start)).
    assert (Hp0 : p0 <> []) by (apply (Hfull 0%nat); lia).
    destruct (pages (cursor_of start)) as (_ & Hsorted & Hfrom). fold p0 in Hsorted, Hfrom.
    pose proof (candles (cursor_of start)) as Hwf. fold p0 in Hwf.
    rewrite List.Forall_forall in Hwf.
    assert (Hlast_in : In (List.last p0 zero) p0).
    { destruct (exists_last Hp0) as (l' & c & ->). rewrite last_last.
      apply in_or_app. right. now left. }
    assert (Hnext : forall k, In k p0 -> k_open_time k < next_cursor p0).
    { intros k Hk. pose proof (sorted_le_last p0 Hsorted k Hk).
      pose proof (Hwf _ Hlast_in). unfold next_cursor. lia. }
    assert (Hpos : next_cursor p0 <> 0).
    { pose proof (Hwf _ Hlast_in). unfold next_cursor. lia. }
    destruct (IH (next_cursor p0)) as [Hrest Hfrom'].
    { intros i Hi. unfold p0. rewrite <- nth_page_shift. apply Hfull. lia. }
    specialize (Hfrom' Hpos). rewrite List.Forall_forall in Hfrom'.
    split.
    + apply sorted_app; [exact Hsorted | exact Hrest |].
      intros x y Hx Hy. apply in_map_iff in Hx as (k & <- & Hk).
      specialize (Hnext k Hk). specialize (Hfrom' y Hy). lia.
    + intros Hstart. apply Forall_app. split.
      * apply Forall_map. apply Hfrom. unfold cursor_of.
        now destruct (Z.eqb_spec start 0).
      * apply List.Forall_forall. intros y Hy. specialize (Hfrom' y Hy).
        assert (Hs : Forall (fun k => start <= k_open_time k) p0).
        { apply Hfrom. unfold cursor_of. now destruct (Z.eqb_spec start 0). }
        rewrite List.Forall_forall in Hs. specialize (Hs _ Hlast_in).
        specialize (Hnext _ Hlast_in). lia.
Qed.

Lemma rows_concat dfs : rows (concat dfs) = flat_map rows dfs.
Proof. now destruct dfs. Qed.


End Pagination.

(** *** An exchange that honours the limit *)

Lemma sorted_filter (f : Z -> bool) (l : list Z) :
  StronglySorted Z.lt l -> StronglySorted Z.lt (List.filter f l).
Proof.
  induction 1 as [|x l Hs IH Hx]; cbn; [constructor|].
  destruct (f x); [|exact IH]. constructor; [exact IH|].
  apply List.Forall_forall. intros y Hy. apply filter_In in Hy as [Hy _].
  rewrite List.Forall_forall in Hx. now apply Hx.
Qed.

Lemma in_firstn {A} (x : A) n l : In x (firstn n l) -> In x l.
Proof.
  revert l. induction n as [|n IH]; intros [|y l]; cbn; try tauto.
  intros [-> | H]; [now left | right; now apply IH].
Qed.

Lemma in_skipn {A} (x : A) n l : In x (skipn n l) -> In x l.
Proof.
  revert l. induction n as [|n IH]; intros [|y l]; cbn; try tauto.
  intros H. right. now apply IH.
Qed.

Lemma sorted_firstn n (l : list Z) :
  StronglySorted Z.lt l -> StronglySorted Z.lt (firstn n l).
Proof.
  intros Hs. revert n. induction Hs as [|x l Hs IH Hx]; intros [|n]; cbn; try constructor.
  - apply IH.
  - apply List.Forall_forall. intros y Hy. apply in_firstn in Hy.
    rewrite List.Forall_forall in Hx. now apply Hx.
Qed.

Lemma sorted_skipn n (l : list Z) :
  StronglySorted Z.lt l -> StronglySorted Z.lt (skipn n l).
Proof.
  intros Hs. revert n. induction Hs as [|x l Hs IH Hx]; intros [|n]; cbn;
    [constructor | constructor | now constructor | apply IH].
Qed.

Lemma sorted_history n :
  StronglySorted Z.lt
    (map (fun i : nat => Exchange.t0 + Z.of_nat i * four_hours) (seq 0 n)).
Proof.
  generalize 0%nat. induction n as [|n IH]; intros s; cbn; constructor; [apply IH|].
  apply List.Forall_forall. intros y Hy. apply in_map_iff in Hy as (i & <- & Hi).
  apply in_seq in Hi. unfold four_hours. lia.
Qed.

Lemma in_page history c k :
  In k (Exchange.pages history c) ->
  exists ot, k = Klines.candle ot (ot + four_hours - 1) /\ In ot history /\
             (forall st, c = Some st -> st <= ot).
Proof.
  unfold Exchange.pages. intros H. apply in_map_iff in H as (ot & <- & Hot).
  exists ot. split; [reflexivity|]. destruct c as [st|].
  - apply in_firstn, filter_In in Hot as [Hin Hle]. split; [exact Hin|].
    intros st' [= <-]. lia.
  - apply in_skipn in Hot. split; [exact Hot|]. discriminate.
Qed.

(** The kline endpoint of [Exchange.serve] gives at most the number of
    candles asked for; to the loop it serves [Exchange.pages]. *)
Lemma exchange_serves E history depth :
  http E = Exchange.serve history depth ->
  Klines.serves E (Exchange.ohlcv E) (Exchange.pages history).
Proof.
  intros Hhttp ps Hlimit. rewrite Hhttp.
  unfold Klines.requested_limit in Hlimit.
  unfold Exchange.serve, Exchange.klines, Exchange.param_int, Exchange.pages,
    Klines.requested_cursor.
  change (OHLCVData.base_url (Exchange.ohlcv E) +:+ "/api/v3/klines")
    with "https://api.binance.com/api/v3/klines".
  cbn [String.eqb Ascii.eqb Bool.eqb andb].
  destruct (lookup_last "limit" ps) as [[| z |]|]; try discriminate.
  injection Hlimit as ->. change (Z.to_nat 1000) with 1000%nat.
  destruct (lookup_last "startTime" ps) as [[| st |]|]; rewrite map_map; reflexivity.
Qed.

Lemma exchange_paged history :
  StronglySorted Z.lt history -> Klines.paged (Exchange.pages history).
Proof.
  intros Hs c. split; [|split].
  - unfold Exchange.pages. rewrite length_map. destruct c as [st|].
    + apply firstn_le_length.
    + rewrite length_skipn. lia.
  - unfold Exchange.pages. rewrite map_map. cbn [Klines.k_open_time Klines.candle].
    rewrite map_id. destruct c as [st|].
    + now apply sorted_firstn, sorted_filter.
    + now apply sorted_skipn.
  - intros z Hc. apply List.Forall_forall. intros k Hk.
    apply in_page in Hk as (ot & -> & _ & Hle). cbn. now apply Hle.
Qed.

Lemma exchange_well_formed history :
  forallb (fun ot => (0 <=? ot) && (ot <=? float_ms (ot + four_hours - 1))) history = true ->
  Klines.well_formed (Exchange.pages history).
Proof.
  intros Hall c. apply List.Forall_forall. intros k Hk.
  apply in_page in Hk as (ot & -> & Hin & _).
  rewrite forallb_forall in Hall. specialize (Hall ot Hin).
  apply andb_true_iff in Hall as [H0 H1]. cbn. lia.
Qed.


Lemma sorted_nth (l : list Z) :
  StronglySorted Z.lt l ->
  forall i j, (i < j)%nat -> (j < length l)%nat -> nth i l 0 < nth j l 0.
Proof.
  induction 1 as [|x l Hs IH Hx]; intros i j Hij Hj; [cbn in Hj; lia|].
  destruct j as [|j]; [lia|]. cbn in Hj. destruct i as [|i].
  - cbn. rewrite List.Forall_forall in Hx. apply Hx, nth_In. lia.
  - cbn. apply IH; lia.
Qed.

Lemma sorted_seq_shift a s n :
  StronglySorted Z.lt (map (fun i : nat => a + Z.of_nat i) (seq s n)).
Proof.
  revert s. induction n as [|n IH]; intros s; cbn; constructor; [apply IH|].
  apply List.Forall_forall. intros y Hy. apply in_map_iff in Hy as (i & <- & Hi).
  apply in_seq in Hi. lia.
Qed.


(** Before the epoch the cursor [close_time + 1] can be 0, which the request
    does not carry: the pages of [pre_epoch] are as C3 asks and every candle
    closes after it opens, yet the loop started at -2000 returns the candle
    opening at -1500 twice. *)
Example pre_epoch_breaks_order :
  let E := Fixtures.env 0 (Klines.server Klines.pre_epoch) in
  let self := Exchange.ohlcv E in
  let dfs := [Klines.frame_of Klines.old_page; Klines.frame_of [Klines.candle (-1500) (-1)]] in
  let keys := map fst (rows (concat dfs)) in
  Klines.paged Klines.pre_epoch /\
  (forall c, Forall (fun k => Klines.k_open_time k <= Klines.k_close_time k)
               (Klines.pre_epoch c)) /\
  fst (OHLCVData.pagination E self 5 (-2000) [] (Fixtures.world [])) = Ok dfs /\
  nth 500 keys 0 = -1500 /\ nth 1000 keys 0 = -1500.
Proof.
  intros E self dfs keys. split; [|split].
  - intros [z|]; unfold Klines.pre_epoch.
    + destruct (Z.leb_spec z (-2000)).
      * split; [unfold Klines.old_page; rewrite length_map, length_seq; lia|].
        split.
        -- unfold Klines.old_page. rewrite map_map. cbn [Klines.k_open_time Klines.candle].
           apply sorted_seq_shift.
        -- intros z' [= <-]. unfold Klines.old_page.
           apply List.Forall_forall. intros k Hk.
           apply in_map_iff in Hk as (i & <- & Hi). cbn. lia.
      * split; [cbn; lia|]. split; [constructor|]. intros z' _. constructor.
    + split; [cbn; lia|]. split; [cbn; repeat constructor|]. discriminate.
  - intros [z|]; unfold Klines.pre_epoch.
    + destruct (z <=? -2000); [|constructor].
      unfold Klines.old_page. apply List.Forall_forall. intros k Hk.
      apply in_map_iff in Hk as (i & <- & Hi). apply in_seq in Hi. cbn. lia.
    + repeat constructor. cbn. lia.
  - repeat split; vm_compute; reflexivity.
Qed.

(** The cursor is [int(close_time.timestamp() * 1000) + 1], and the
    conversion of 1001 ms gives 1000: the pages of [tight] are as C3 asks
    and no candle closes before it opens, yet the loop started at 2 asks
    for the second page from 1001 on and returns the candle opening at 1001
    twice. *)
Example truncated_cursor_repeats_row :
  let E := Fixtures.env 0 (Klines.server Klines.tight) in
  let self := Exchange.ohlcv E in
  let dfs := [Klines.frame_of Klines.tight_page; Klines.frame_of [Klines.candle 1001 1001]] in
  let keys := map fst (rows (concat dfs)) in
  Klines.paged Klines.tight /\
  (forall c, Forall (fun k => 0 <= Klines.k_open_time k <= Klines.k_close_time k)
               (Klines.tight c)) /\
  float_ms 1001 = 1000 /\
  fst (OHLCVData.pagination E self 5 2 [] (Fixtures.world [])) = Ok dfs /\
  nth 999 keys 0 = 1001 /\ nth 1000 keys 0 = 1001.
Proof.
  intros E self dfs keys.
  assert (Hsorted : StronglySorted Z.lt (map Klines.k_open_time Klines.tight_page)).
  { unfold Klines.tight_page. rewrite map_map. cbn [Klines.k_open_time Klines.candle].
    apply sorted_seq_shift. }
  split; [|split].
  - intros [z|]; unfold Klines.tight.
    + split; [|split].
      * transitivity (length Klines.tight_page); [apply filter_length_le|].
        unfold Klines.tight_page. rewrite length_map, length_seq. lia.
      * clear -Hsorted. induction Klines.tight_page as [|k l IH]; cbn; [constructor|].
        cbn in Hsorted. apply StronglySorted_inv in Hsorted as [Hs Hk].
        destruct (z <=? Klines.k_open_time k); [|now apply IH].
        cbn. constructor; [now apply IH|].
        apply List.Forall_forall. intros y Hy. apply in_map_iff in Hy as (k' & <- & Hk').
        apply filter_In in Hk' as [Hk' _]. rewrite List.Forall_forall in Hk.
        apply Hk. now apply in_map.
      * intros z' [= <-]. apply List.Forall_forall. intros k Hk.
        apply filter_In in Hk as [_ Hk]. lia.
    + split; [cbn; lia|]. split; [constructor|]. discriminate.
  - intros c. assert (Hall : Forall (fun k => 0 <= Klines.k_open_time k <= Klines.k_close_time k)
                               Klines.tight_page).
    { unfold Klines.tight_page. apply List.Forall_forall. intros k Hk.
      apply in_map_iff in Hk as (i & <- & Hi). cbn. lia. }
    destruct c as [z|]; [|constructor]. unfold Klines.tight.
    apply List.Forall_forall. intros k Hk. apply filter_In in Hk as [Hk _].
    rewrite List.Forall_forall in Hall. now apply Hall.
  - repeat split; vm_compute; reflexivity.
Qed.

(** Over a history of 1002 candles the loop started at the first candle
    makes two page requests, of 1000 and 2 rows, and returns the 1002 rows
    in order. *)
Example pagination_two_pages :
  let E := Fixtures.env 0 (Exchange.serve Exchange.history1002 HttpError) in
  let run := OHLCVData.pagination E (Exchange.ohlcv E) 5 Exchange.t0 [] (Fixtures.world []) in
  exists page1 page2,
    fst run = Ok [page1; page2] /\
    df_len page1 = 1000%nat /\ df_len page2 = 2%nat /\
    length (requests (snd run)) = 2%nat /\
    map fst (rows (concat [page1; page2])) = Exchange.history1002.
Proof.
  cbv zeta. eexists. eexists. split; [vm_compute; reflexivity|].
  repeat split; vm_compute; reflexivity.
Qed.

(** An answer that is an error object and not a list of candles is no
    error for the loop: the frame made of it has the columns and no row,
    and the loop stops as on an empty page. *)
Example error_object_ends_the_loop :
  let E := Fixtures.env 0
             (fun _ _ => Body (JObj [("code", JNum (-1121)); ("msg", JStr "Invalid symbol.")])) in
  let run := OHLCVData.pagination E (Exchange.ohlcv E) 3 Exchange.t0 [] (Fixtures.world []) in
  fst run = Ok [] /\
  length (requests (snd run)) = 1%nat /\
  logged ERROR "Unexpected error while fetching OHLCV data" (snd run) = false.
Proof. cbv zeta. repeat split; vm_compute; reflexivity. Qed.

(** [sort_values] keeps rows of one key in their order. *)
Example sort_values_keeps_ties :
  sort_values [(4, [Num 1]); (2, [Num 2]); (4, [Num 3]); (2, [Num 4])]
  = [(2, [Num 2]); (2, [Num 4]); (4, [Num 1]); (4, [Num 3])].
Proof. reflexivity. Qed.

(** The conversion of a time to milliseconds goes through a float. *)
Example float_ms_values :
  float_ms 0 = 0 /\ float_ms 1000 = 1000 /\ float_ms 1001 = 1000 /\
  float_ms 2018 = 2017 /\
  float_ms Exchange.t0 = Exchange.t0 /\
  float_ms (Exchange.t0 + four_hours - 1) = Exchange.t0 + four_hours - 1.
Proof. repeat split; vm_compute; reflexivity. Qed.

(** * Further properties of the code *)

(** ** What the cache operations touch *)

Lemma quiet_ret {A} (a : A) : quiet (ret a).
Proof. intros w. now split. Qed.

Lemma quiet_raise {A} e : quiet (@raise A e).
Proof. intros w. now split. Qed.

Lemma quiet_lift {A} (r : Result A) : quiet (lift r).
Proof. intros w. now split. Qed.

Lemma quiet_log l msg : quiet (log l msg).
Proof. intros w. split; [reflexivity|]. apply (requests_after_log l msg w). Qed.

Lemma quiet_log_exception msg : quiet (log_exception msg).
Proof. apply (quiet_log ERROR). Qed.

Lemma quiet_enter method : quiet (enter method).
Proof.
  intros w. split; [reflexivity|]. unfold enter, emit, requests. cbn.
  rewrite List.filter_app. cbn. apply app_nil_r.
Qed.

Lemma quiet_path_exists p : quiet (path_exists p).
Proof. intros w. now split. Qed.

Lemma quiet_read_csv p : quiet (read_csv p).
Proof. intros w. unfold read_csv. destruct (files w !! p) as [[e|df]|]; now split. Qed.

Lemma quiet_bind {A B} (m : M A) (k : A -> M B) :
  quiet m -> (forall a, quiet (k a)) -> quiet (bind m k).
Proof.
  intros Hm Hk w. unfold bind. destruct (Hm w) as [Hf Hr].
  destruct (m w) as [[a|e|] w1]; cbn in *; [|now split|now split].
  destruct (Hk a w1) as [Hf' Hr']. split; congruence.
Qed.

Lemma quiet_try {A} (m : M A) h :
  quiet m -> (forall e, quiet (h e)) -> quiet (try_except m h).
Proof.
  intros Hm Hh w. unfold try_except. destruct (Hm w) as [Hf Hr].
  destruct (m w) as [[a|e|] w1]; cbn in *; [now split| |now split].
  destruct (Hh e w1) as [Hf' Hr']. split; congruence.
Qed.

Create HintDb quiet.

#[local] Hint Resolve quiet_ret quiet_raise quiet_lift quiet_log quiet_log_exception
  quiet_enter quiet_path_exists quiet_read_csv : quiet.

Ltac quiet :=
  repeat first
    [ progress auto with quiet
    | apply quiet_bind; [|intros ?]
    | apply quiet_try; [|intros ?]
    | match goal with
      | |- quiet (if ?b then _ else _) => destruct b
      | |- quiet (match ?x with _ => _ end) => destruct x
      | |- quiet (let '(_, _) := ?x in _) => destruct x
      end ].

Lemma check_quiet E self data_type : quiet (check_local_data E self data_type).
Proof. unfold check_local_data. quiet. Qed.

(** X1.  [_check_local_data] only looks: whatever it answers, and also
    when it raises, no cache file is changed and no request is sent. *)
Theorem check_only_looks (E : Env) (self : BaseData) (data_type : string) (w : World) :
  files (snd (check_local_data E self data_type w)) = files w /\
  requests (snd (check_local_data E self data_type w)) = requests w.
Proof. apply check_quiet. Qed.

(** ** Saving a table *)

Lemma save_data_run E self df data_type w :
  rows df <> [] ->
  writable E (key_path self data_type) = true ->
  save_data E self df data_type w
  = (Ok tt,
     after (Log INFO ("Saved " +:+ data_type +:+ " data to " +:+ key_path self data_type))
       (put_file (key_path self data_type) (Csv (as_read df)) w)).
Proof.
  intros Hrows Hw. unfold save_data, df_empty.
  destruct (rows df) as [|r rs]; [congruence|]. cbn [negb].
  fold (key_path self data_type).
  unfold bind, to_csv. now rewrite Hw.
Qed.

(** X2.  Saving and checking compose: after [_save_data] has written a
    non-empty table under a data type, [_check_local_data] for that data
    type finds the table that was saved, and answers [True] exactly when the
    newest of its timestamps is less than four hours old. *)
Theorem save_then_check (E : Env) (self : BaseData) (df : DataFrame) (data_type : string)
    (m : Z) (w : World) :
  writable E (key_path self data_type) = true ->
  time_name df = time_key data_type ->
  maximum (map fst (rows df)) = Some m ->
  fst (save_data E self df data_type w) = Ok tt /\
  fst (check_local_data E self data_type (snd (save_data E self df data_type w)))
  = Ok (now E - m <? four_hours, as_read df).
Proof.
  intros Hw Hkey Hmax.
  assert (Hrows : rows df <> []) by (intros H; rewrite H in Hmax; discriminate).
  rewrite (save_data_run E self df data_type w Hrows Hw). split; [reflexivity|].
  apply (check_rows E self data_type _ (as_read df) m);
    [apply lookup_insert_eq | exact Hkey | exact Hmax].
Qed.

Lemma save_then_check_witness :
  let E := Fixtures.env (9 * 3600000) Fixtures.no_answer in
  fst (check_local_data E (Fixtures.btc E) "fear_greed"
         (snd (save_data E (Fixtures.btc E) Fixtures.fg_table "fear_greed"
                 (Fixtures.world []))))
  = Ok (true, as_read Fixtures.fg_table).
Proof.
  intros E.
  apply (save_then_check E (Fixtures.btc E) Fixtures.fg_table "fear_greed"
           (2 * four_hours) (Fixtures.world [])); reflexivity.
Defined.

(** X3.  [_save_data] touches at most the file of its own key and sends no
    request.  For an empty table it writes nothing and logs a warning.  A
    write that fails is not caught: [OSError] goes to the caller, nothing is
    logged, and the file of the key is left as the failed write left it
    (unchanged, or torn). *)
Theorem save_touches_own_file (E : Env) (self : BaseData) (df : DataFrame)
    (data_type : string) (w : World) :
  let run := save_data E self df data_type w in
  (forall q, q <> key_path self data_type -> files (snd run) !! q = files w !! q) /\
  requests (snd run) = requests w /\
  (rows df = [] ->
   fst run = Ok tt /\ files (snd run) = files w /\
   logged WARNING ("No " +:+ data_type +:+ " data to save for " +:+ symbol self) (snd run)
   = true) /\
  (rows df <> [] -> writable E (key_path self data_type) = false ->
   fst run = Raise OSError /\
   trace (snd run) = trace w /\
   files (snd run) !! key_path self data_type
   = match torn E (key_path self data_type) df with
     | Some fd => Some fd
     | None => files w !! key_path self data_type
     end).
Proof.
  cbv zeta. unfold save_data, df_empty. fold (key_path self data_type).
  destruct (rows df) as [|r rs] eqn:Hrows; cbn [negb].
  - repeat split; try congruence.
    + apply (requests_after_log WARNING).
    + unfold logged, log, emit. cbn [snd trace]. rewrite existsb_app. cbn.
      rewrite String.eqb_refl. apply orb_true_r.
  - unfold bind, to_csv.
    destruct (writable E (key_path self data_type)) eqn:Hw; cbn.
    + repeat split; try congruence.
      * intros q Hq. now apply lookup_insert_ne.
      * unfold requests. cbn. rewrite List.filter_app. cbn. apply app_nil_r.
    + destruct (torn E (key_path self data_type) df) as [fd|]; cbn.
      * repeat split; try congruence.
        -- intros q Hq. now apply lookup_insert_ne.
        -- apply lookup_insert_eq.
      * repeat split; congruence.
Qed.

(** An empty table is not written; a write that breaks off leaves the
    file of the key empty, and the other cache file as it was. *)
Lemma save_touches_own_file_witness :
  let E := Fixtures.env 0 Fixtures.no_answer in
  let E' := {| now := 0; raw_dir := "data/raw"; http := Fixtures.no_answer;
               writable := fun _ => false;
               torn := fun _ _ => Some (Corrupt EmptyDataError);
               talib := talib E; vader := vader E;
               yf_history := yf_history E; pct_change := pct_change E;
               resample_4h_ffill := resample_4h_ffill E;
               pandas_frame := pandas_frame E |} in
  let w := Fixtures.world [(Fixtures.fg_path, Csv Fixtures.fg_table);
                           (Fixtures.ohlcv_path, Csv Fixtures.ohlcv_table)] in
  let failed := save_data E' (Fixtures.btc E') Fixtures.fg_table "fear_greed" w in
  (fst (save_data E (Fixtures.btc E) empty_df "fear_greed" w) = Ok tt /\
   files (snd (save_data E (Fixtures.btc E) empty_df "fear_greed" w)) = files w) /\
  fst failed = Raise OSError /\
  files (snd failed) !! Fixtures.fg_path = Some (Corrupt EmptyDataError) /\
  files (snd failed) !! Fixtures.ohlcv_path = Some (Csv Fixtures.ohlcv_table).
Proof.
  intros E E' w failed. split.
  - destruct (save_touches_own_file E (Fixtures.btc E) empty_df "fear_greed" w)
      as (_ & _ & Hempty & _).
    destruct (Hempty eq_refl) as (Hok & Hfiles & _). now split.
  - destruct (save_touches_own_file E' (Fixtures.btc E') Fixtures.fg_table "fear_greed" w)
      as (Hother & _ & _ & Hfail).
    destruct (Hfail ltac:(discriminate) eq_refl) as (Hraise & _ & Hown).
    split; [exact Hraise|]. split; [exact Hown|].
    apply (Hother Fixtures.ohlcv_path). vm_compute. discriminate.
Defined.

(** ** A fresh cache answers without the network *)

Lemma check_fresh_run E self data_type df w :
  fresh_cache E self data_type df w ->
  check_local_data E self data_type w
  = (Ok (true, as_read df),
     after (Log INFO ("Local " +:+ data_type +:+ " data is up-to-date at "
                      +:+ key_path self data_type)) w).
Proof.
  intros (Hfile & Hkey & m & Hmax & Hage).
  unfold check_local_data. fold (key_path self data_type).
  unfold bind at 1. unfold path_exists. rewrite Hfile. cbn [negb].
  unfold bind at 1. unfold read_csv. rewrite Hfile.
  unfold df_empty. cbn [rows as_read].
  destruct (rows df) as [|r rs] eqn:Hrows; [discriminate|].
  unfold bind at 1. unfold lift at 1.
  rewrite (time_values_ok (time_key data_type) (as_read df)) by exact Hkey.
  cbn [rows as_read]. rewrite Hrows, Hmax.
  apply Z.ltb_lt in Hage. rewrite Hage. reflexivity.
Qed.

Lemma fresh_after ev E self data_type df w :
  fresh_cache E self data_type df w -> fresh_cache E self data_type df (after ev w).
Proof. intros H. exact H. Qed.

Ltac serve_from_cache H :=
  unfold from_cache, enter;
  rewrite (bind_ok _ _ _ _ _ (emit_run _ _));
  rewrite (bind_ok _ _ _ _ _ (check_fresh_run _ _ _ _ _ (fresh_after _ _ _ _ _ _ H)));
  cbv beta iota; unfold bind, log, emit, ret; cbn [fst snd files];
  split; [reflexivity|]; split; [reflexivity|];
  unfold requests, after; cbn [trace]; rewrite !List.filter_app; cbn;
  now rewrite !app_nil_r.

(** X4.  Every fetcher answers from a fresh cache: when the cache file of
    its data type holds rows whose newest timestamp is less than four hours
    old, [fetch_and_store] returns the cached table as read, sends no
    request and writes no file. *)
Theorem fresh_cache_is_served (E : Env) (df : DataFrame) (w : World) :
  (forall self fuel,
     fresh_cache E (OHLCVData.base self) "ohlcv" df w ->
     from_cache df w (OHLCVData.fetch_and_store E self fuel w)) /\
  (forall self ohlcv_data,
     fresh_cache E (OrderBookData.base self) "orderbook" df w ->
     from_cache df w (OrderBookData.fetch_and_store E self ohlcv_data w)) /\
  (forall self ohlcv_data,
     fresh_cache E (TechnicalData.base self) "technical" df w ->
     from_cache df w (TechnicalData.fetch_and_store E self ohlcv_data w)) /\
  (forall self a b,
     fresh_cache E (SentimentData.base self) "sentiment" df w ->
     from_cache df w (SentimentData.fetch_and_store E self a b w)) /\
  (forall self a b,
     fresh_cache E (FearGreedData.base self) "fear_greed" df w ->
     from_cache df w (FearGreedData.fetch_and_store E self a b w)) /\
  (forall self a b,
     fresh_cache E (FundamentalData.base self) "fundamentals" df w ->
     from_cache df w (FundamentalData.fetch_and_store E self a b w)) /\
  (forall self a b,
     fresh_cache E (MacroData.base self) "macro" df w ->
     from_cache df w (MacroData.fetch_and_store E self a b w)) /\
  (forall self a b,
     fresh_cache E (OnChainData.base self) "onchain" df w ->
     from_cache df w (OnChainData.fetch_and_store E self a b w)).
Proof.
  repeat apply conj; intros.
  - unfold OHLCVData.fetch_and_store. serve_from_cache H.
  - unfold OrderBookData.fetch_and_store. serve_from_cache H.
  - unfold TechnicalData.fetch_and_store. serve_from_cache H.
  - unfold SentimentData.fetch_and_store. serve_from_cache H.
  - unfold FearGreedData.fetch_and_store. serve_from_cache H.
  - unfold FundamentalData.fetch_and_store. serve_from_cache H.
  - unfold MacroData.fetch_and_store. serve_from_cache H.
  - unfold OnChainData.fetch_and_store. serve_from_cache H.
Qed.

(** With the only server down, the fear/greed fetcher still answers from
    its fresh cache. *)
Lemma fresh_cache_is_served_witness :
  let E := Fixtures.env (9 * 3600000) Fixtures.no_answer in
  let w := Fixtures.world [(Fixtures.fg_path, Csv Fixtures.fg_table)] in
  from_cache Fixtures.fg_table w
    (FearGreedData.fetch_and_store E (FearGreedData.init E "btcusdt" "4h")
       {| when := 0; as_text := false |} {| when := 9 * 3600000; as_text := false |} w).
Proof.
  intros E w.
  destruct (fresh_cache_is_served E Fixtures.fg_table w) as (_ & _ & _ & _ & H & _).
  apply H. split; [vm_compute; reflexivity|]. split; [reflexivity|].
  exists (2 * four_hours). split; reflexivity.
Defined.

(** ** The order book fetcher *)

Lemma check_stale_run E self data_type w :
  stale_cache E self data_type w ->
  exists cached w1,
    check_local_data E self data_type w = (Ok (false, cached), w1) /\
    files w1 = files w /\ requests w1 = requests w.
Proof.
  intros Hstale. pose proof (check_quiet E self data_type w) as [Hf Hr].
  destruct (check_local_data E self data_type w) as [r w1] eqn:Hrun. cbn in Hf, Hr.
  assert (Hfst : exists cached, r = Ok (false, cached)).
  { change r with (fst (r, w1)). rewrite <- Hrun.
    destruct Hstale as [Habsent | (df & Hfile & [Hrows | (Hkey & m & Hmax & Hage)])].
    - exists empty_df. now apply check_absent.
    - exists empty_df. now apply (check_no_rows E self data_type w df).
    - exists (as_read df). rewrite (check_rows E self data_type w df m Hfile Hkey Hmax).
      apply Z.ltb_ge in Hage. now rewrite Hage. }
  destruct Hfst as [cached ->]. now exists cached, w1.
Qed.

Lemma minimum_some (l : list Z) : l <> [] -> exists m, minimum l = Some m.
Proof.
  destruct l as [|x l]; [congruence|]. intros _. cbn.
  destruct (minimum l); eauto.
Qed.

Lemma orderbook_text_run E self ohlcv_data w :
  stale_cache E (OrderBookData.base self) "orderbook" w ->
  rows ohlcv_data <> [] ->
  time_name ohlcv_data = "open_time" ->
  parsed ohlcv_data = false ->
  exists w',
    OrderBookData.fetch_and_store E self ohlcv_data w = (Raise AttributeError, w') /\
    files w' = files w /\ requests w' = requests w.
Proof.
  intros Hstale Hrows Hname Htext.
  destruct (check_stale_run E (OrderBookData.base self) "orderbook"
              (after (Call "OrderBookData.fetch_and_store") w) Hstale)
    as (cached & w1 & Hcheck & Hf & Hr).
  unfold OrderBookData.fetch_and_store, enter.
  rewrite (bind_ok _ _ _ _ _ (emit_run _ _)), (bind_ok _ _ _ _ _ Hcheck).
  unfold df_empty. destruct (rows ohlcv_data) as [|[t cells] rest] eqn:Hrs; [congruence|].
  erewrite (try_except_raise _ _ w1 AttributeError w1).
  - exists (after (Log ERROR "Error fetching and storing order book data") w1).
    split; [reflexivity|]. cbn [files after]. split; [exact Hf|].
    rewrite (requests_after_log ERROR), Hr. apply (quiet_enter _ w).
  - rewrite (time_values_ok _ _ Hname), Hrs, Htext. cbn [map fst].
    erewrite bind_ok by reflexivity. reflexivity.
Qed.

(** X5.  Without a fresh order-book cache, the order-book fetcher given an
    empty OHLCV table returns an empty table, sends no request and writes
    no file. *)
Theorem orderbook_of_empty_ohlcv (E : Env) (self : OrderBookData.t)
    (ohlcv_data : DataFrame) (w : World) :
  stale_cache E (OrderBookData.base self) "orderbook" w ->
  rows ohlcv_data = [] ->
  fst (OrderBookData.fetch_and_store E self ohlcv_data w) = Ok empty_df /\
  files (snd (OrderBookData.fetch_and_store E self ohlcv_data w)) = files w /\
  requests (snd (OrderBookData.fetch_and_store E self ohlcv_data w)) = requests w.
Proof.
  intros Hstale Hrows.
  destruct (check_stale_run E (OrderBookData.base self) "orderbook"
              (after (Call "OrderBookData.fetch_and_store") w) Hstale)
    as (cached & w1 & Hcheck & Hf & Hr).
  unfold OrderBookData.fetch_and_store, enter.
  rewrite (bind_ok _ _ _ _ _ (emit_run _ _)), (bind_ok _ _ _ _ _ Hcheck).
  unfold df_empty. rewrite Hrows. unfold log.
  rewrite (bind_ok _ _ _ _ _ (emit_run _ _)). unfold ret. cbn [fst snd].
  split; [reflexivity|]. split; [exact Hf|].
  rewrite (requests_after_log WARNING _ w1), Hr. apply (quiet_enter _ w).
Qed.

Lemma orderbook_of_empty_ohlcv_witness :
  let E := Fixtures.env 0 Fixtures.no_answer in
  fst (OrderBookData.fetch_and_store E (Exchange.orderbook E) empty_df (Fixtures.world []))
  = Ok empty_df.
Proof.
  intros E.
  apply (orderbook_of_empty_ohlcv E (Exchange.orderbook E) empty_df (Fixtures.world []));
    [left; reflexivity | reflexivity].
Defined.

(** X6.  An OHLCV table that comes from the cache holds its [open_time]
    values as text.  Given such a non-empty table and no fresh order-book
    cache, the order-book fetcher raises [AttributeError] at the first
    [timestamp.timestamp()], before any request and without writing. *)
Theorem orderbook_of_cached_ohlcv (E : Env) (self : OrderBookData.t)
    (ohlcv_data : DataFrame) (w : World) :
  stale_cache E (OrderBookData.base self) "orderbook" w ->
  rows ohlcv_data <> [] ->
  time_name ohlcv_data = "open_time" ->
  parsed ohlcv_data = false ->
  fst (OrderBookData.fetch_and_store E self ohlcv_data w) = Raise AttributeError /\
  files (snd (OrderBookData.fetch_and_store E self ohlcv_data w)) = files w /\
  requests (snd (OrderBookData.fetch_and_store E self ohlcv_data w)) = requests w.
Proof.
  intros Hstale Hrows Hname Htext.
  destruct (orderbook_text_run E self ohlcv_data w Hstale Hrows Hname Htext)
    as (w' & -> & Hf & Hr).
  now split.
Qed.

Lemma orderbook_of_cached_ohlcv_witness :
  let E := Fixtures.env 0 Fixtures.no_answer in
  fst (OrderBookData.fetch_and_store E (Exchange.orderbook E) Fixtures.ohlcv_table
         (Fixtures.world [])) = Raise AttributeError.
Proof.
  intros E.
  apply (orderbook_of_cached_ohlcv E (Exchange.orderbook E) Fixtures.ohlcv_table
           (Fixtures.world []));
    [left; reflexivity | discriminate | reflexivity | reflexivity].
Defined.

(** ** Runs of [fetch_and_store_all] that stop early *)

Lemma run_of {A} (m : M A) (w : World) : m w = (fst (m w), snd (m w)).
Proof. now destruct (m w). Qed.

Lemma ohlcv_from_cache E self fuel df w :
  fresh_cache E (OHLCVData.base self) "ohlcv" df w ->
  from_cache df w (OHLCVData.fetch_and_store E self fuel w).
Proof. intros H. unfold OHLCVData.fetch_and_store. serve_from_cache H. Qed.

Lemma stale_cache_files E b data_type w w' :
  files w' = files w -> stale_cache E b data_type w -> stale_cache E b data_type w'.
Proof. intros Hf H. unfold stale_cache in *. now rewrite Hf. Qed.

(** X7.  A run of [fetch_and_store_all] that finds a fresh OHLCV cache but
    no fresh order-book cache fails: the cached OHLCV table reaches the
    order-book fetcher with its times as text, [AttributeError] is raised
    and re-raised to the caller, and the run has sent no request and written
    no file. *)
Theorem fetch_all_with_cached_ohlcv (E : Env) (self : DataManager.t) (fuel : nat)
    (df : DataFrame) (w : World) :
  fresh_cache E (OHLCVData.base (DataManager.ohlcv_fetcher self)) "ohlcv" df w ->
  stale_cache E (OrderBookData.base (DataManager.orderbook_fetcher self)) "orderbook" w ->
  fst (DataManager.fetch_and_store_all E self fuel w) = Raise AttributeError /\
  files (snd (DataManager.fetch_and_store_all E self fuel w)) = files w /\
  requests (snd (DataManager.fetch_and_store_all E self fuel w)) = requests w.
Proof.
  intros Hfresh Hstale.
  destruct (ohlcv_from_cache E (DataManager.ohlcv_fetcher self) fuel df w Hfresh)
    as (Hok & Hf & Hr).
  pose proof (run_of (OHLCVData.fetch_and_store E (DataManager.ohlcv_fetcher self) fuel) w)
    as Hrun.
  rewrite Hok in Hrun.
  set (w1 := snd (OHLCVData.fetch_and_store E (DataManager.ohlcv_fetcher self) fuel w)) in *.
  destruct Hfresh as (_ & Hkey & m & Hmax & _).
  assert (Hrows : rows (as_read df) <> []).
  { cbn. intros H. rewrite H in Hmax. discriminate. }
  destruct (minimum_some (map fst (rows (as_read df)))) as [start Hstart].
  { intros H. apply map_eq_nil in H. contradiction. }
  destruct (orderbook_text_run E (DataManager.orderbook_fetcher self) (as_read df) w1
              (stale_cache_files _ _ _ _ _ Hf Hstale) Hrows Hkey eq_refl)
    as (w2 & Hob & Hf2 & Hr2).
  rewrite (fetch_all_raise E self fuel w w1 (as_read df) start Hrun Hkey Hstart
             AttributeError w2 (bind_raise _ _ _ _ _ Hob)).
  cbn [fst snd files after]. split; [reflexivity|]. split; [congruence|].
  rewrite (requests_after_log ERROR). congruence.
Qed.

Lemma fetch_all_with_cached_ohlcv_witness :
  let E := Fixtures.env (9 * 3600000) Fixtures.no_answer in
  let w := Fixtures.world [(Fixtures.ohlcv_path, Csv Fixtures.ohlcv_table)] in
  fst (DataManager.fetch_and_store_all E (DataManager.init E "btcusdt" "4h") 5 w)
  = Raise AttributeError.
Proof.
  intros E w.
  apply (fetch_all_with_cached_ohlcv E (DataManager.init E "btcusdt" "4h") 5
           Fixtures.ohlcv_table w).
  - split; [vm_compute; reflexivity|]. split; [reflexivity|].
    exists (8 * Fixtures.hour). split; reflexivity.
  - left. vm_compute. reflexivity.
Defined.

(** X8.  [fetch_and_store_all] stops at the OHLCV fetch in two ways.  When
    the OHLCV fetch returns an empty table the run ends normally with a
    warning; when it raises, the exception is logged and re-raised.  In both
    cases the final world is the one the OHLCV fetch left, plus that one
    record: no auxiliary fetcher has run. *)
Theorem fetch_all_stops_at_ohlcv (E : Env) (self : DataManager.t) (fuel : nat) (w : World) :
  (forall ohlcv_data w1,
     OHLCVData.fetch_and_store E (DataManager.ohlcv_fetcher self) fuel w
       = (Ok ohlcv_data, w1) ->
     rows ohlcv_data = [] ->
     DataManager.fetch_and_store_all E self fuel w
     = (Ok tt, after (Log WARNING "No OHLCV data available, skipping other data types") w1)) /\
  (forall e w1,
     OHLCVData.fetch_and_store E (DataManager.ohlcv_fetcher self) fuel w = (Raise e, w1) ->
     DataManager.fetch_and_store_all E self fuel w
     = (Raise e, after (Log ERROR "Error in fetch_and_store_all") w1)).
Proof.
  split.
  - intros ohlcv_data w1 Hrun Hrows. unfold DataManager.fetch_and_store_all.
    erewrite try_except_ok; [reflexivity|].
    unfold DataManager.fetch_all_try. rewrite (bind_ok _ _ _ _ _ Hrun).
    unfold df_empty. now rewrite Hrows.
  - intros e w1 Hrun. unfold DataManager.fetch_and_store_all.
    erewrite try_except_raise; [reflexivity|].
    unfold DataManager.fetch_all_try. now apply bind_raise.
Qed.

(** ** A symbol that the exchange does not list *)

Lemma listing_loop_unknown E self symbols w :
  Forall (fun info => exists s, json_get "symbol" info = Ok s /\
                                json_eq_str s (symbol (OHLCVData.base self)) = false)
         symbols ->
  OHLCVData.listing_loop E self symbols w
  = (Raise ValueError,
     after (Log ERROR ("Symbol " +:+ symbol (OHLCVData.base self)
                       +:+ " not found in exchange info")) w).
Proof.
  induction 1 as [|info rest (s & Hs & Hne) _ IH]; cbn [OHLCVData.listing_loop].
  - unfold log. now rewrite (bind_ok _ _ _ _ _ (emit_run _ _)).
  - unfold lift at 1. rewrite Hs. erewrite bind_ok by reflexivity.
    rewrite Hne. exact IH.
Qed.

(** X9.  When the exchange information lists no entry for the symbol, the
    OHLCV fetcher without a fresh cache raises [ValueError]: it has sent the
    one request for the exchange information and no kline request, and it
    has written no file. *)
Theorem unknown_symbol_is_an_error (E : Env) (self : OHLCVData.t) (fuel : nat)
    (data : json) (symbols : list json) (w : World) :
  stale_cache E (OHLCVData.base self) "ohlcv" w ->
  http E (OHLCVData.base_url self +:+ "/api/v3/exchangeInfo") [] = Body data ->
  json_get "symbols" data = Ok (JArr symbols) ->
  Forall (fun info => exists s, json_get "symbol" info = Ok s /\
                                json_eq_str s (symbol (OHLCVData.base self)) = false)
         symbols ->
  fst (OHLCVData.fetch_and_store E self fuel w) = Raise ValueError /\
  files (snd (OHLCVData.fetch_and_store E self fuel w)) = files w /\
  requests (snd (OHLCVData.fetch_and_store E self fuel w))
  = (requests w ++ [HttpGet (OHLCVData.base_url self +:+ "/api/v3/exchangeInfo") []])%list.
Proof.
  intros Hstale Hhttp Hsymbols Hnone.
  destruct (check_stale_run E (OHLCVData.base self) "ohlcv"
              (after (Call "OHLCVData.fetch_and_store") w) Hstale)
    as (cached & w1 & Hcheck & Hf & Hr).
  rewrite requests_after in Hr. cbn [is_request] in Hr. rewrite app_nil_r in Hr.
  cbn [files after] in Hf.
  set (url := OHLCVData.base_url self +:+ "/api/v3/exchangeInfo") in *.
  assert (Hlisting :
    OHLCVData.get_symbol_listing_date E self w1
    = (Raise ValueError,
       after (Log ERROR ("Error fetching listing date for " +:+ symbol (OHLCVData.base self)))
         (after (Log ERROR ("Symbol " +:+ symbol (OHLCVData.base self)
                            +:+ " not found in exchange info"))
            (after (HttpGet url []) w1)))).
  { unfold OHLCVData.get_symbol_listing_date. fold url.
    erewrite try_except_raise; [unfold log_exception;
      now rewrite (bind_ok _ _ _ _ _ (emit_run _ _))|].
    unfold requests_get.
    erewrite bind_ok
      by (rewrite (bind_ok _ _ _ _ _ (emit_run _ _)), Hhttp; reflexivity).
    unfold lift at 1. rewrite Hsymbols. erewrite bind_ok by reflexivity.
    now apply listing_loop_unknown. }
  unfold OHLCVData.fetch_and_store, enter.
  rewrite (bind_ok _ _ _ _ _ (emit_run _ _)), (bind_ok _ _ _ _ _ Hcheck).
  cbv beta iota.
  rewrite (try_except_raise _ _ _ _ _ (bind_raise _ _ _ _ _ Hlisting)).
  unfold log_exception. rewrite (bind_ok _ _ _ _ _ (emit_run _ _)).
  cbn [fst snd raise files after]. split; [reflexivity|]. split; [exact Hf|].
  rewrite !requests_after. cbn [is_request]. rewrite !app_nil_r. now rewrite Hr.
Qed.

Lemma unknown_symbol_is_an_error_witness :
  let E := Fixtures.env 0 (Exchange.serve Exchange.history3 HttpError) in
  let self := OHLCVData.init E "dogeusdt" "4h" DataManager.binance in
  fst (OHLCVData.fetch_and_store E self 5 (Fixtures.world [])) = Raise ValueError.
Proof.
  intros E self.
  apply (unknown_symbol_is_an_error E self 5 Exchange.exchange_info
           [JObj [("symbol", JStr "ETHUSDT")]; JObj [("symbol", JStr "BTCUSDT")]]
           (Fixtures.world [])).
  - left. reflexivity.
  - reflexivity.
  - reflexivity.
  - repeat constructor; eexists; split; reflexivity.
Defined.

(** An unlisted symbol ends the whole run: nothing but the OHLCV fetcher is
    entered. *)
Lemma fetch_all_stops_at_ohlcv_witness :
  let E := Fixtures.env 0 (Exchange.serve Exchange.history3 HttpError) in
  let self := DataManager.init E "dogeusdt" "4h" in
  fst (DataManager.fetch_and_store_all E self 5 (Fixtures.world [])) = Raise ValueError /\
  invoked "OrderBookData.fetch_and_store"
    (snd (DataManager.fetch_and_store_all E self 5 (Fixtures.world []))) = false.
Proof.
  intros E self.
  destruct (fetch_all_stops_at_ohlcv E self 5 (Fixtures.world [])) as [_ Hraise].
  rewrite (Hraise ValueError
             (snd (OHLCVData.fetch_and_store E (DataManager.ohlcv_fetcher self) 5
                     (Fixtures.world [])))).
  - split; [reflexivity|]. vm_compute. reflexivity.
  - vm_compute. reflexivity.
Defined.

(** ** The four-hour grid of a date range *)

Lemma date_range_in a b t :
  In t (date_range a b) <-> a <= t <= b /\ (t - a) mod four_hours = 0.
Proof.
  unfold date_range. rewrite in_map_iff. split.
  - intros (i & <- & Hi). apply in_seq in Hi.
    assert (Hq : 0 <= (b - a) / four_hours) by lia.
    assert (Hle : Z.of_nat i <= (b - a) / four_hours) by lia.
    pose proof (Z.mul_div_le (b - a) four_hours eq_refl) as Hmul.
    split.
    + unfold four_hours in *. nia.
    + replace (a + Z.of_nat i * four_hours - a) with (Z.of_nat i * four_hours) by lia.
      apply Z.mod_mul. discriminate.
  - intros ([Hat Htb] & Hmod).
    apply Z.mod_divide in Hmod; [|discriminate]. destruct Hmod as [k Hk].
    assert (Hk0 : 0 <= k) by (unfold four_hours in *; nia).
    exists (Z.to_nat k). split; [rewrite Z2Nat.id by exact Hk0; lia|].
    apply in_seq. split; [lia|]. cbn.
    assert (Hkq : k <= (b - a) / four_hours).
    { apply Z.div_le_lower_bound; [reflexivity|]. lia. }
    lia.
Qed.

Lemma date_range_sorted a b : StronglySorted Z.lt (date_range a b).
Proof.
  unfold date_range. generalize (Z.to_nat ((b - a) / four_hours + 1)) as n.
  generalize 0%nat as s. intros s n. revert s.
  induction n as [|n IH]; intros s; cbn; constructor; [apply IH|].
  apply List.Forall_forall. intros y Hy. apply in_map_iff in Hy as (i & <- & Hi).
  apply in_seq in Hi. unfold four_hours. lia.
Qed.

Lemma date_range_length a b :
  length (date_range a b) = Z.to_nat ((b - a) / four_hours + 1).
Proof. unfold date_range. now rewrite length_map, length_seq. Qed.

Lemma maximum_spec l m :
  maximum l = Some m -> In m l /\ forall x, In x l -> x <= m.
Proof.
  revert m. induction l as [|y l IH]; intros m; cbn; [discriminate|].
  destruct (maximum l) as [m'|] eqn:Hm.
  - intros [= <-]. destruct (IH m' eq_refl) as [Hin Hle]. split.
    + destruct (Z.max_spec y m') as [[_ ->]|[_ ->]]; auto.
    + intros x [<-|Hx]; [lia|]. specialize (Hle x Hx). lia.
  - intros [= <-]. destruct l; [|cbn in Hm; destruct (maximum l); discriminate].
    split; [now left|]. intros x [<-|[]]. lia.
Qed.

Lemma maximum_some (l : list Z) : l <> [] -> exists m, maximum l = Some m.
Proof.
  destruct l as [|x l]; [congruence|]. intros _. cbn. destruct (maximum l); eauto.
Qed.

(** The newest point of the grid up to [b] is less than four hours
    before [b]. *)
Lemma date_range_newest a b :
  a <= b -> exists m, maximum (date_range a b) = Some m /\ b - four_hours < m <= b.
Proof.
  intros Hab.
  assert (Hlast : In (a + (b - a) / four_hours * four_hours) (date_range a b)).
  { apply date_range_in.
    pose proof (Z.mul_div_le (b - a) four_hours eq_refl).
    assert (0 <= (b - a) / four_hours) by (apply Z.div_pos; [lia|reflexivity]).
    split; [unfold four_hours in *; nia|].
    replace (a + (b - a) / four_hours * four_hours - a)
      with ((b - a) / four_hours * four_hours) by lia.
    apply Z.mod_mul. discriminate. }
  destruct (maximum_some (date_range a b)) as [m Hm].
  { intros Hnil. rewrite Hnil in Hlast. destruct Hlast. }
  exists m. split; [exact Hm|].
  destruct (maximum_spec _ _ Hm) as [Hin Hle].
  apply date_range_in in Hin as [[_ Hmb] _]. specialize (Hle _ Hlast).
  pose proof (Z.mod_pos_bound (b - a) four_hours eq_refl) as Hmod.
  pose proof (Z.div_mod (b - a) four_hours) as Hdiv.
  unfold four_hours in *. lia.
Qed.

(** ** Tables laid on the four-hour grid *)

Lemma combine_repeat {A B} (l : list A) (c : B) :
  combine l (repeat c (length l)) = map (fun t => (t, c)) l.
Proof. induction l as [|x l IH]; cbn; [reflexivity|]. now rewrite IH. Qed.

Lemma combine_const {A B C} (l : list A) (l' : list C) (c : B) :
  length l' = length l ->
  combine l (map (fun _ => c) l') = map (fun t => (t, c)) l.
Proof.
  revert l'. induction l as [|x l IH]; intros [|y l'] H; cbn in *; try discriminate;
    [reflexivity|]. rewrite IH by lia. reflexivity.
Qed.

Lemma sentiment_run E self coin a b w :
  SentimentData.fetch_social_sentiment E self coin a b w
  = (Ok {| time_name := "timestamp";
           columns := ["social_sentiment"];
           rows := map (fun t => (t, [vader E (coin +:+ " price is stable")]))
                     (date_range (when a) (when b));
           parsed := true |},
     after (Log INFO ("Simulated sentiment scores for " +:+ coin))
       (after (Log INFO ("Simulating sentiment analysis for " +:+ coin)) w)).
Proof.
  unfold SentimentData.fetch_social_sentiment, try_except, log.
  rewrite (bind_ok _ _ _ _ _ (emit_run _ _)), (bind_ok _ _ _ _ _ (emit_run _ _)).
  unfold ret. rewrite map_map.
  rewrite (combine_const (date_range (when a) (when b)) (date_range (when a) (when b))
             [vader E (coin +:+ " price is stable")] eq_refl).
  reflexivity.
Qed.

(** X10.  The sentiment computation always returns a table and never
    raises.  Its timestamps are exactly the points [start], [start + 4h],
    ... that are not after [end], in increasing order (none when [end] is
    before [start]); every row holds the score of the one sentence built
    from the coin name; no request is sent and no file is written. *)
Theorem sentiment_on_grid (E : Env) (self : SentimentData.t) (coin : string)
    (a b : Moment) (w : World) :
  exists df,
    fst (SentimentData.fetch_social_sentiment E self coin a b w) = Ok df /\
    (forall t, In t (map fst (rows df)) <->
               when a <= t <= when b /\ (t - when a) mod four_hours = 0) /\
    StronglySorted Z.lt (map fst (rows df)) /\
    Forall (fun r : Row => snd r = [vader E (coin +:+ " price is stable")]) (rows df) /\
    files (snd (SentimentData.fetch_social_sentiment E self coin a b w)) = files w /\
    requests (snd (SentimentData.fetch_social_sentiment E self coin a b w)) = requests w.
Proof.
  rewrite sentiment_run. eexists. split; [reflexivity|].
  cbn [rows fst snd files after]. rewrite map_map. cbn [fst]. rewrite map_id.
  split; [intros t; apply date_range_in|]. split; [apply date_range_sorted|].
  split; [|split; [reflexivity|]].
  - apply List.Forall_forall. intros r Hr. apply in_map_iff in Hr as (t & <- & _).
    reflexivity.
  - now rewrite !(requests_after_log INFO).
Qed.

Lemma json_get_raises key j e :
  json_get key j = Raise e -> e = KeyError \/ e = TypeError.
Proof.
  destruct j as [| | |l|l]; cbn; try (intros [= <-]; now right).
  destruct (lookup_last key l); [discriminate|]. intros [= <-]. now left.
Qed.

Lemma fear_greed_run E self a b w data v :
  http E FearGreedData.endpoint [] = Body data ->
  rbind (json_get "data" data) (fun d => rbind (json_get "1" d) (json_get "fear_greed")) = Ok v ->
  FearGreedData.fetch_fear_and_greed_index E self a b w
  = (Ok {| time_name := "timestamp";
           columns := ["fear_greed_index"];
           rows := map (fun t => (t, [json_cell v])) (date_range (when a) (when b));
           parsed := true |},
     after (Log INFO "Fetched Fear and Greed Index (simulated)")
       (after (HttpGet FearGreedData.endpoint [])
          (after (Log INFO "Requesting Fear and Greed Index") w))).
Proof.
  intros Hhttp Hv.
  unfold FearGreedData.fetch_fear_and_greed_index, try_except, log, requests_get.
  rewrite (bind_ok _ _ _ _ _ (emit_run _ _)).
  erewrite bind_ok by (rewrite (bind_ok _ _ _ _ _ (emit_run _ _)), Hhttp; reflexivity).
  unfold lift at 1. rewrite Hv. erewrite bind_ok by reflexivity.
  rewrite (bind_ok _ _ _ _ _ (emit_run _ _)). unfold ret.
  now rewrite combine_repeat.
Qed.

(** X11.  Over any date range the fear/greed fetch, given a response that
    carries the index value [v], returns one row for every point [start],
    [start + 4h], ... not after [end], each holding [v], after exactly one
    request.  A response without the value (a missing key on the path
    [data / 1 / fear_greed]) is not an error for the caller: the fetch logs
    it and returns the empty table. *)
Theorem fear_greed_table (E : Env) (self : FearGreedData.t) (a b : Moment)
    (data : json) (w : World) :
  http E FearGreedData.endpoint [] = Body data ->
  (forall v,
     rbind (json_get "data" data) (fun d => rbind (json_get "1" d) (json_get "fear_greed"))
       = Ok v ->
     exists df,
       fst (FearGreedData.fetch_fear_and_greed_index E self a b w) = Ok df /\
       map fst (rows df) = date_range (when a) (when b) /\
       (forall t, In t (map fst (rows df)) <->
                  when a <= t <= when b /\ (t - when a) mod four_hours = 0) /\
       Forall (fun r : Row => snd r = [json_cell v]) (rows df) /\
       length (requests (snd (FearGreedData.fetch_fear_and_greed_index E self a b w)))
       = S (length (requests w))) /\
  (forall e,
     rbind (json_get "data" data) (fun d => rbind (json_get "1" d) (json_get "fear_greed"))
       = Raise e ->
     fst (FearGreedData.fetch_fear_and_greed_index E self a b w) = Ok empty_df /\
     logged ERROR "Unexpected error while fetching Fear and Greed Index"
       (snd (FearGreedData.fetch_fear_and_greed_index E self a b w)) = true).
Proof.
  intros Hhttp. split.
  - intros v Hv. rewrite (fear_greed_run E self a b w data v Hhttp Hv).
    eexists. split; [reflexivity|]. cbn [rows fst snd].
    rewrite map_map. cbn [fst]. rewrite map_id.
    split; [reflexivity|]. split; [intros t; apply date_range_in|]. split.
    + apply List.Forall_forall. intros r Hr. apply in_map_iff in Hr as (t & <- & _).
      reflexivity.
    + rewrite !requests_after. cbn [is_request]. rewrite !app_nil_r, length_app. cbn. lia.
  - intros e He.
    unfold FearGreedData.fetch_fear_and_greed_index, log, requests_get.
    erewrite try_except_raise.
    2:{ rewrite (bind_ok _ _ _ _ _ (emit_run _ _)).
        erewrite bind_ok
          by (rewrite (bind_ok _ _ _ _ _ (emit_run _ _)), Hhttp; reflexivity).
        unfold lift at 1. rewrite He. reflexivity. }
    assert (Hshape : e = KeyError \/ e = TypeError).
    { destruct (json_get "data" data) as [d| |] eqn:Hd; cbn in He;
        [|injection He as <-; now apply json_get_raises in Hd|discriminate].
      destruct (json_get "1" d) as [d1| |] eqn:Hd1; cbn in He;
        [|injection He as <-; now apply json_get_raises in Hd1|discriminate].
      now apply json_get_raises in He. }
    destruct Hshape as [-> | ->]; unfold log_exception;
      rewrite (bind_ok _ _ _ _ _ (emit_run _ _));
      (split; [reflexivity|]); unfold logged; cbn [snd ret after trace];
      rewrite existsb_app; cbn; apply orb_true_r.
Qed.

Lemma fear_greed_table_witness :
  let fg := JObj [("data", JObj [("1", JObj [("price", JNum 7)])])] in
  let E := Fixtures.env 0 (fun _ _ => Body fg) in
  fst (FearGreedData.fetch_fear_and_greed_index E (FearGreedData.init E "btcusdt" "4h")
         {| when := 0; as_text := false |} {| when := four_hours; as_text := false |}
         (Fixtures.world [])) = Ok empty_df.
Proof.
  intros fg E.
  destruct (fear_greed_table E (FearGreedData.init E "btcusdt" "4h")
              {| when := 0; as_text := false |} {| when := four_hours; as_text := false |}
              fg (Fixtures.world []) eq_refl) as [_ Hmissing].
  apply (Hmissing KeyError). reflexivity.
Defined.

(** ** A second call after a successful fetch *)

Lemma fear_greed_from_cache E self a b df w :
  fresh_cache E (FearGreedData.base self) "fear_greed" df w ->
  from_cache df w (FearGreedData.fetch_and_store E self a b w).
Proof. intros H. unfold FearGreedData.fetch_and_store. serve_from_cache H. Qed.

(** X12.  Fetching writes through to the cache.  When the fear/greed
    fetcher, without a fresh cache, fetches the range from [start] up to now
    and the response carries the index value, the table it returns is
    non-empty and is saved; a second call, whatever its arguments, then
    answers with that table from the cache, without a request and without
    writing. *)
Theorem fear_greed_second_call (E : Env) (self : FearGreedData.t) (a : Moment)
    (data v : json) (w : World) :
  stale_cache E (FearGreedData.base self) "fear_greed" w ->
  http E FearGreedData.endpoint [] = Body data ->
  rbind (json_get "data" data) (fun d => rbind (json_get "1" d) (json_get "fear_greed")) = Ok v ->
  when a <= now E ->
  writable E (key_path (FearGreedData.base self) "fear_greed") = true ->
  let first := FearGreedData.fetch_and_store E self a {| when := now E; as_text := false |} w in
  exists df,
    fst first = Ok df /\ rows df <> [] /\
    map fst (rows df) = date_range (when a) (now E) /\
    forall a' b',
      from_cache df (snd first) (FearGreedData.fetch_and_store E self a' b' (snd first)).
Proof.
  intros Hstale Hhttp Hv Hstart Hw first.
  destruct (check_stale_run E (FearGreedData.base self) "fear_greed"
              (after (Call "FearGreedData.fetch_and_store") w) Hstale)
    as (cached & w1 & Hcheck & _ & _).
  destruct (date_range_newest (when a) (now E) Hstart) as (m & Hmax & Hage).
  set (b := {| when := now E; as_text := false |}) in *.
  set (df := {| time_name := "timestamp";
                columns := ["fear_greed_index"];
                rows := map (fun t => (t, [json_cell v])) (date_range (when a) (when b));
                parsed := true |}).
  assert (Hkeys : map fst (rows df) = date_range (when a) (now E)).
  { cbn [rows df]. rewrite map_map. cbn [fst]. apply map_id. }
  assert (Hrows : rows df <> []).
  { intros Hnil. rewrite Hnil in Hkeys. cbn in Hkeys. rewrite <- Hkeys in Hmax.
    discriminate. }
  assert (Hfirst : first
            = (Ok df,
               after (Log INFO ("Saved fear_greed data to "
                                +:+ key_path (FearGreedData.base self) "fear_greed"))
                 (put_file (key_path (FearGreedData.base self) "fear_greed")
                    (Csv (as_read df))
                    (after (Log INFO "Fetched Fear and Greed Index (simulated)")
                       (after (HttpGet FearGreedData.endpoint [])
                          (after (Log INFO "Requesting Fear and Greed Index") w1)))))).
  { unfold first, FearGreedData.fetch_and_store, enter.
    rewrite (bind_ok _ _ _ _ _ (emit_run _ _)), (bind_ok _ _ _ _ _ Hcheck).
    cbv beta iota. erewrite try_except_ok; [reflexivity|].
    rewrite (bind_ok _ _ _ _ _ (fear_greed_run E self a b w1 data v Hhttp Hv)).
    fold df. unfold df_empty.
    destruct (rows df) as [|r rs] eqn:Hr; [congruence|]. cbn [negb].
    rewrite <- Hr in Hrows.
    now rewrite (bind_ok _ _ _ _ _ (save_data_run E _ df "fear_greed" _ Hrows Hw)). }
  exists df. rewrite Hfirst. cbn [fst snd].
  split; [reflexivity|]. split; [exact Hrows|]. split; [exact Hkeys|].
  intros a' b'.
  apply (fear_greed_from_cache E self a' b' (as_read df)).
  split; [cbn [files after put_file]; apply lookup_insert_eq|].
  split; [reflexivity|].
  exists m. split; [cbn [rows as_read]; now rewrite Hkeys | lia].
Qed.

Lemma fear_greed_second_call_witness :
  let fg := JObj [("data", JObj [("1", JObj [("fear_greed", JNum 40)])])] in
  let E := Fixtures.env (9 * 3600000) (fun _ _ => Body fg) in
  let self := FearGreedData.init E "btcusdt" "4h" in
  let first := FearGreedData.fetch_and_store E self {| when := 0; as_text := false |}
                 {| when := 9 * 3600000; as_text := false |} (Fixtures.world []) in
  exists df,
    fst first = Ok df /\
    from_cache df (snd first)
      (FearGreedData.fetch_and_store E self {| when := 0; as_text := false |}
         {| when := 9 * 3600000; as_text := false |} (snd first)).
Proof.
  intros fg E self first.
  destruct (fear_greed_second_call E self {| when := 0; as_text := false |} fg (JNum 40)
              (Fixtures.world [])) as (df & Hfirst & _ & _ & Hsecond).
  - left. reflexivity.
  - reflexivity.
  - reflexivity.
  - cbn. lia.
  - reflexivity.
  - exists df. split; [exact Hfirst | apply Hsecond].
Defined.

(** ** Rows of the fundamentals and macro tables *)

Lemma returns_ret {A} (P : A -> Prop) a : P a -> returns P (ret a).
Proof. intros H w a' w' [= <- _]. exact H. Qed.

Lemma returns_bind {A B} (P : B -> Prop) (m : M A) (k : A -> M B) :
  (forall a, returns P (k a)) -> returns P (bind m k).
Proof.
  intros Hk w b w' H. unfold bind in H.
  destruct (m w) as [[a|e|] w1]; try discriminate. now apply (Hk a w1 b w').
Qed.

Lemma returns_try {A} (P : A -> Prop) (m : M A) h :
  returns P m -> (forall e, returns P (h e)) -> returns P (try_except m h).
Proof.
  intros Hm Hh w a w' H. unfold try_except in H.
  destruct (m w) as [[a'|e|] w1] eqn:Hrun; try discriminate.
  - injection H as <- <-. now apply (Hm w a' w1).
  - now apply (Hh e w1 a w').
Qed.

Lemma clip_within a b df :
  Forall (fun r : Row => a <= fst r <= b) (rows (clip a b df)).
Proof.
  apply List.Forall_forall. intros r Hr. cbn in Hr. apply filter_In in Hr as [_ Hr].
  apply andb_true_iff in Hr. lia.
Qed.

(** X13.  Whatever the server, the price-history provider and the
    resampler answer, every row that the fundamentals fetch or the macro
    fetch returns lies within the requested range: its timestamp is neither
    before [start_date] nor after [end_date]. *)
Theorem rows_within_range (E : Env) (a b : Moment) (w : World) (df : DataFrame) :
  (forall self coin,
     fst (FundamentalData.fetch_fundamental_data E self coin a b w) = Ok df ->
     Forall (fun r : Row => when a <= fst r <= when b) (rows df)) /\
  (forall self,
     fst (MacroData.fetch_macro_data E self a b w) = Ok df ->
     Forall (fun r : Row => when a <= fst r <= when b) (rows df)).
Proof.
  split.
  - intros self coin H.
    assert (Hret : returns (fun d => Forall (fun r : Row => when a <= fst r <= when b) (rows d))
                     (FundamentalData.fetch_fundamental_data E self coin a b)).
    { unfold FundamentalData.fetch_fundamental_data. apply returns_try.
      - do 5 (apply returns_bind; intros ?).
        apply returns_bind; intros _. apply returns_ret, clip_within.
      - intros e. destruct e; apply returns_bind; intros _; apply returns_ret; constructor. }
    apply (Hret w df (snd (FundamentalData.fetch_fundamental_data E self coin a b w))).
    rewrite <- H. apply run_of.
  - intros self H.
    assert (Hret : returns (fun d => Forall (fun r : Row => when a <= fst r <= when b) (rows d))
                     (MacroData.fetch_macro_data E self a b)).
    { unfold MacroData.fetch_macro_data. apply returns_try.
      - do 4 (apply returns_bind; intros ?).
        apply returns_bind; intros _. apply returns_ret, clip_within.
      - intros e. apply returns_bind; intros _; apply returns_ret; constructor. }
    apply (Hret w df (snd (MacroData.fetch_macro_data E self a b w))).
    rewrite <- H. apply run_of.
Qed.

Lemma rows_within_range_witness :
  let day := FundamentalData.one_day in
  let series := JArr [JArr [JNum 0; JNum 1]; JArr [JNum day; JNum 2];
                      JArr [JNum (2 * day); JNum 3]] in
  let chart := JObj [("prices", series); ("market_caps", series);
                     ("total_volumes", series)] in
  let E := {| now := 0; raw_dir := "data/raw"; http := fun _ _ => Body chart;
              writable := fun _ => true;
              torn := fun _ _ => None;
              talib := fun closes => Ok [];
              vader := fun _ => Num 0;
              yf_history := fun _ _ => Ok [(0, Num 10); (day, Num 11); (2 * day, Num 12)];
              pct_change := fun l => map (fun _ => Num 0) l;
              resample_4h_ffill := fun df => Ok df;
              pandas_frame := fun _ => Raise ValueError |} in
  let a := {| when := day / 2; as_text := false |} in
  let b := {| when := day + day / 2; as_text := false |} in
  Forall (fun r : Row => when a <= fst r <= when b) [(day, [Num 2; Num 2])] /\
  Forall (fun r : Row => when a <= fst r <= when b) [(day, [Num 0])].
Proof.
  intros day series chart E a b. split.
  - apply (proj1 (rows_within_range E a b (Fixtures.world [])
                    {| time_name := "timestamp"; columns := ["market_cap"; "total_volume"];
                       rows := [(day, [Num 2; Num 2])]; parsed := true |})
             (FundamentalData.init E "btcusdt" "4h") "bitcoin").
    vm_compute. reflexivity.
  - apply (proj2 (rows_within_range E a b (Fixtures.world [])
                    {| time_name := "timestamp"; columns := ["sp500_returns"];
                       rows := [(day, [Num 0])]; parsed := true |})
             (MacroData.init E "btcusdt" "4h")).
    vm_compute. reflexivity.
Defined.

(** ** The fetchers that swallow their errors *)

Lemma decided_json_get key j : decided (json_get key j).
Proof. unfold json_get. destruct j as [| | | |l]; try easy. now destruct (lookup_last key l). Qed.

Lemma decided_json_list j : decided (json_list j).
Proof. now destruct j. Qed.

Lemma decided_json_item i j : decided (json_item i j).
Proof. unfold json_item. destruct j as [| | |l|]; try easy. now destruct (nth_error l i). Qed.

Lemma decided_json_ms j : decided (json_ms j).
Proof. now destruct j. Qed.

Lemma decided_rmap_list {A B} (f : A -> Result B) l :
  (forall a, decided (f a)) -> decided (rmap_list f l).
Proof.
  intros Hf. induction l as [|a l IH]; cbn; [easy|].
  apply decided_rbind; [apply Hf|]. intros b. apply decided_rbind; [exact IH|easy].
Qed.

Lemma decided_timestamp_ms p t : decided (timestamp_ms p t).
Proof. now destruct p. Qed.

Lemma decided_strftime p t : decided (strftime p t).
Proof. now destruct p. Qed.

Lemma decided_column name df : decided (column name df).
Proof. unfold column. now destruct (index_of name (columns df)). Qed.

Lemma decided_metric_row d : decided (OnChainData.metric_row d).
Proof.
  unfold OnChainData.metric_row.
  destruct (OnChainData.field "time" d), (OnChainData.field "TxCnt" d),
    (OnChainData.field "AdrActCnt" d); easy.
Qed.

Lemma finishes_requests_get E url params : finishes (requests_get E url params).
Proof.
  unfold requests_get. apply finishes_bind; [apply finishes_emit|]. intros _.
  destruct (http E url params); [apply finishes_raise | apply finishes_ret].
Qed.

Lemma finishes_log_exception msg : finishes (log_exception msg).
Proof. apply finishes_emit. Qed.

#[local] Hint Resolve decided_json_get decided_json_list decided_json_item decided_json_ms
  decided_timestamp_ms decided_strftime decided_column decided_metric_row finishes_requests_get
  finishes_log_exception : finishes.

Lemma never_raises_try {A} (m : M A) h :
  finishes m -> (forall e, never_raises (h e)) -> never_raises (try_except m h).
Proof.
  intros Hm Hh w. unfold try_except. specialize (Hm w).
  destruct (m w) as [[a|e|] w1]; cbn in *; [now exists a | apply Hh | easy].
Qed.

Lemma readonly_ret {A} (a : A) : readonly (ret a).
Proof. now intros w. Qed.

Lemma readonly_raise {A} e : readonly (@raise A e).
Proof. now intros w. Qed.

Lemma readonly_lift {A} (r : Result A) : readonly (lift r).
Proof. now intros w. Qed.

Lemma readonly_emit ev : readonly (emit ev).
Proof. now intros w. Qed.

Lemma readonly_log l msg : readonly (log l msg).
Proof. now intros w. Qed.

Lemma readonly_log_exception msg : readonly (log_exception msg).
Proof. now intros w. Qed.

Lemma readonly_bind {A B} (m : M A) (k : A -> M B) :
  readonly m -> (forall a, readonly (k a)) -> readonly (bind m k).
Proof.
  intros Hm Hk w. unfold bind. specialize (Hm w).
  destruct (m w) as [[a|e|] w1]; cbn in *; [|easy|easy].
  now rewrite (Hk a w1).
Qed.

Lemma readonly_try {A} (m : M A) h :
  readonly m -> (forall e, readonly (h e)) -> readonly (try_except m h).
Proof.
  intros Hm Hh w. unfold try_except. specialize (Hm w).
  destruct (m w) as [[a|e|] w1]; cbn in *; [easy| |easy].
  now rewrite (Hh e w1).
Qed.

Lemma readonly_requests_get E url params : readonly (requests_get E url params).
Proof.
  unfold requests_get. apply readonly_bind; [apply readonly_emit|]. intros _.
  destruct (http E url params); [apply readonly_raise | apply readonly_ret].
Qed.

Create HintDb readonly.

#[local] Hint Resolve readonly_ret readonly_raise readonly_lift readonly_emit readonly_log
  readonly_log_exception readonly_requests_get : readonly.

Ltac readonly :=
  repeat first
    [ progress auto with readonly
    | apply readonly_bind; [|intros ?]
    | apply readonly_try; [|intros ?]
    | match goal with
      | |- readonly (if ?b then _ else _) => destruct b
      | |- readonly (match ?x with _ => _ end) => destruct x
      end ].

Section Swallowing.

Variable E : Env.
Hypothesis libraries : libraries_answer E.

Lemma decided_talib closes : decided (talib E closes).
Proof. apply libraries. Qed.

Lemma decided_yf_history a b : decided (yf_history E a b).
Proof. apply libraries. Qed.

Lemma decided_resample df : decided (resample_4h_ffill E df).
Proof. apply libraries. Qed.

Lemma decided_market_chart data : decided (FundamentalData.market_chart_frame data).
Proof.
  unfold FundamentalData.market_chart_frame.
  repeat first
    [ apply decided_rbind; [|intros ?]
    | apply decided_rmap_list; intros ?
    | progress auto with finishes
    | match goal with |- decided (if ?b then _ else _) => destruct b end ].
Qed.

Lemma decided_metrics_frame data : decided (OnChainData.metrics_frame data).
Proof.
  unfold OnChainData.metrics_frame.
  repeat first
    [ apply decided_rbind; [|intros ?]
    | apply decided_rmap_list; intros ?
    | progress auto with finishes
    | match goal with |- decided (if ?b then _ else _) => destruct b end ].
Qed.

#[local] Hint Resolve decided_talib decided_yf_history decided_resample decided_market_chart
  decided_metrics_frame : finishes.

Lemma technical_never_raises self ohlcv_data :
  never_raises (TechnicalData.compute_technical_indicators E self ohlcv_data).
Proof.
  unfold TechnicalData.compute_technical_indicators. apply never_raises_try.
  - finishes.
  - intros e w. now exists empty_df.
Qed.

Lemma sentiment_never_raises self coin a b :
  never_raises (SentimentData.fetch_social_sentiment E self coin a b).
Proof.
  unfold SentimentData.fetch_social_sentiment. apply never_raises_try.
  - finishes.
  - intros e w. now exists empty_df.
Qed.

Lemma fear_greed_never_raises self a b :
  never_raises (FearGreedData.fetch_fear_and_greed_index E self a b).
Proof.
  unfold FearGreedData.fetch_fear_and_greed_index. apply never_raises_try.
  - finishes.
  - intros e w. exists empty_df. now destruct e.
Qed.

Lemma fundamental_never_raises self coin a b :
  never_raises (FundamentalData.fetch_fundamental_data E self coin a b).
Proof.
  unfold FundamentalData.fetch_fundamental_data. apply never_raises_try.
  - finishes.
  - intros e w. exists empty_df. now destruct e.
Qed.

Lemma macro_never_raises self a b :
  never_raises (MacroData.fetch_macro_data E self a b).
Proof.
  unfold MacroData.fetch_macro_data. apply never_raises_try.
  - finishes.
  - intros e w. now exists empty_df.
Qed.

Lemma onchain_never_raises self a b :
  never_raises (OnChainData.fetch_onchain_data E self a b).
Proof.
  unfold OnChainData.fetch_onchain_data. apply never_raises_try.
  - finishes.
  - intros e w. exists empty_df. now destruct e.
Qed.

End Swallowing.

Lemma technical_readonly E self ohlcv_data :
  readonly (TechnicalData.compute_technical_indicators E self ohlcv_data).
Proof. unfold TechnicalData.compute_technical_indicators. readonly. Qed.

Lemma sentiment_readonly E self coin a b :
  readonly (SentimentData.fetch_social_sentiment E self coin a b).
Proof. unfold SentimentData.fetch_social_sentiment. readonly. Qed.

Lemma fear_greed_readonly E self a b :
  readonly (FearGreedData.fetch_fear_and_greed_index E self a b).
Proof. unfold FearGreedData.fetch_fear_and_greed_index. readonly. Qed.

Lemma fundamental_readonly E self coin a b :
  readonly (FundamentalData.fetch_fundamental_data E self coin a b).
Proof. unfold FundamentalData.fetch_fundamental_data. readonly. Qed.

Lemma macro_readonly E self a b : readonly (MacroData.fetch_macro_data E self a b).
Proof. unfold MacroData.fetch_macro_data. readonly. Qed.

Lemma onchain_readonly E self a b : readonly (OnChainData.fetch_onchain_data E self a b).
Proof. unfold OnChainData.fetch_onchain_data. readonly. Qed.

(** X14.  The six fetch functions that catch their own errors (technical
    indicators, sentiment, fear and greed, fundamentals, macro, on-chain)
    always return a table, whatever the servers and the libraries answer
    or raise, and write no file. *)
Theorem auxiliary_fetches_never_raise (E : Env) (a b : Moment) :
  libraries_answer E ->
  (forall self ohlcv_data,
     never_raises (TechnicalData.compute_technical_indicators E self ohlcv_data) /\
     readonly (TechnicalData.compute_technical_indicators E self ohlcv_data)) /\
  (forall self coin,
     never_raises (SentimentData.fetch_social_sentiment E self coin a b) /\
     readonly (SentimentData.fetch_social_sentiment E self coin a b)) /\
  (forall self,
     never_raises (FearGreedData.fetch_fear_and_greed_index E self a b) /\
     readonly (FearGreedData.fetch_fear_and_greed_index E self a b)) /\
  (forall self coin,
     never_raises (FundamentalData.fetch_fundamental_data E self coin a b) /\
     readonly (FundamentalData.fetch_fundamental_data E self coin a b)) /\
  (forall self,
     never_raises (MacroData.fetch_macro_data E self a b) /\
     readonly (MacroData.fetch_macro_data E self a b)) /\
  (forall self,
     never_raises (OnChainData.fetch_onchain_data E self a b) /\
     readonly (OnChainData.fetch_onchain_data E self a b)).
Proof.
  intros Hlib.
  split; [intros self ohlcv_data; split;
            [now apply technical_never_raises | apply technical_readonly]|].
  split; [intros self coin; split;
            [now apply sentiment_never_raises | apply sentiment_readonly]|].
  split; [intros self; split;
            [now apply fear_greed_never_raises | apply fear_greed_readonly]|].
  split; [intros self coin; split;
            [now apply fundamental_never_raises | apply fundamental_readonly]|].
  split; [intros self; split; [now apply macro_never_raises | apply macro_readonly]|].
  intros self; split; [now apply onchain_never_raises | apply onchain_readonly].
Qed.

(** A price-history provider that raises and a server that does not
    answer: the macro fetch and the on-chain fetch still return a table. *)
Lemma auxiliary_fetches_never_raise_witness :
  let E := {| now := 0; raw_dir := "data/raw"; http := Fixtures.no_answer;
              writable := fun _ => true;
              torn := fun _ _ => None;
              talib := fun closes => Raise ValueError;
              vader := fun _ => Num 0;
              yf_history := fun _ _ => Raise ValueError;
              pct_change := fun l => l;
              resample_4h_ffill := fun df => Raise ValueError;
              pandas_frame := fun _ => Raise ValueError |} in
  let a := {| when := 0; as_text := false |} in
  let b := {| when := Fixtures.hour; as_text := false |} in
  libraries_answer E /\
  (exists df, fst (MacroData.fetch_macro_data E (MacroData.init E "btcusdt" "4h") a b
                     (Fixtures.world [])) = Ok df) /\
  (exists df, fst (OnChainData.fetch_onchain_data E
                     (OnChainData.init E "btcusdt" "4h" "https://community-api.coinmetrics.io/v4")
                     a b (Fixtures.world [])) = Ok df).
Proof.
  intros E a b.
  assert (Hlib : libraries_answer E) by (repeat split; intros; discriminate).
  split; [exact Hlib|].
  destruct (auxiliary_fetches_never_raise E a b Hlib) as (_ & _ & _ & _ & Hmacro & Honchain).
  split.
  - apply (proj1 (Hmacro _)).
  - apply (proj1 (Honchain _)).
Defined.

(** ** Storing what was fetched *)

Lemma store_run E b data_type name hit miss (fetch : M DataFrame) w :
  never_raises fetch -> readonly fetch -> stale_cache E b data_type w ->
  store_outcome E b data_type fetch w
    ((enter name ;;;
      chk <- check_local_data E b data_type ;;
      let '(is_up_to_date, df) := chk in
      if is_up_to_date : bool then log INFO hit ;;; ret df
      else try_except
             (d <- fetch ;;
              (if negb (df_empty d) then save_data E b d data_type else ret tt) ;;;
              ret d)
             (fun e => log_exception miss ;;; raise e)) w).
Proof.
  intros Hnever Hread Hstale. unfold enter.
  rewrite (bind_ok _ _ _ _ _ (emit_run _ _)).
  destruct (check_stale_run E b data_type (after (Call name) w))
    as (cached & w1 & Hchk & Hf1 & Hr1).
  { now apply (stale_cache_files E b data_type w). }
  rewrite (bind_ok _ _ _ _ _ Hchk). cbn [files after] in Hf1.
  rewrite requests_after in Hr1. cbn [is_request] in Hr1. rewrite app_nil_r in Hr1.
  destruct (Hnever w1) as [d Hd]. pose proof (Hread w1) as Hf2.
  pose proof (run_of fetch w1) as Hrun. rewrite Hd in Hrun.
  exists w1, d. split; [exact Hf1|]. split; [exact Hr1|]. split; [exact Hd|].
  unfold df_empty. destruct (rows d) as [|r rs] eqn:Hrows.
  - erewrite try_except_ok.
    2:{ rewrite (bind_ok _ _ _ _ _ Hrun). cbn beta; rewrite Hrows. reflexivity. }
    cbn. split; [reflexivity|]. split; [reflexivity|]. now rewrite Hf2.
  - destruct (writable E (key_path b data_type)) eqn:Hw.
    + erewrite try_except_ok.
      2:{ rewrite (bind_ok _ _ _ _ _ Hrun). cbn beta; rewrite Hrows. cbn [negb].
          rewrite (bind_ok _ _ _ _ _ (save_data_run E b d data_type _ ltac:(congruence) Hw)).
          reflexivity. }
      cbn [fst snd]. split; [now rewrite requests_after_log|].
      split; [reflexivity|]. cbn. now rewrite Hf2, Hf1.
    + erewrite try_except_raise.
      2:{ rewrite (bind_ok _ _ _ _ _ Hrun). cbn beta; rewrite Hrows. cbn [negb].
          apply bind_raise. unfold save_data, df_empty. rewrite Hrows. cbn [negb].
          fold (key_path b data_type). apply bind_raise. unfold to_csv. rewrite Hw.
          reflexivity. }
      unfold log_exception. rewrite (bind_ok _ _ _ _ _ (emit_run _ _)).
      cbn [fst snd raise]. rewrite requests_after_log.
      destruct (torn E (key_path b data_type) d) as [fd|].
      * split; [reflexivity|]. split; [reflexivity|]. cbn. now rewrite Hf2, Hf1.
      * split; [reflexivity|]. split; [reflexivity|]. cbn. now rewrite Hf2, Hf1.
Qed.

(** X15.  What a fetch-and-store call of the six swallowing fetchers does
    when the cache does not answer (no file, an empty file, or a newest
    row four hours old or more).  The fetch function of the fetcher runs
    once, and the call sends the requests of that fetch and no other.  The
    table that the fetch returned is what the call returns.  An empty
    table is never written; a non-empty one replaces the cache file of the
    fetcher's own key and no other file.  The only exception that can come
    out is the failure of that write, which leaves every other file
    unchanged and the file of the key as the failed write left it. *)
Theorem auxiliary_store_outcome (E : Env) (a b : Moment) (w : World) :
  libraries_answer E ->
  (forall self ohlcv_data,
     stale_cache E (TechnicalData.base self) "technical" w ->
     store_outcome E (TechnicalData.base self) "technical"
       (TechnicalData.compute_technical_indicators E self ohlcv_data) w
       (TechnicalData.fetch_and_store E self ohlcv_data w)) /\
  (forall self,
     stale_cache E (SentimentData.base self) "sentiment" w ->
     store_outcome E (SentimentData.base self) "sentiment"
       (SentimentData.fetch_social_sentiment E self
          (lower (str_replace "USDT" "" (symbol (SentimentData.base self)))) a b) w
       (SentimentData.fetch_and_store E self a b w)) /\
  (forall self,
     stale_cache E (FearGreedData.base self) "fear_greed" w ->
     store_outcome E (FearGreedData.base self) "fear_greed"
       (FearGreedData.fetch_fear_and_greed_index E self a b) w
       (FearGreedData.fetch_and_store E self a b w)) /\
  (forall self,
     stale_cache E (FundamentalData.base self) "fundamentals" w ->
     store_outcome E (FundamentalData.base self) "fundamentals"
       (FundamentalData.fetch_fundamental_data E self
          (lower (str_replace "USDT" "" (symbol (FundamentalData.base self)))) a b) w
       (FundamentalData.fetch_and_store E self a b w)) /\
  (forall self,
     stale_cache E (MacroData.base self) "macro" w ->
     store_outcome E (MacroData.base self) "macro"
       (MacroData.fetch_macro_data E self a b) w
       (MacroData.fetch_and_store E self a b w)) /\
  (forall self,
     stale_cache E (OnChainData.base self) "onchain" w ->
     store_outcome E (OnChainData.base self) "onchain"
       (OnChainData.fetch_onchain_data E self a b) w
       (OnChainData.fetch_and_store E self a b w)).
Proof.
  intros Hlib.
  split; [intros self ohlcv_data Hstale; apply store_run;
            [now apply technical_never_raises | apply technical_readonly | exact Hstale]|].
  split; [intros self Hstale; apply store_run;
            [now apply sentiment_never_raises | apply sentiment_readonly | exact Hstale]|].
  split; [intros self Hstale; apply store_run;
            [now apply fear_greed_never_raises | apply fear_greed_readonly | exact Hstale]|].
  split; [intros self Hstale; apply store_run;
            [now apply fundamental_never_raises | apply fundamental_readonly | exact Hstale]|].
  split; [intros self Hstale; apply store_run;
            [now apply macro_never_raises | apply macro_readonly | exact Hstale]|].
  intros self Hstale; apply store_run;
    [now apply onchain_never_raises | apply onchain_readonly | exact Hstale].
Qed.

(** With no cache file at all, the sentiment table of three rows is
    computed, returned and written (a call that returned the empty table
    would not do), and the on-chain fetch, whose server does not answer,
    returns the empty table and writes nothing. *)
Lemma auxiliary_store_outcome_witness :
  let E := Fixtures.env 0 Fixtures.no_answer in
  let a := {| when := 0; as_text := false |} in
  let b := {| when := 8 * Fixtures.hour; as_text := false |} in
  let w := Fixtures.world [] in
  let sentiment := SentimentData.init E "btcusdt" "4h" in
  let onchain := OnChainData.init E "btcusdt" "4h" "https://community-api.coinmetrics.io/v4" in
  libraries_answer E /\
  stale_cache E (SentimentData.base sentiment) "sentiment" w /\
  stale_cache E (OnChainData.base onchain) "onchain" w /\
  store_outcome E (SentimentData.base sentiment) "sentiment"
    (SentimentData.fetch_social_sentiment E sentiment "btc" a b) w
    (SentimentData.fetch_and_store E sentiment a b w) /\
  (exists df, fst (SentimentData.fetch_and_store E sentiment a b w) = Ok df /\
              map fst (rows df) = [0; 4 * Fixtures.hour; 8 * Fixtures.hour]) /\
  store_outcome E (OnChainData.base onchain) "onchain"
    (OnChainData.fetch_onchain_data E onchain a b) w
    (OnChainData.fetch_and_store E onchain a b w).
Proof.
  intros E a b w sentiment onchain.
  assert (Hlib : libraries_answer E) by (repeat split; intros; discriminate).
  assert (Hs : stale_cache E (SentimentData.base sentiment) "sentiment" w)
    by (left; reflexivity).
  assert (Ho : stale_cache E (OnChainData.base onchain) "onchain" w)
    by (left; reflexivity).
  destruct (auxiliary_store_outcome E a b w Hlib) as (_ & Hsent & _ & _ & _ & Hchain).
  split; [exact Hlib|]. split; [exact Hs|]. split; [exact Ho|].
  split; [apply Hsent, Hs|]. split; [|apply Hchain, Ho].
  destruct (Hsent sentiment Hs) as (w1 & df & _ & _ & Hfetch & _ & Hout).
  assert (Hdf : df = {| time_name := "timestamp"; columns := ["social_sentiment"];
                        rows := [(0, [Num 0]); (4 * Fixtures.hour, [Num 0]);
                                 (8 * Fixtures.hour, [Num 0])];
                        parsed := true |}).
  { rewrite sentiment_run in Hfetch. injection Hfetch as <-. vm_compute. reflexivity. }
  subst df. exists {| time_name := "timestamp"; columns := ["social_sentiment"];
                      rows := [(0, [Num 0]); (4 * Fixtures.hour, [Num 0]);
                               (8 * Fixtures.hour, [Num 0])];
                      parsed := true |}.
  split; [exact (proj1 Hout) | reflexivity].
Defined.

(** ** Dates that are text *)

Lemma fundamental_text_run E self coin a b w :
  as_text a || as_text b = true ->
  FundamentalData.fetch_fundamental_data E self coin a b w
  = (Ok empty_df, after (Log ERROR "Unexpected error while fetching fundamental data") w).
Proof.
  intros H. unfold FundamentalData.fetch_fundamental_data.
  erewrite try_except_raise by (apply bind_raise; rewrite H; reflexivity).
  reflexivity.
Qed.

Lemma macro_text_run E self a b w :
  as_text b = true ->
  MacroData.fetch_macro_data E self a b w
  = (Ok empty_df,
     after (Log ERROR "Error fetching macro data")
       (after (Log INFO "Requesting macro data (S&P 500)") w)).
Proof.
  intros H. unfold MacroData.fetch_macro_data.
  erewrite try_except_raise.
  2:{ unfold log. rewrite (bind_ok _ _ _ _ _ (emit_run _ _)).
      apply bind_raise. rewrite H. reflexivity. }
  reflexivity.
Qed.

Lemma onchain_text_run E self a b w :
  as_text a || as_text b = true ->
  OnChainData.fetch_onchain_data E self a b w
  = (Ok empty_df, after (Log ERROR "Unexpected error while fetching on-chain data") w).
Proof.
  intros H. unfold OnChainData.fetch_onchain_data.
  erewrite (try_except_raise _ _ w AttributeError w).
  - reflexivity.
  - destruct (as_text a) eqn:Ha.
    + apply bind_raise. reflexivity.
    + cbn in H. rewrite H. erewrite bind_ok by reflexivity. apply bind_raise. reflexivity.
Qed.

(** X16.  A date that reaches a fetcher as text, as the start date does
    whenever the OHLCV table came from the cache, is an error that the
    fetcher swallows before any request: the fundamentals fetch and the
    on-chain fetch with a text start or end date, and the macro fetch with
    a text end date, return the empty table, log one error and send
    nothing. *)
Theorem text_dates_are_swallowed (E : Env) (a b : Moment) (w : World) :
  (as_text a || as_text b = true ->
   forall self coin,
     FundamentalData.fetch_fundamental_data E self coin a b w
     = (Ok empty_df,
        after (Log ERROR "Unexpected error while fetching fundamental data") w)) /\
  (as_text a || as_text b = true ->
   forall self,
     OnChainData.fetch_onchain_data E self a b w
     = (Ok empty_df,
        after (Log ERROR "Unexpected error while fetching on-chain data") w)) /\
  (as_text b = true ->
   forall self,
     MacroData.fetch_macro_data E self a b w
     = (Ok empty_df,
        after (Log ERROR "Error fetching macro data")
          (after (Log INFO "Requesting macro data (S&P 500)") w))).
Proof.
  split; [|split].
  - intros H self coin. now apply fundamental_text_run.
  - intros H self. now apply onchain_text_run.
  - intros H self. now apply macro_text_run.
Qed.

(** A server that would answer is not asked. *)
Lemma text_dates_are_swallowed_witness :
  let E := Fixtures.env 0 (fun _ _ => Body (JObj [])) in
  let a := {| when := 0; as_text := true |} in
  let b := {| when := Fixtures.hour; as_text := false |} in
  let w := Fixtures.world [] in
  requests (snd (FundamentalData.fetch_fundamental_data E
                   (FundamentalData.init E "btcusdt" "4h") "bitcoin" a b w)) = [] /\
  fst (OnChainData.fetch_onchain_data E
         (OnChainData.init E "btcusdt" "4h" "https://community-api.coinmetrics.io/v4")
         a b w) = Ok empty_df /\
  fst (MacroData.fetch_macro_data E (MacroData.init E "btcusdt" "4h") b a w) = Ok empty_df.
Proof.
  intros E a b w.
  destruct (text_dates_are_swallowed E a b w) as (Hf & Ho & _).
  destruct (text_dates_are_swallowed E b a w) as (_ & _ & Hm).
  split; [|split].
  - rewrite (Hf eq_refl). reflexivity.
  - rewrite (Ho eq_refl). reflexivity.
  - rewrite (Hm eq_refl). reflexivity.
Defined.

(** ** A run of the manager over a warm cache *)

Lemma orderbook_from_cache E self ohlcv_data df w :
  fresh_cache E (OrderBookData.base self) "orderbook" df w ->
  from_cache df w (OrderBookData.fetch_and_store E self ohlcv_data w).
Proof. intros H. unfold OrderBookData.fetch_and_store. serve_from_cache H. Qed.

Lemma technical_from_cache E self ohlcv_data df w :
  fresh_cache E (TechnicalData.base self) "technical" df w ->
  from_cache df w (TechnicalData.fetch_and_store E self ohlcv_data w).
Proof. intros H. unfold TechnicalData.fetch_and_store. serve_from_cache H. Qed.

Lemma sentiment_from_cache E self a b df w :
  fresh_cache E (SentimentData.base self) "sentiment" df w ->
  from_cache df w (SentimentData.fetch_and_store E self a b w).
Proof. intros H. unfold SentimentData.fetch_and_store. serve_from_cache H. Qed.

Lemma fresh_cache_files E b data_type df w w' :
  files w' = files w -> fresh_cache E b data_type df w -> fresh_cache E b data_type df w'.
Proof. intros Hf H. unfold fresh_cache in *. now rewrite Hf. Qed.

Lemma from_cache_run (m : M DataFrame) df w0 w :
  files w = files w0 -> requests w = requests w0 ->
  from_cache df w (m w) ->
  exists w', m w = (Ok (as_read df), w') /\ files w' = files w0 /\ requests w' = requests w0.
Proof.
  intros Hf Hr (Hok & Hf' & Hr'). exists (snd (m w)).
  split; [rewrite <- Hok; apply run_of|]. split; congruence.
Qed.

Lemma fundamental_store_text E self a b w :
  stale_cache E (FundamentalData.base self) "fundamentals" w ->
  as_text a || as_text b = true ->
  exists w1,
    FundamentalData.fetch_and_store E self a b w
    = (Ok empty_df,
       after (Log ERROR "Unexpected error while fetching fundamental data") w1) /\
    files w1 = files w /\ requests w1 = requests w.
Proof.
  intros Hstale Htext. unfold FundamentalData.fetch_and_store, enter.
  rewrite (bind_ok _ _ _ _ _ (emit_run _ _)).
  destruct (check_stale_run E (FundamentalData.base self) "fundamentals"
              (after (Call "FundamentalData.fetch_and_store") w))
    as (cached & w1 & Hchk & Hf1 & Hr1).
  { now apply (stale_cache_files E _ _ w). }
  rewrite (bind_ok _ _ _ _ _ Hchk). cbv beta iota.
  exists w1. split.
  - erewrite try_except_ok; [reflexivity|]. cbv zeta.
    rewrite (bind_ok _ _ _ _ _ (fundamental_text_run E self _ a b w1 Htext)).
    reflexivity.
  - split; [exact Hf1|]. rewrite Hr1, requests_after. cbn. apply app_nil_r.
Qed.



(** ** The order book of every candle is the book of now *)

Section OrderBookRun.

Variables (E : Env) (self : OrderBookData.t).
Variables (data : json) (bids asks : list (Z * Z)) (last : Z).

Let endpoint : string := OrderBookData.base_url self +:+ "/api/v3/depth".
Let params : Params := [("symbol", PStr (symbol (OrderBookData.base self))); ("limit", PInt 100)].
Let cells : list Cell :=
  [OrderBookData.top_price bids; OrderBookData.top_quantity bids;
   OrderBookData.top_price asks; OrderBookData.top_quantity asks;
   OrderBookData.spread bids asks;
   OrderBookData.total_volume bids; OrderBookData.total_volume asks;
   Text (symbol (OrderBookData.base self))].
Let stamp (ms : Z) : Z := if ms =? 0 then last else ms.
Let book (t : Z) : DataFrame :=
  {| time_name := "timestamp"; columns := OrderBookData.orderbook_columns;
     rows := [(stamp t, cells)]; parsed := true |}.

Hypothesis served : http E endpoint params = Body data.
Hypothesis data_bids : rbind (json_get "bids" data) OrderBookData.levels = Ok bids.
Hypothesis data_asks : rbind (json_get "asks" data) OrderBookData.levels = Ok asks.
Hypothesis data_last : rbind (json_get "lastUpdateId" data) json_ms = Ok last.

Lemma snapshot_run t w :
  exists w',
    OrderBookData.fetch_order_book_snapshot E self 100 (Some t) w = (Ok (book t), w') /\
    files w' = files w /\
    requests w' = (requests w ++ [HttpGet endpoint params])%list.
Proof.
  unfold OrderBookData.fetch_order_book_snapshot. fold endpoint params.
  eexists. split.
  - apply try_except_ok. unfold log.
    rewrite (bind_ok _ _ _ _ _ (emit_run _ _)).
    erewrite bind_ok.
    2:{ unfold requests_get. rewrite (bind_ok _ _ _ _ _ (emit_run _ _)), served.
        reflexivity. }
    rewrite data_bids, data_asks.
    erewrite bind_ok by reflexivity. erewrite bind_ok by reflexivity.
    erewrite (bind_ok _ _ _ (stamp t)).
    2:{ unfold stamp. destruct (t =? 0); [rewrite data_last|]; reflexivity. }
    rewrite (bind_ok _ _ _ _ _ (emit_run _ _)). reflexivity.
  - split; [reflexivity|].
    rewrite requests_after_log, requests_after, requests_after_log. reflexivity.
Qed.

Lemma snapshots_run timestamps : forall acc w,
  exists w',
    OrderBookData.snapshots E self true timestamps acc w
    = (Ok (acc ++ map (fun t => book (float_ms t)) timestamps)%list, w') /\
    files w' = files w /\
    requests w' = (requests w ++ repeat (HttpGet endpoint params) (length timestamps))%list.
Proof.
  induction timestamps as [|t rest IH]; intros acc w.
  - exists w. cbn. now rewrite !app_nil_r.
  - destruct (snapshot_run (float_ms t) w) as (w1 & Hrun & Hf1 & Hr1).
    destruct (IH (acc ++ [book (float_ms t)])%list w1) as (w2 & Hrest & Hf2 & Hr2).
    exists w2. split; [|split].
    + cbn [OrderBookData.snapshots]. erewrite bind_ok by reflexivity.
      cbn [timestamp_ms]. rewrite (bind_ok _ _ _ _ _ Hrun), Hrest.
      now rewrite <- app_assoc.
    + congruence.
    + rewrite Hr2, Hr1, <- app_assoc. reflexivity.
Qed.

Lemma flat_map_books timestamps :
  flat_map rows (map (fun t => book (float_ms t)) timestamps)
  = map (fun t => (stamp (float_ms t), cells)) timestamps.
Proof. induction timestamps as [|t rest IH]; cbn; [reflexivity|]. now rewrite IH. Qed.

Lemma orderbook_run ohlcv_data w :
  stale_cache E (OrderBookData.base self) "orderbook" w ->
  writable E (key_path (OrderBookData.base self) "orderbook") = true ->
  parsed ohlcv_data = true ->
  time_name ohlcv_data = "open_time" ->
  rows ohlcv_data <> [] ->
  exists df,
    fst (OrderBookData.fetch_and_store E self ohlcv_data w) = Ok df /\
    rows df = map (fun r : Row => (stamp (float_ms (fst r)), cells)) (rows ohlcv_data) /\
    requests (snd (OrderBookData.fetch_and_store E self ohlcv_data w))
    = (requests w ++ repeat (HttpGet endpoint params) (length (rows ohlcv_data)))%list /\
    files (snd (OrderBookData.fetch_and_store E self ohlcv_data w))
    = <[key_path (OrderBookData.base self) "orderbook" := Csv (as_read df)]> (files w).
Proof.
  intros Hstale Hw Hparsed Hname Hrows.
  destruct (check_stale_run E (OrderBookData.base self) "orderbook"
              (after (Call "OrderBookData.fetch_and_store") w) Hstale)
    as (cached & w1 & Hcheck & Hf1 & Hr1).
  destruct (snapshots_run (map fst (rows ohlcv_data)) [] w1) as (w2 & Hsnap & Hf2 & Hr2).
  unfold OrderBookData.fetch_and_store, enter.
  rewrite (bind_ok _ _ _ _ _ (emit_run _ _)), (bind_ok _ _ _ _ _ Hcheck).
  cbv beta iota.
  unfold df_empty. destruct (rows ohlcv_data) as [|[t0 c0] rest] eqn:Hrs; [congruence|].
  set (full := concat (map (fun t => book (float_ms t)) (map fst ((t0, c0) :: rest)))).
  assert (Hfull : rows full
                  = map (fun r : Row => (stamp (float_ms (fst r)), cells)) ((t0, c0) :: rest)).
  { unfold full. cbn [map concat rows fst]. cbn [flat_map rows book app].
    rewrite flat_map_books, map_map. reflexivity. }
  exists full. erewrite try_except_ok.
  2:{ rewrite (time_values_ok _ _ Hname), Hrs, Hparsed.
      erewrite bind_ok by reflexivity.
      rewrite (bind_ok _ _ _ _ _ Hsnap). cbn [app map fst].
      fold full.
      rewrite (bind_ok _ _ _ _ _ (save_data_run E (OrderBookData.base self) full "orderbook" w2
                                    ltac:(rewrite Hfull; discriminate) Hw)).
      reflexivity. }
  cbn [fst snd]. split; [reflexivity|]. split; [exact Hfull|]. split.
  - rewrite requests_after_log. unfold put_file, requests in *. cbn [trace].
    rewrite Hr2, Hr1. cbn [after trace]. rewrite List.filter_app. cbn [List.filter is_request].
    rewrite app_nil_r. now rewrite length_map.
  - cbn [files after put_file]. now rewrite Hf2, Hf1.
Qed.

End OrderBookRun.

(** X18.  The order book of every candle is the book of now.  When the
    order-book cache does not answer and the depth endpoint answers a
    payload with bids, asks and [lastUpdateId], [fetch_and_store] on a
    non-empty OHLCV table with parsed times sends one depth request per
    candle, all with the same parameters (the symbol and the limit 100,
    never a time), and returns one row per candle, in the order of the
    candles.  The row is stamped with the candle's [open_time] as the code
    converts it, [int(timestamp.timestamp() * 1000)] (the [open_time]
    itself for whole seconds, otherwise possibly one millisecond less), or
    with [lastUpdateId] when that number is 0; all rows hold the same
    cells, those of the payload.  The table is written to the order-book
    cache. *)
Theorem orderbook_repeats_current_book (E : Env) (self : OrderBookData.t) (data : json)
    (bids asks : list (Z * Z)) (last : Z) (ohlcv_data : DataFrame) (w : World) :
  let request :=
    HttpGet (OrderBookData.base_url self +:+ "/api/v3/depth")
      [("symbol", PStr (symbol (OrderBookData.base self))); ("limit", PInt 100)] in
  let cells :=
    [OrderBookData.top_price bids; OrderBookData.top_quantity bids;
     OrderBookData.top_price asks; OrderBookData.top_quantity asks;
     OrderBookData.spread bids asks;
     OrderBookData.total_volume bids; OrderBookData.total_volume asks;
     Text (symbol (OrderBookData.base self))] in
  let run := OrderBookData.fetch_and_store E self ohlcv_data w in
  http E (OrderBookData.base_url self +:+ "/api/v3/depth")
    [("symbol", PStr (symbol (OrderBookData.base self))); ("limit", PInt 100)] = Body data ->
  rbind (json_get "bids" data) OrderBookData.levels = Ok bids ->
  rbind (json_get "asks" data) OrderBookData.levels = Ok asks ->
  rbind (json_get "lastUpdateId" data) json_ms = Ok last ->
  stale_cache E (OrderBookData.base self) "orderbook" w ->
  writable E (key_path (OrderBookData.base self) "orderbook") = true ->
  parsed ohlcv_data = true ->
  time_name ohlcv_data = "open_time" ->
  rows ohlcv_data <> [] ->
  exists df,
    fst run = Ok df /\
    rows df = map (fun r : Row =>
                     (if float_ms (fst r) =? 0 then last else float_ms (fst r), cells))
                (rows ohlcv_data) /\
    requests (snd run) = (requests w ++ repeat request (length (rows ohlcv_data)))%list /\
    files (snd run)
    = <[key_path (OrderBookData.base self) "orderbook" := Csv (as_read df)]> (files w).
Proof.
  intros request cells run Hserved Hbids Hasks Hlast Hstale Hw Hparsed Hname Hrows.
  exact (orderbook_run E self data bids asks last Hserved Hbids Hasks Hlast ohlcv_data w
           Hstale Hw Hparsed Hname Hrows).
Qed.

(** Three candles, opening at the epoch, at 1001 ms and at four hours:
    three equal requests, three rows with the same cells, stamped with
    [lastUpdateId], with 1000 (the product 1.001 * 1000 is a little less
    than 1001) and with the opening time. *)
Lemma orderbook_repeats_current_book_witness :
  let depth := JObj [("lastUpdateId", JNum 7);
                     ("bids", JArr [JArr [JNum 100; JNum 2]; JArr [JNum 99; JNum 4]]);
                     ("asks", JArr [JArr [JNum 101; JNum 3]])] in
  let E := Fixtures.env 0 (Exchange.serve [] (Body depth)) in
  let candles :=
    {| time_name := "open_time"; columns := OHLCVData.ohlcv_columns;
       rows := [(0, [Num 100; Num 101; Num 99; Num 100; Num 5; Time 1000]);
                (1001, [Num 100; Num 101; Num 99; Num 100; Num 5; Time (four_hours - 1)]);
                (four_hours,
                 [Num 100; Num 103; Num 99; Num 102; Num 6; Time (2 * four_hours - 1)])];
       parsed := true |} in
  let run := OrderBookData.fetch_and_store E (Exchange.orderbook E) candles
               (Fixtures.world []) in
  exists df,
    fst run = Ok df /\
    rows df = [(7, [Num 100; Num 2; Num 101; Num 3; Num 1; Num 6; Num 3; Text "BTCUSDT"]);
               (1000, [Num 100; Num 2; Num 101; Num 3; Num 1; Num 6; Num 3; Text "BTCUSDT"]);
               (four_hours,
                [Num 100; Num 2; Num 101; Num 3; Num 1; Num 6; Num 3; Text "BTCUSDT"])] /\
    length (requests (snd run)) = 3%nat.
Proof.
  intros depth E candles run.
  destruct (orderbook_repeats_current_book E (Exchange.orderbook E) depth
              [(100, 2); (99, 4)] [(101, 3)] 7 candles (Fixtures.world []))
    as (df & Hok & Hrows & Hreq & _).
  - reflexivity.
  - reflexivity.
  - reflexivity.
  - reflexivity.
  - left. reflexivity.
  - reflexivity.
  - reflexivity.
  - reflexivity.
  - discriminate.
  - exists df. split; [exact Hok|]. split.
    + rewrite Hrows. vm_compute. reflexivity.
    + unfold run. rewrite Hreq. reflexivity.
Defined.

(** ** The OHLCV fetch from the probe to the cache file *)

Lemma ohlcv_fetch_readonly E self limit start_time :
  readonly (OHLCVData.fetch_historical_ohlcv E self limit start_time).
Proof. unfold OHLCVData.fetch_historical_ohlcv. readonly. Qed.

Lemma pagination_readonly E self fuel : forall current_time acc,
  readonly (OHLCVData.pagination E self fuel current_time acc).
Proof.
  induction fuel as [|fuel IH]; intros current_time acc; cbn [OHLCVData.pagination].
  - apply readonly_lift.
  - apply readonly_bind; [apply ohlcv_fetch_readonly|]. intros df.
    destruct (df_empty df); [apply readonly_ret|].
    apply readonly_bind; [apply readonly_lift|]. intros ct.
    destruct (df_len df <? 1000)%nat; [apply readonly_ret | apply IH].
Qed.

Lemma save_data_empty E self df data_type w :
  rows df = [] ->
  save_data E self df data_type w
  = (Ok tt, after (Log WARNING ("No " +:+ data_type +:+ " data to save for " +:+ symbol self)) w).
Proof. intros H. unfold save_data, df_empty. now rewrite H. Qed.

Section OhlcvRun.

Import Klines.

Variables (E : Env) (self : OHLCVData.t) (page : option Z -> list Kline).

Variables (first : Kline) (others : list Kline).

Hypothesis served : serves E self page.
Hypothesis probed :
  http E (OHLCVData.base_url self +:+ "/api/v3/klines")
    (OHLCVData.kline_params self 1 (Some 0))
  = Body (JArr (map kline_json (first :: others))).

Let start : Z := float_ms (k_open_time first).

Lemma listing_loop_found before info rest w :
  Forall (fun info => exists s, json_get "symbol" info = Ok s /\
                                json_eq_str s (symbol (OHLCVData.base self)) = false)
         before ->
  (exists s, json_get "symbol" info = Ok s /\
             json_eq_str s (symbol (OHLCVData.base self)) = true) ->
  exists w',
    OHLCVData.listing_loop E self (before ++ info :: rest)%list w
    = (Ok start, w') /\
    files w' = files w /\
    length (requests w') = S (length (requests w)).
Proof.
  intros Hbefore (s & Hs & Heq).
  induction Hbefore as [|other before (s' & Hs' & Hne) _ IH]; cbn [app OHLCVData.listing_loop].
  - unfold lift at 1. rewrite Hs. erewrite bind_ok by reflexivity. rewrite Heq.
    destruct (fetch_answer E self 1 (Some 0) (first :: others) w probed)
      as (w' & Hfetch & Hreq).
    exists w'. split; [|split; [|exact Hreq]].
    + rewrite (bind_ok _ _ _ _ _ Hfetch). reflexivity.
    + pose proof (ohlcv_fetch_readonly E self 1 (Some 0) w) as Hf.
      now rewrite Hfetch in Hf.
  - unfold lift at 1. rewrite Hs'. erewrite bind_ok by reflexivity. rewrite Hne.
    exact IH.
Qed.

Lemma ohlcv_run data before info rest (n fuel : nat) w :
  stale_cache E (OHLCVData.base self) "ohlcv" w ->
  writable E (key_path (OHLCVData.base self) "ohlcv") = true ->
  http E (OHLCVData.base_url self +:+ "/api/v3/exchangeInfo") [] = Body data ->
  json_get "symbols" data = Ok (JArr (before ++ info :: rest)) ->
  Forall (fun info => exists s, json_get "symbol" info = Ok s /\
                                json_eq_str s (symbol (OHLCVData.base self)) = false)
         before ->
  (exists s, json_get "symbol" info = Ok s /\
             json_eq_str s (symbol (OHLCVData.base self)) = true) ->
  first_short page start n ->
  (n < fuel)%nat ->
  exists df,
    fst (OHLCVData.fetch_and_store E self fuel w) = Ok df /\
    rows df = pages_rows page start n /\
    length (requests (snd (OHLCVData.fetch_and_store E self fuel w)))
    = (length (requests w) + 2 + S n)%nat /\
    files (snd (OHLCVData.fetch_and_store E self fuel w))
    = if df_empty df then files w
      else <[key_path (OHLCVData.base self) "ohlcv" := Csv (as_read df)]> (files w).
Proof.
  intros Hstale Hw Hhttp Hsymbols Hbefore Hinfo Hshort Hfuel.
  destruct (check_stale_run E (OHLCVData.base self) "ohlcv"
              (after (Call "OHLCVData.fetch_and_store") w) Hstale)
    as (cached & w1 & Hcheck & Hf1 & Hr1).
  rewrite requests_after in Hr1. cbn [is_request] in Hr1. rewrite app_nil_r in Hr1.
  cbn [files after] in Hf1.
  set (url := OHLCVData.base_url self +:+ "/api/v3/exchangeInfo") in *.
  destruct (listing_loop_found before info rest (after (HttpGet url []) w1)
              Hbefore Hinfo) as (w2 & Hloop & Hf2 & Hr2).
  rewrite requests_after in Hr2. cbn [is_request] in Hr2. rewrite length_app in Hr2.
  cbn [length] in Hr2. rewrite Hr1 in Hr2. cbn [files after] in Hf2.
  assert (Hlisting : OHLCVData.get_symbol_listing_date E self w1
                     = (Ok start, w2)).
  { unfold OHLCVData.get_symbol_listing_date. fold url. apply try_except_ok.
    unfold requests_get.
    erewrite bind_ok
      by (rewrite (bind_ok _ _ _ _ _ (emit_run _ _)), Hhttp; reflexivity).
    unfold lift at 1. rewrite Hsymbols. erewrite bind_ok by reflexivity.
    exact Hloop. }
  destruct (pagination_run E self page served n start [] fuel w2 Hshort Hfuel)
    as (dfs & w3 & Hpages & Hr3 & Hrows).
  cbn [app] in Hpages.
  pose proof (pagination_readonly E self fuel start [] w2) as Hf3.
  rewrite Hpages in Hf3. cbn [snd] in Hf3.
  unfold OHLCVData.fetch_and_store, enter.
  rewrite (bind_ok _ _ _ _ _ (emit_run _ _)), (bind_ok _ _ _ _ _ Hcheck).
  cbv beta iota.
  destruct dfs as [|d ds].
  - exists empty_df. erewrite try_except_ok.
    2:{ rewrite (bind_ok _ _ _ _ _ Hlisting), (bind_ok _ _ _ _ _ Hpages). reflexivity. }
    cbn [fst snd]. split; [reflexivity|]. split; [exact Hrows|]. split; [lia|].
    cbn. congruence.
  - set (full := concat (d :: ds)).
    assert (Hfull : rows full = pages_rows page start n).
    { unfold full. now rewrite rows_concat. }
    exists full. unfold df_empty. destruct (rows full) as [|r rs] eqn:Hrs.
    + erewrite try_except_ok.
      2:{ rewrite (bind_ok _ _ _ _ _ Hlisting), (bind_ok _ _ _ _ _ Hpages). cbv iota.
          fold full.
          rewrite (bind_ok _ _ _ _ _ (save_data_empty E _ full "ohlcv" w3 Hrs)).
          reflexivity. }
      cbn [fst snd]. split; [reflexivity|]. split; [now rewrite <- Hfull|].
      split; [rewrite requests_after_log; lia|]. cbn [files after]. congruence.
    + erewrite try_except_ok.
      2:{ rewrite (bind_ok _ _ _ _ _ Hlisting), (bind_ok _ _ _ _ _ Hpages). cbv iota.
          fold full.
          rewrite (bind_ok _ _ _ _ _ (save_data_run E _ full "ohlcv" w3
                                        ltac:(rewrite Hrs; discriminate) Hw)).
          reflexivity. }
      cbn [fst snd]. split; [reflexivity|]. split; [now rewrite <- Hfull|].
      split.
      * rewrite requests_after_log. unfold put_file, requests in *. cbn [trace]. lia.
      * cbn [files after put_file]. congruence.
Qed.

End OhlcvRun.



(** ** The nearest join finds a nearest row *)

Lemma insert_row_sorted r l :
  StronglySorted Z.le (map fst l) -> StronglySorted Z.le (map fst (insert_row r l)).
Proof.
  induction l as [|x l IH]; cbn; intros Hs; [repeat constructor|].
  apply StronglySorted_inv in Hs as [Hs Hx].
  destruct (fst r <=? fst x) eqn:Hlt; cbn.
  - apply Z.leb_le in Hlt. constructor; [now constructor|].
    constructor; [lia|]. eapply List.Forall_impl; [|exact Hx]. cbn. intros; lia.
  - apply Z.leb_gt in Hlt. constructor; [now apply IH|].
    apply List.Forall_forall. intros k Hk. apply in_map_iff in Hk as (y & <- & Hy).
    apply insert_row_in in Hy as [-> | Hy]; [lia|].
    rewrite List.Forall_forall in Hx. apply Hx. now apply in_map.
Qed.

Lemma sort_values_sorted l : StronglySorted Z.le (map fst (sort_values l)).
Proof.
  induction l as [|x l IH]; cbn; [constructor|]. now apply insert_row_sorted.
Qed.

Lemma sorted_nth_le (l : list Z) :
  StronglySorted Z.le l ->
  forall i j, (i <= j)%nat -> (j < length l)%nat -> nth i l 0 <= nth j l 0.
Proof.
  induction 1 as [|x l Hs IH Hx]; intros i j Hij Hj; [cbn in Hj; lia|].
  destruct j as [|j]; [replace i with O by lia; cbn; lia|]. cbn in Hj.
  destruct i as [|i].
  - cbn. rewrite List.Forall_forall in Hx. apply Hx, nth_In. lia.
  - cbn. apply IH; lia.
Qed.

Lemma count_while_prefix p l j :
  (j < count_while p l)%nat -> p (nth j l 0) = true.
Proof.
  revert j. induction l as [|x l IH]; intros j; cbn; [lia|].
  destruct (p x) eqn:Hp; [|lia]. intros Hj.
  destruct j as [|j]; [exact Hp|]. apply IH. lia.
Qed.

Section Nearest.

Variables (tol t : Z) (keys : list Z) (j : nat).

Hypothesis keys_sorted : StronglySorted Z.le keys.
Hypothesis j_in : (j < length keys)%nat.
Hypothesis j_near : Z.abs (t - nth j keys 0) <= tol.

Lemma backward_candidate :
  nth j keys 0 <= t ->
  exists b, backward_pos tol t keys = Some b /\
            nth j keys 0 <= nth b keys 0 <= t.
Proof.
  intros Hle. unfold backward_pos.
  pose proof (count_while_bound (fun k => k <=? t) keys) as Hbound.
  destruct (count_while (fun k => k <=? t) keys) as [|b] eqn:Hc.
  - pose proof (count_while_false (fun k => k <=? t) keys) as Hfalse.
    rewrite Hc in Hfalse. specialize (Hfalse ltac:(lia)). cbn in Hfalse.
    pose proof (sorted_nth_le keys keys_sorted 0 j ltac:(lia) j_in). lia.
  - pose proof (count_while_true _ _ _ Hc) as Hb. cbn in Hb.
    assert (Hjb : (j <= b)%nat).
    { destruct (le_lt_dec j b) as [|Hlt]; [assumption|].
      pose proof (count_while_false (fun k => k <=? t) keys) as Hfalse.
      rewrite Hc in Hfalse.
      destruct (Nat.eq_dec (S b) (length keys)) as [Heq|Hne]; [lia|].
      specialize (Hfalse ltac:(lia)). cbn in Hfalse.
      pose proof (sorted_nth_le keys keys_sorted (S b) j ltac:(lia) j_in). lia. }
    pose proof (sorted_nth_le keys keys_sorted j b Hjb ltac:(lia)) as Hkeys.
    exists b. split; [|lia].
    destruct (t - nth b keys 0 >? tol) eqn:Htol; [lia | reflexivity].
Qed.

Lemma forward_candidate :
  t <= nth j keys 0 ->
  exists f, forward_pos tol t keys = Some f /\
            t <= nth f keys 0 <= nth j keys 0.
Proof.
  intros Hge. unfold forward_pos.
  set (f := count_while (fun k => k <? t) keys).
  assert (Hfj : (f <= j)%nat).
  { destruct (le_lt_dec f j) as [|Hlt]; [assumption|].
    pose proof (count_while_prefix (fun k => k <? t) keys j Hlt) as Hp. cbn in Hp. lia. }
  assert (Hlen : (f < length keys)%nat) by lia.
  pose proof (count_while_false (fun k => k <? t) keys Hlen) as Hfalse. cbn in Hfalse.
  fold f in Hfalse.
  pose proof (sorted_nth_le keys keys_sorted f j Hfj j_in) as Hkeys.
  apply Nat.ltb_lt in Hlen. rewrite Hlen.
  exists f. split; [|lia].
  destruct (nth f keys 0 - t >? tol) eqn:Htol; [lia | reflexivity].
Qed.

Lemma nearest_pos_complete :
  exists k, nearest_pos tol t keys = Some k /\
            Z.abs (t - nth k keys 0) <= Z.abs (t - nth j keys 0).
Proof.
  unfold nearest_pos.
  destruct (Z.le_ge_cases (nth j keys 0) t) as [Hle | Hge].
  - destruct (backward_candidate Hle) as (b & -> & Hb).
    destruct (forward_pos tol t keys) as [f|] eqn:Hf.
    + apply forward_pos_spec in Hf.
      destruct (t - nth b keys 0 <=? nth f keys 0 - t) eqn:Hcmp;
        eexists; (split; [reflexivity|]); lia.
    + eexists. split; [reflexivity|]. lia.
  - destruct (forward_candidate Hge) as (f & -> & Hf).
    destruct (backward_pos tol t keys) as [b|] eqn:Hb.
    + apply backward_pos_spec in Hb.
      destruct (t - nth b keys 0 <=? nth f keys 0 - t) eqn:Hcmp;
        eexists; (split; [reflexivity|]); lia.
    + eexists. split; [reflexivity|]. lia.
Qed.

End Nearest.

Lemma drop_column_rows name df df' :
  drop_column name df = Ok df' ->
  exists i, index_of name (columns df) = Some i /\
            rows df' = map (fun r : Row => (fst r, remove_nth i (snd r))) (rows df).
Proof.
  unfold drop_column. destruct (index_of name (columns df)) as [i|]; [|discriminate].
  intros [= <-]. now exists i.
Qed.

(** X20.  The nearest join finds a nearest row.  In the merge step of
    [merge_data_for_training], the nearest join of the running table with
    a cached series under a tolerance of four hours, a row of the running
    table that has some row of the series within four hours is matched:
    the joined table holds the left row followed by the timestamp and the
    cells of a row of the series that is at least as near as that row (and
    so as every row of the series within the tolerance); the table that
    the loop goes on with holds that row without the column dropped. *)
Theorem near_rows_are_matched (self : DataManager.t) (data_type : string)
    (rest : list string) (left right : DataFrame) (w : World) (l near : Row) :
  let path := cache_path (DataManager.data_dir self) (DataManager.symbol self)
                (DataManager.interval self) in
  let joined := merge_asof_nearest four_hours left (with_datetimes right) in
  files w !! path data_type = Some (Csv right) ->
  time_name right = time_key data_type ->
  In l (rows left) ->
  In near (rows right) ->
  Z.abs (fst l - fst near) <= four_hours ->
  DataManager.merge_loop self (data_type :: rest) (Some left) w
  = (merged <- lift (drop_column (time_key data_type) joined) ;;
     DataManager.merge_loop self rest (Some merged)) w /\
  exists chosen,
    In chosen (rows right) /\
    Z.abs (fst l - fst chosen) <= Z.abs (fst l - fst near) /\
    In (fst l, (snd l ++ Time (fst chosen) :: snd chosen)%list) (rows joined) /\
    (forall merged,
       drop_column (time_key data_type) joined = Ok merged ->
       exists i,
         index_of (time_key data_type) (columns joined) = Some i /\
         In (fst l, remove_nth i (snd l ++ Time (fst chosen) :: snd chosen)%list)
            (rows merged)).
Proof.
  intros path joined Hfile Hkeyname Hl Hnear Hdist.
  split; [exact (merge_loop_present self data_type rest (Some left) w right Hfile Hkeyname)|].
  set (r := sort_values (rows right)).
  assert (Hkey : forall i, nth i (map fst r) 0 = fst (nth i r (0, []))).
  { intros i. exact (map_nth fst r (0, []) i). }
  apply (proj2 (sort_values_in near (rows right))) in Hnear. fold r in Hnear.
  destruct (In_nth r near (0, []) Hnear) as (j & Hj & Hnth).
  destruct (nearest_pos_complete four_hours (fst l) (map fst r) j) as (k & Hk & Hbest).
  - apply sort_values_sorted.
  - now rewrite length_map.
  - now rewrite Hkey, Hnth.
  - pose proof (nearest_pos_within _ _ _ _ Hk) as [Hlen _].
    rewrite length_map in Hlen. rewrite !Hkey, Hnth in Hbest.
    assert (Hin : In (fst l, (snd l ++ Time (fst (nth k r (0, []))) :: snd (nth k r (0, [])))%list)
                     (rows joined)).
    { unfold joined, merge_asof_nearest. cbn [rows with_datetimes]. fold r.
      apply in_map_iff. exists l. rewrite Hk. split; [reflexivity|].
      now apply sort_values_in. }
    exists (nth k r (0, [])). split; [|split; [exact Hbest|split; [exact Hin|]]].
    + apply (proj1 (sort_values_in _ (rows right))). now apply nth_In.
    + intros merged Hdrop. apply drop_column_rows in Hdrop as (i & Hi & Hrows).
      exists i. split; [exact Hi|]. rewrite Hrows.
      apply in_map_iff. eexists. split; [|exact Hin]. reflexivity.
Qed.

(** The candle at 0h as a row of the running table and a sentiment cache
    with rows at 1h and 20h: the table that the loop returns holds the
    candle with the sentiment of the row at 1h. *)
Lemma near_rows_are_matched_witness :
  let E := Fixtures.env 0 Fixtures.no_answer in
  let self := DataManager.init E "btcusdt" "4h" in
  let w := Fixtures.world [(Fixtures.sentiment_path, Csv Fixtures.sentiment_table)] in
  let l := (0, [Num 100; Num 101; Num 99; Num 100; Num 5; Time (4 * Fixtures.hour - 1)]) in
  exists merged chosen,
    fst (DataManager.merge_loop self ["sentiment"] (Some Fixtures.ohlcv_table) w)
    = Ok (Some merged) /\
    In chosen (rows Fixtures.sentiment_table) /\
    Z.abs (fst l - fst chosen) <= 1 * Fixtures.hour /\
    In (fst l, (snd l ++ snd chosen)%list) (rows merged).
Proof.
  intros E self w l.
  destruct (near_rows_are_matched self "sentiment" [] Fixtures.ohlcv_table
              Fixtures.sentiment_table w l (1 * Fixtures.hour, [Num 3]))
    as (Hloop & chosen & Hchosen & Hbest & _ & Hmerged).
  - reflexivity.
  - reflexivity.
  - left. reflexivity.
  - right. left. reflexivity.
  - vm_compute. discriminate.
  - set (merged := {| time_name := "open_time";
                      columns := ["open"; "high"; "low"; "close"; "volume"; "close_time";
                                  "social_sentiment"];
                      rows := [(0, [Num 100; Num 101; Num 99; Num 100; Num 5;
                                    Time (4 * Fixtures.hour - 1); Num 3]);
                               (4 * Fixtures.hour,
                                [Num 100; Num 103; Num 99; Num 102; Num 6;
                                 Time (8 * Fixtures.hour - 1); Num 3]);
                               (8 * Fixtures.hour,
                                [Num 102; Num 103; Num 100; Num 101; Num 7;
                                 Time (12 * Fixtures.hour - 1); NaN])];
                      parsed := true |}).
    assert (Hdrop : drop_column (time_key "sentiment")
                      (merge_asof_nearest four_hours Fixtures.ohlcv_table
                         (with_datetimes Fixtures.sentiment_table)) = Ok merged)
      by (vm_compute; reflexivity).
    destruct (Hmerged merged Hdrop) as (i & Hi & Hin).
    assert (i = 6%nat) as -> by (vm_compute in Hi; now injection Hi).
    exists merged, chosen. split; [rewrite Hloop, Hdrop; reflexivity|].
    split; [exact Hchosen|]. split; [exact Hbest|].
    replace (snd l ++ snd chosen)%list
      with (remove_nth 6 (snd l ++ Time (fst chosen) :: snd chosen)%list) by reflexivity.
    exact Hin.
Defined.

(** ** What the merge writes *)

Lemma readonly_path_exists p : readonly (path_exists p).
Proof. now intros w. Qed.

Lemma readonly_read_csv p : readonly (read_csv p).
Proof. intros w. unfold read_csv. now destruct (files w !! p) as [[e|df]|]. Qed.

Lemma merge_loop_readonly self types : forall combined,
  readonly (DataManager.merge_loop self types combined).
Proof.
  induction types as [|data_type rest IH]; intros combined; cbn [DataManager.merge_loop].
  - apply readonly_ret.
  - apply readonly_bind; [apply readonly_path_exists|]. intros present.
    destruct (negb present).
    + apply readonly_bind; [apply readonly_log|]. intros _. apply IH.
    + apply readonly_bind; [apply readonly_read_csv|]. intros df.
      apply readonly_bind; [apply readonly_lift|]. intros df'.
      destruct combined as [running|]; [|apply IH].
      apply readonly_bind; [apply readonly_lift|]. intros merged. apply IH.
Qed.

Lemma merge_files (E : Env) (self : DataManager.t) (w : World) :
  let run := DataManager.merge_data_for_training E self w in
  let combined_path :=
    path_join (DataManager.data_dir self)
      (DataManager.symbol self +:+ "_" +:+ DataManager.interval self +:+ "_combined.csv") in
  (fst run = Ok empty_df /\
   (files (snd run) = files w \/
    (writable E combined_path = false /\
     exists combined fd,
       torn E combined_path combined = Some fd /\
       files (snd run) = <[combined_path := fd]> (files w)))) \/
  (exists df, fst run = Ok df /\
              files (snd run) = <[combined_path := Csv (as_read df)]> (files w)).
Proof.
  intros run combined_path. unfold run, DataManager.merge_data_for_training,
    DataManager.merge_try.
  fold combined_path.
  pose proof (merge_loop_readonly self DataManager.data_types None w) as Hf.
  pose proof (merge_loop_finishes self DataManager.data_types None w) as Hfin.
  destruct (DataManager.merge_loop self DataManager.data_types None w)
    as [[[combined|]|e|] w1] eqn:Hloop; cbn [fst snd] in Hf, Hfin.
  - destruct (writable E combined_path) eqn:Hw.
    + right. exists combined.
      erewrite try_except_ok.
      2:{ rewrite (bind_ok _ _ _ _ _ Hloop). unfold bind at 1, to_csv. rewrite Hw.
          reflexivity. }
      split; [reflexivity|]. cbn. now rewrite Hf.
    + left.
      erewrite try_except_raise.
      2:{ rewrite (bind_ok _ _ _ _ _ Hloop). apply bind_raise. unfold to_csv.
          rewrite Hw. reflexivity. }
      split; [reflexivity|].
      destruct (torn E combined_path combined) as [fd|] eqn:Htorn.
      * right. split; [reflexivity|]. exists combined, fd. split; [exact Htorn|].
        cbn. now rewrite Hf.
      * left. exact Hf.
  - left. erewrite try_except_ok by (rewrite (bind_ok _ _ _ _ _ Hloop); reflexivity).
    split; [reflexivity|]. left. exact Hf.
  - left. erewrite try_except_raise by (apply bind_raise; exact Hloop).
    split; [reflexivity|]. left. exact Hf.
  - congruence.
Qed.

(** X21.  The merge writes what it returns, and nothing else.  Either
    [merge_data_for_training] returns the combined table, and the only
    file it has changed is [<symbol>_<interval>_combined.csv] in the raw
    data directory, which now holds that table; or it returns the empty
    table (no series was found, or a read, a join or the write failed),
    and then it has changed no file, unless the write of the combined file
    broke off: that file, and no other, is then as the failed write left
    it. *)
Theorem merge_writes_what_it_returns (E : Env) (self : DataManager.t) (w : World) :
  let run := DataManager.merge_data_for_training E self w in
  let combined_path :=
    path_join (DataManager.data_dir self)
      (DataManager.symbol self +:+ "_" +:+ DataManager.interval self +:+ "_combined.csv") in
  (fst run = Ok empty_df /\
   (files (snd run) = files w \/
    (writable E combined_path = false /\
     exists combined fd,
       torn E combined_path combined = Some fd /\
       files (snd run) = <[combined_path := fd]> (files w)))) \/
  (exists df, fst run = Ok df /\
              files (snd run) = <[combined_path := Csv (as_read df)]> (files w)).
Proof. exact (merge_files E self w). Qed.

(** ** Cache keys *)

Lemma upper_ascii_idempotent c : upper_ascii (upper_ascii c) = upper_ascii c.
Proof. destruct c as [[] [] [] [] [] [] [] []]; reflexivity. Qed.

Lemma upper_idempotent s : upper (upper s) = upper s.
Proof.
  induction s as [|c s IH]; cbn; [reflexivity|].
  rewrite upper_ascii_idempotent. f_equal. exact IH.
Qed.

Lemma length_append_string a b :
  String.length (a +:+ b) = (String.length a + String.length b)%nat.
Proof. induction a as [|c a IH]; simpl; [reflexivity|]. f_equal. exact IH. Qed.

Lemma append_cancel_r s x y : x +:+ s = y +:+ s -> x = y.
Proof.
  revert y. induction x as [|c x IH]; intros [|d y] H.
  - reflexivity.
  - exfalso. apply (f_equal String.length) in H.
    rewrite !length_append_string in H. cbn [String.length] in H. lia.
  - exfalso. apply (f_equal String.length) in H.
    rewrite !length_append_string in H. cbn [String.length] in H. lia.
  - injection H as -> H. f_equal. now apply IH.
Qed.

(** X22.  Cache keys.  The cache files of a fetcher do not depend on the
    case in which the symbol was given (the symbol is upper-cased once and
    for all), and two different data types never share a cache file, so
    that no fetcher of a symbol overwrites the cache of another. *)
Theorem cache_keys (E : Env) (sym itv : string) (x y : string) :
  key_path (BaseData_init E (upper sym) itv) x = key_path (BaseData_init E sym itv) x /\
  (x <> y ->
   key_path (BaseData_init E sym itv) x <> key_path (BaseData_init E sym itv) y).
Proof.
  split.
  - unfold key_path, BaseData_init. cbn [symbol interval data_dir].
    now rewrite upper_idempotent.
  - intros Hxy H. apply Hxy. unfold key_path, cache_path in H.
    apply cache_tail_inj in H. now apply append_cancel_r in H.
Qed.

Lemma cache_keys_witness :
  let E := Fixtures.env 0 Fixtures.no_answer in
  key_path (BaseData_init E "BTCUSDT" "4h") "ohlcv"
  = key_path (BaseData_init E "btcusdt" "4h") "ohlcv" /\
  key_path (BaseData_init E "btcusdt" "4h") "ohlcv"
  <> key_path (BaseData_init E "btcusdt" "4h") "orderbook".
Proof.
  intros E. split.
  - exact (proj1 (cache_keys E "btcusdt" "4h" "ohlcv" "orderbook")).
  - apply (proj2 (cache_keys E "btcusdt" "4h" "ohlcv" "orderbook")). discriminate.
Defined.

(** ** The project template *)

Lemma create_files_keeps items : forall (disk : gmap string string) p c,
  disk !! p = Some c -> Template.create_files items disk !! p = Some c.
Proof.
  induction items as [|[filepath content] rest IH]; intros disk p c H; cbn; [exact H|].
  apply IH. destruct (disk !! filepath) eqn:Hd; [exact H|].
  rewrite lookup_insert_ne; [exact H|]. intros ->. congruence.
Qed.

Lemma create_files_all items : forall (disk : gmap string string) p c,
  In (p, c) items -> is_Some (Template.create_files items disk !! p).
Proof.
  induction items as [|[filepath content] rest IH]; intros disk p c Hin; [destruct Hin|].
  cbn. destruct Hin as [[= -> ->] | Hin]; [|now apply (IH _ p c)].
  destruct (disk !! p) as [c'|] eqn:Hd.
  - exists c'. now apply create_files_keeps.
  - exists c. apply create_files_keeps. apply lookup_insert_eq.
Qed.

Lemma create_files_nothing_to_do items : forall (disk : gmap string string),
  (forall p c, In (p, c) items -> is_Some (disk !! p)) ->
  Template.create_files items disk = disk.
Proof.
  induction items as [|[filepath content] rest IH]; intros disk H; cbn; [reflexivity|].
  destruct (H filepath content (or_introl eq_refl)) as [c' ->].
  apply IH. intros p c Hin. apply (H p c). now right.
Qed.

(** X23.  The template script is safe to run again.  Its file loop never
    changes a file that exists; after it every listed file exists; and a
    second run changes nothing. *)
Theorem template_keeps_existing_files (files_to_create : list (string * string))
    (disk : gmap string string) :
  (forall p c, disk !! p = Some c ->
               Template.create_files files_to_create disk !! p = Some c) /\
  (forall p c, In (p, c) files_to_create ->
               is_Some (Template.create_files files_to_create disk !! p)) /\
  Template.create_files files_to_create (Template.create_files files_to_create disk)
  = Template.create_files files_to_create disk.
Proof.
  split; [|split].
  - intros p c. apply create_files_keeps.
  - intros p c. apply create_files_all.
  - apply create_files_nothing_to_do. intros p c. apply create_files_all.
Qed.

(** A README that was edited by hand survives; the missing file is made. *)
Lemma template_keeps_existing_files_witness :
  let items := [("README.md", "# Agentic Crypto Trading Engine"); ("setup.py", " ")] in
  let disk : gmap string string := {["README.md" := "# Mine"]} in
  Template.create_files items disk !! "README.md" = Some "# Mine" /\
  is_Some (Template.create_files items disk !! "setup.py").
Proof.
  intros items disk.
  destruct (template_keeps_existing_files items disk) as (Hkeep & Hall & _).
  split.
  - apply Hkeep. reflexivity.
  - apply (Hall "setup.py" " "). right. left. reflexivity.
Defined.

(** ** The merge can be run again *)

Lemma reads_only_ret {A} P (a : A) : reads_only P (ret a).
Proof. intros w w' H. now split. Qed.

Lemma reads_only_lift {A} P (r : Result A) : reads_only P (lift r).
Proof. intros w w' H. now split. Qed.

Lemma reads_only_emit P ev : reads_only P (emit ev).
Proof. intros w w' H. now split. Qed.

Lemma reads_only_bind {A B} P (m : M A) (k : A -> M B) :
  reads_only P m -> (forall a, reads_only P (k a)) -> reads_only P (bind m k).
Proof.
  intros Hm Hk w w' H. unfold bind. destruct (Hm w w' H) as [Hr Hw].
  destruct (m w) as [r w1], (m w') as [r' w1']. cbn in Hr, Hw. subst r'.
  destruct r as [a|e|]; [now apply Hk | now split | now split].
Qed.

Lemma reads_only_try {A} P (m : M A) h :
  reads_only P m -> (forall e, reads_only P (h e)) -> reads_only P (try_except m h).
Proof.
  intros Hm Hh w w' H. unfold try_except. destruct (Hm w w' H) as [Hr Hw].
  destruct (m w) as [r w1], (m w') as [r' w1']. cbn in Hr, Hw. subst r'.
  destruct r as [a|e|]; [now split | now apply Hh | now split].
Qed.

Lemma reads_only_path_exists (P : string -> Prop) p : P p -> reads_only P (path_exists p).
Proof.
  intros Hp w w' Hf. unfold path_exists. cbn. rewrite (Hf p Hp). now split.
Qed.

Lemma reads_only_read_csv (P : string -> Prop) p : P p -> reads_only P (read_csv p).
Proof.
  intros Hp w w' Hf. unfold read_csv. rewrite (Hf p Hp).
  destruct (files w' !! p) as [[e|df]|]; now split.
Qed.

Lemma reads_only_to_csv (P : string -> Prop) E df p : reads_only P (to_csv E df p).
Proof.
  assert (Hput : forall fd w w', same_on P w w' ->
            same_on P {| files := <[p := fd]> (files w); trace := trace w |}
                      {| files := <[p := fd]> (files w'); trace := trace w' |}).
  { intros fd w w' Hf q Hq. cbn.
    destruct (decide (p = q)) as [->|Hne].
    - now rewrite !lookup_insert_eq.
    - rewrite !lookup_insert_ne by exact Hne. now apply Hf. }
  intros w w' H. unfold to_csv. destruct (writable E p).
  - split; [reflexivity|]. now apply Hput.
  - split; [reflexivity|]. cbn [snd]. destruct (torn E p df); [now apply Hput | exact H].
Qed.

Lemma reads_only_merge_loop (P : string -> Prop) self types :
  (forall data_type, In data_type types ->
     P (cache_path (DataManager.data_dir self) (DataManager.symbol self)
          (DataManager.interval self) data_type)) ->
  forall combined, reads_only P (DataManager.merge_loop self types combined).
Proof.
  induction types as [|data_type rest IH]; intros HP combined; cbn [DataManager.merge_loop].
  - apply reads_only_ret.
  - assert (Hp := HP data_type (or_introl eq_refl)).
    assert (IH' := IH (fun d Hd => HP d (or_intror Hd))).
    apply reads_only_bind; [now apply reads_only_path_exists|]. intros present.
    destruct (negb present).
    + apply reads_only_bind; [apply reads_only_emit|]. intros _. apply IH'.
    + apply reads_only_bind; [now apply reads_only_read_csv|]. intros df.
      apply reads_only_bind; [apply reads_only_lift|]. intros df'.
      destruct combined as [running|]; [|apply IH'].
      apply reads_only_bind; [apply reads_only_lift|]. intros merged. apply IH'.
Qed.

Lemma reads_only_merge (P : string -> Prop) E self :
  (forall data_type, In data_type DataManager.data_types ->
     P (cache_path (DataManager.data_dir self) (DataManager.symbol self)
          (DataManager.interval self) data_type)) ->
  reads_only P (DataManager.merge_data_for_training E self).
Proof.
  intros HP. unfold DataManager.merge_data_for_training, DataManager.merge_try.
  apply reads_only_try.
  - apply reads_only_bind; [now apply reads_only_merge_loop|]. intros [combined|].
    + apply reads_only_bind; [apply reads_only_to_csv|]. intros _.
      apply reads_only_bind; [apply reads_only_emit|]. intros _. apply reads_only_ret.
    + apply reads_only_bind; [apply reads_only_emit|]. intros _. apply reads_only_ret.
  - intros e. apply reads_only_bind; [apply reads_only_emit|]. intros _.
    apply reads_only_ret.
Qed.

Lemma combined_is_no_cache_file self data_type :
  In data_type DataManager.data_types ->
  path_join (DataManager.data_dir self)
    (DataManager.symbol self +:+ "_" +:+ DataManager.interval self +:+ "_combined.csv")
  <> cache_path (DataManager.data_dir self) (DataManager.symbol self)
       (DataManager.interval self) data_type.
Proof.
  intros Hin H. unfold cache_path in H.
  apply (cache_tail_inj _ _ _ "combined.csv" (data_type +:+ ".csv")) in H.
  unfold DataManager.data_types in Hin. cbn in Hin.
  repeat (destruct Hin as [<- | Hin]; [discriminate|]). exact Hin.
Qed.

(** X24.  The merge reads the six cache files and nothing else.  Its
    result is the same in two worlds whose files for the six data types are
    the same, whatever else differs (other files, the combined file, the
    log).  In particular it does not read what it wrote: running it again
    returns the same table. *)
Theorem merge_depends_on_six_files (E : Env) (self : DataManager.t) (w : World) :
  let path := cache_path (DataManager.data_dir self) (DataManager.symbol self)
                (DataManager.interval self) in
  let merge := DataManager.merge_data_for_training E self in
  (forall w',
     (forall data_type, In data_type DataManager.data_types ->
        files w' !! path data_type = files w !! path data_type) ->
     fst (merge w') = fst (merge w)) /\
  fst (merge (snd (merge w))) = fst (merge w).
Proof.
  intros path merge.
  set (P := fun q => exists data_type, In data_type DataManager.data_types /\
                                       q = path data_type).
  assert (Hread : reads_only P merge).
  { apply reads_only_merge. intros data_type Hin. now exists data_type. }
  assert (Hsame : forall w',
             (forall data_type, In data_type DataManager.data_types ->
                files w' !! path data_type = files w !! path data_type) ->
             fst (merge w') = fst (merge w)).
  { intros w' Hfiles. apply Hread. intros q (data_type & Hin & ->). now apply Hfiles. }
  split; [exact Hsame|].
  apply Hsame. intros data_type Hin.
  destruct (merge_files E self w)
    as [[_ [Hf | (_ & combined & fd & _ & Hf)]] | (df & _ & Hf)]; fold merge in Hf;
    rewrite Hf; [reflexivity | |];
    apply lookup_insert_ne; now apply combined_is_no_cache_file.
Qed.

(** The merge of a world with an OHLCV cache, and of the same world after
    a macro file has appeared and the log has grown *)
Lemma merge_depends_on_six_files_witness :
  let E := Fixtures.env 0 Fixtures.no_answer in
  let self := DataManager.init E "btcusdt" "4h" in
  let w := Fixtures.world [(Fixtures.ohlcv_path, Csv Fixtures.ohlcv_table)] in
  let w' := after (Log INFO "later")
              (put_file Fixtures.macro_path (Csv Fixtures.macro_table) w) in
  fst (DataManager.merge_data_for_training E self w')
  = fst (DataManager.merge_data_for_training E self w).
Proof.
  intros E self w w'.
  apply (proj1 (merge_depends_on_six_files E self w)).
  intros data_type Hin. unfold DataManager.data_types in Hin. cbn in Hin.
  repeat (destruct Hin as [<- | Hin]; [vm_compute; reflexivity|]). destruct Hin.
Defined.
